(** * Canvas Bombardment: the simulation core of [src/pages/Index.tsx]

    The closure variables of the [useEffect] body form one [State] record;
    every callback the browser can run (pointer move, click, animation
    frame, timer, resize, unmount) is a function on that record.  The
    browser itself is modelled next to it: the table of pending
    [setTimeout] callbacks, the callback registered with
    [requestAnimationFrame], the count of [Math.random] draws and of
    [window.location.reload] calls, and the paint calls of the last frame.

    Numbers.  JavaScript numbers are read as exact rationals ([Q]); rounding
    of IEEE doubles is not modelled.  [Math.hypot (dx, dy) <= b] is written
    without the square root as [0 <= b] and [dx^2 + dy^2 <= b^2].

    Time.  Every callback receives the value [now] that [performance.now ()]
    returns while it runs; one callback reads one value (a callback takes no
    time).  Callbacks never interleave: JavaScript runs each one to its end. *)

From Stdlib Require Import String.
From Stdlib Require Import QArith Qminmax Qround Qpower Lqa List Bool ZArith Lia PeanoNat.
From Stdlib Require Import Sorted.
From Equations.Prop Require Import Equations Logic.
Import ListNotations.

Open Scope Q_scope.

(** ** Numbers *)

(** [a < b] and [a > b], [a >= b] on JavaScript numbers. *)
Definition Qltb (a b : Q) : bool := negb (Qle_bool b a).
Definition Qgtb (a b : Q) : bool := Qltb b a.
Definition Qgeb (a b : Q) : bool := Qle_bool b a.

(** [const clamp = (v, a, b) => Math.max(a, Math.min(b, v))] *)
Definition clamp (v a b : Q) : Q := Qmax a (Qmin b v).

(** [Math.hypot(dx, dy) <= b] *)
Definition hypot_le (dx dy b : Q) : bool :=
  Qle_bool 0 b && Qle_bool (dx * dx + dy * dy) (b * b).

(** An optional boolean field ([hitBomber?: boolean]) used as a condition:
    [undefined] is falsy. *)
Definition truthy (o : option bool) : bool :=
  match o with Some b => b | None => false end.

(** A timer handle used as a condition ([if (stopTimer)]): [null] and [0]
    are falsy. *)
Definition handle_truthy (o : option nat) : bool :=
  match o with Some (S _) => true | _ => false end.

(** What the model leaves abstract: the stream of [Math.random ()] values and
    the trigonometry used to place exhaust particles. *)
Record Env := mkEnv {
  random : nat -> Q;
  cos : Q -> Q;
  sin : Q -> Q;
  atan2 : Q -> Q -> Q
}.

(** ** Data model *)

Module Vec.
Record t := mk { x : Q; y : Q }.
End Vec.

Module Missile.
Record t := mk { pos : Vec.t; vel : Vec.t; speed : Q }.
End Missile.

Inductive ExplosionKind := nuclear.

Module Explosion.
Record t := mk {
  x : Q;
  y : Q;
  r : Q;
  maxR : Q;
  alive : bool;
  createdAt : Q;
  kind : ExplosionKind;
  lifeMs : Q;
  hitBomber : option bool;
  hitBoy : option bool
}.
Definition set_r (v : Q) (e : t) : t :=
  mk (x e) (y e) v (maxR e) (alive e) (createdAt e) (kind e) (lifeMs e) (hitBomber e) (hitBoy e).
Definition set_alive (v : bool) (e : t) : t :=
  mk (x e) (y e) (r e) (maxR e) v (createdAt e) (kind e) (lifeMs e) (hitBomber e) (hitBoy e).
Definition set_hitBomber (v : option bool) (e : t) : t :=
  mk (x e) (y e) (r e) (maxR e) (alive e) (createdAt e) (kind e) (lifeMs e) v (hitBoy e).
Definition set_hitBoy (v : option bool) (e : t) : t :=
  mk (x e) (y e) (r e) (maxR e) (alive e) (createdAt e) (kind e) (lifeMs e) (hitBomber e) v.
End Explosion.

Module Particle.
Record t := mk { x : Q; y : Q; vx : Q; vy : Q; life : Q; maxLife : Q; size : Q }.
End Particle.

Module Actor.
Record t := mk { x : Q; y : Q; w : Q; h : Q; alive : bool; animTime : Q }.
Definition set_x (v : Q) (a : t) : t := mk v (y a) (w a) (h a) (alive a) (animTime a).
Definition set_y (v : Q) (a : t) : t := mk (x a) v (w a) (h a) (alive a) (animTime a).
Definition set_alive (v : bool) (a : t) : t := mk (x a) (y a) (w a) (h a) v (animTime a).
Definition set_animTime (v : Q) (a : t) : t := mk (x a) (y a) (w a) (h a) (alive a) v.
End Actor.

Module Popup.
Record t := mk { x : Q; y : Q; text : string; life : Q; maxLife : Q }.
End Popup.

(** [color] is the string [hsl(hue, 10%, light%)]; the two numbers are kept. *)
Module Building.
Record t := mk {
  x : Q; y : Q; w : Q; h : Q; angle : Q; angVel : Q; vx : Q; vy : Q;
  hue : Q; light : Q
}.
End Building.

(** The three callbacks the program hands to [setTimeout]. *)
Inductive TimerAction :=
| SettleDetonation   (* () => spawnExplosion(mouse.x, mouse.y) *)
| RespawnBomber      (* () => { if (running) spawnBomber(); } *)
| ReloadPage.        (* () => window.location.reload() *)

Module Timer.
Record t := mk { id : nat; fireAt : Q; action : TimerAction }.
End Timer.

(** The callback registered with [requestAnimationFrame]. *)
Inductive Raf :=
| RafFirst   (* (t) => { lastTime = t; loop(t); } *)
| RafLoop    (* loop *)
| RafNone.   (* cancelled, or not registered again *)

(** A paint call on the canvas, with the state it was handed. *)
Inductive Paint :=
| PBackground
| PExplosion (ex : Explosion.t)
| PMissile (pos : Vec.t) (angle : Q)
| PParticle (p : Particle.t)
| PBoy (a : Actor.t)
| PBomber (a : Actor.t)
| PPopups (ps : list Popup.t)
| PScore (score : Z) (scorePulse : Q)
| PEarthquake (bs : list Building.t)
| PIntro.

Record State := mkState {
  width : Q;
  height : Q;
  mouse : Vec.t;
  lastMouse : Vec.t;
  firstClickHandled : bool;
  stopTimer : option nat;
  missile : Missile.t;
  explosions : list Explosion.t;
  particles : list Particle.t;
  boy : Actor.t;
  bomber : Actor.t;
  score : Z;
  scorePulse : Q;
  popups : list Popup.t;
  startTime : Q;
  lastTime : Q;
  quakeActive : bool;
  quakeStart : Q;
  buildings : list Building.t;
  reloadQueued : bool;
  raf : Raf;
  running : bool;
  (* the browser *)
  listening : bool;          (* the window listeners are attached *)
  timers : list Timer.t;     (* pending setTimeout callbacks, oldest first *)
  nextTimerId : nat;         (* the handle the next setTimeout returns *)
  clock : Q;                 (* performance.now () at the last callback *)
  randomCalls : nat;         (* Math.random () calls so far *)
  reloads : nat;             (* window.location.reload () calls so far *)
  canvas : list Paint        (* paint calls of the last frame, oldest first *)
}.

Definition set_width (v : Q) (s : State) : State :=
  mkState v (height s) (mouse s) (lastMouse s) (firstClickHandled s) (stopTimer s) (missile s)
    (explosions s) (particles s) (boy s) (bomber s) (score s) (scorePulse s) (popups s)
    (startTime s) (lastTime s) (quakeActive s) (quakeStart s) (buildings s) (reloadQueued s)
    (raf s) (running s) (listening s) (timers s) (nextTimerId s) (clock s) (randomCalls s)
    (reloads s) (canvas s).

Definition set_height (v : Q) (s : State) : State :=
  mkState (width s) v (mouse s) (lastMouse s) (firstClickHandled s) (stopTimer s) (missile s)
    (explosions s) (particles s) (boy s) (bomber s) (score s) (scorePulse s) (popups s)
    (startTime s) (lastTime s) (quakeActive s) (quakeStart s) (buildings s) (reloadQueued s)
    (raf s) (running s) (listening s) (timers s) (nextTimerId s) (clock s) (randomCalls s)
    (reloads s) (canvas s).

Definition set_mouse (v : Vec.t) (s : State) : State :=
  mkState (width s) (height s) v (lastMouse s) (firstClickHandled s) (stopTimer s) (missile s)
    (explosions s) (particles s) (boy s) (bomber s) (score s) (scorePulse s) (popups s)
    (startTime s) (lastTime s) (quakeActive s) (quakeStart s) (buildings s) (reloadQueued s)
    (raf s) (running s) (listening s) (timers s) (nextTimerId s) (clock s) (randomCalls s)
    (reloads s) (canvas s).

Definition set_lastMouse (v : Vec.t) (s : State) : State :=
  mkState (width s) (height s) (mouse s) v (firstClickHandled s) (stopTimer s) (missile s)
    (explosions s) (particles s) (boy s) (bomber s) (score s) (scorePulse s) (popups s)
    (startTime s) (lastTime s) (quakeActive s) (quakeStart s) (buildings s) (reloadQueued s)
    (raf s) (running s) (listening s) (timers s) (nextTimerId s) (clock s) (randomCalls s)
    (reloads s) (canvas s).

Definition set_firstClickHandled (v : bool) (s : State) : State :=
  mkState (width s) (height s) (mouse s) (lastMouse s) v (stopTimer s) (missile s) (explosions
    s) (particles s) (boy s) (bomber s) (score s) (scorePulse s) (popups s) (startTime s)
    (lastTime s) (quakeActive s) (quakeStart s) (buildings s) (reloadQueued s) (raf s) (running
    s) (listening s) (timers s) (nextTimerId s) (clock s) (randomCalls s) (reloads s) (canvas s).

Definition set_stopTimer (v : option nat) (s : State) : State :=
  mkState (width s) (height s) (mouse s) (lastMouse s) (firstClickHandled s) v (missile s)
    (explosions s) (particles s) (boy s) (bomber s) (score s) (scorePulse s) (popups s)
    (startTime s) (lastTime s) (quakeActive s) (quakeStart s) (buildings s) (reloadQueued s)
    (raf s) (running s) (listening s) (timers s) (nextTimerId s) (clock s) (randomCalls s)
    (reloads s) (canvas s).

Definition set_missile (v : Missile.t) (s : State) : State :=
  mkState (width s) (height s) (mouse s) (lastMouse s) (firstClickHandled s) (stopTimer s) v
    (explosions s) (particles s) (boy s) (bomber s) (score s) (scorePulse s) (popups s)
    (startTime s) (lastTime s) (quakeActive s) (quakeStart s) (buildings s) (reloadQueued s)
    (raf s) (running s) (listening s) (timers s) (nextTimerId s) (clock s) (randomCalls s)
    (reloads s) (canvas s).

Definition set_explosions (v : list Explosion.t) (s : State) : State :=
  mkState (width s) (height s) (mouse s) (lastMouse s) (firstClickHandled s) (stopTimer s)
    (missile s) v (particles s) (boy s) (bomber s) (score s) (scorePulse s) (popups s)
    (startTime s) (lastTime s) (quakeActive s) (quakeStart s) (buildings s) (reloadQueued s)
    (raf s) (running s) (listening s) (timers s) (nextTimerId s) (clock s) (randomCalls s)
    (reloads s) (canvas s).

Definition set_particles (v : list Particle.t) (s : State) : State :=
  mkState (width s) (height s) (mouse s) (lastMouse s) (firstClickHandled s) (stopTimer s)
    (missile s) (explosions s) v (boy s) (bomber s) (score s) (scorePulse s) (popups s)
    (startTime s) (lastTime s) (quakeActive s) (quakeStart s) (buildings s) (reloadQueued s)
    (raf s) (running s) (listening s) (timers s) (nextTimerId s) (clock s) (randomCalls s)
    (reloads s) (canvas s).

Definition set_boy (v : Actor.t) (s : State) : State :=
  mkState (width s) (height s) (mouse s) (lastMouse s) (firstClickHandled s) (stopTimer s)
    (missile s) (explosions s) (particles s) v (bomber s) (score s) (scorePulse s) (popups s)
    (startTime s) (lastTime s) (quakeActive s) (quakeStart s) (buildings s) (reloadQueued s)
    (raf s) (running s) (listening s) (timers s) (nextTimerId s) (clock s) (randomCalls s)
    (reloads s) (canvas s).

Definition set_bomber (v : Actor.t) (s : State) : State :=
  mkState (width s) (height s) (mouse s) (lastMouse s) (firstClickHandled s) (stopTimer s)
    (missile s) (explosions s) (particles s) (boy s) v (score s) (scorePulse s) (popups s)
    (startTime s) (lastTime s) (quakeActive s) (quakeStart s) (buildings s) (reloadQueued s)
    (raf s) (running s) (listening s) (timers s) (nextTimerId s) (clock s) (randomCalls s)
    (reloads s) (canvas s).

Definition set_score (v : Z) (s : State) : State :=
  mkState (width s) (height s) (mouse s) (lastMouse s) (firstClickHandled s) (stopTimer s)
    (missile s) (explosions s) (particles s) (boy s) (bomber s) v (scorePulse s) (popups s)
    (startTime s) (lastTime s) (quakeActive s) (quakeStart s) (buildings s) (reloadQueued s)
    (raf s) (running s) (listening s) (timers s) (nextTimerId s) (clock s) (randomCalls s)
    (reloads s) (canvas s).

Definition set_scorePulse (v : Q) (s : State) : State :=
  mkState (width s) (height s) (mouse s) (lastMouse s) (firstClickHandled s) (stopTimer s)
    (missile s) (explosions s) (particles s) (boy s) (bomber s) (score s) v (popups s)
    (startTime s) (lastTime s) (quakeActive s) (quakeStart s) (buildings s) (reloadQueued s)
    (raf s) (running s) (listening s) (timers s) (nextTimerId s) (clock s) (randomCalls s)
    (reloads s) (canvas s).

Definition set_popups (v : list Popup.t) (s : State) : State :=
  mkState (width s) (height s) (mouse s) (lastMouse s) (firstClickHandled s) (stopTimer s)
    (missile s) (explosions s) (particles s) (boy s) (bomber s) (score s) (scorePulse s) v
    (startTime s) (lastTime s) (quakeActive s) (quakeStart s) (buildings s) (reloadQueued s)
    (raf s) (running s) (listening s) (timers s) (nextTimerId s) (clock s) (randomCalls s)
    (reloads s) (canvas s).

Definition set_lastTime (v : Q) (s : State) : State :=
  mkState (width s) (height s) (mouse s) (lastMouse s) (firstClickHandled s) (stopTimer s)
    (missile s) (explosions s) (particles s) (boy s) (bomber s) (score s) (scorePulse s) (popups
    s) (startTime s) v (quakeActive s) (quakeStart s) (buildings s) (reloadQueued s) (raf s)
    (running s) (listening s) (timers s) (nextTimerId s) (clock s) (randomCalls s) (reloads s)
    (canvas s).

Definition set_quakeActive (v : bool) (s : State) : State :=
  mkState (width s) (height s) (mouse s) (lastMouse s) (firstClickHandled s) (stopTimer s)
    (missile s) (explosions s) (particles s) (boy s) (bomber s) (score s) (scorePulse s) (popups
    s) (startTime s) (lastTime s) v (quakeStart s) (buildings s) (reloadQueued s) (raf s)
    (running s) (listening s) (timers s) (nextTimerId s) (clock s) (randomCalls s) (reloads s)
    (canvas s).

Definition set_quakeStart (v : Q) (s : State) : State :=
  mkState (width s) (height s) (mouse s) (lastMouse s) (firstClickHandled s) (stopTimer s)
    (missile s) (explosions s) (particles s) (boy s) (bomber s) (score s) (scorePulse s) (popups
    s) (startTime s) (lastTime s) (quakeActive s) v (buildings s) (reloadQueued s) (raf s)
    (running s) (listening s) (timers s) (nextTimerId s) (clock s) (randomCalls s) (reloads s)
    (canvas s).

Definition set_buildings (v : list Building.t) (s : State) : State :=
  mkState (width s) (height s) (mouse s) (lastMouse s) (firstClickHandled s) (stopTimer s)
    (missile s) (explosions s) (particles s) (boy s) (bomber s) (score s) (scorePulse s) (popups
    s) (startTime s) (lastTime s) (quakeActive s) (quakeStart s) v (reloadQueued s) (raf s)
    (running s) (listening s) (timers s) (nextTimerId s) (clock s) (randomCalls s) (reloads s)
    (canvas s).

Definition set_reloadQueued (v : bool) (s : State) : State :=
  mkState (width s) (height s) (mouse s) (lastMouse s) (firstClickHandled s) (stopTimer s)
    (missile s) (explosions s) (particles s) (boy s) (bomber s) (score s) (scorePulse s) (popups
    s) (startTime s) (lastTime s) (quakeActive s) (quakeStart s) (buildings s) v (raf s)
    (running s) (listening s) (timers s) (nextTimerId s) (clock s) (randomCalls s) (reloads s)
    (canvas s).

Definition set_raf (v : Raf) (s : State) : State :=
  mkState (width s) (height s) (mouse s) (lastMouse s) (firstClickHandled s) (stopTimer s)
    (missile s) (explosions s) (particles s) (boy s) (bomber s) (score s) (scorePulse s) (popups
    s) (startTime s) (lastTime s) (quakeActive s) (quakeStart s) (buildings s) (reloadQueued s)
    v (running s) (listening s) (timers s) (nextTimerId s) (clock s) (randomCalls s) (reloads s)
    (canvas s).

Definition set_running (v : bool) (s : State) : State :=
  mkState (width s) (height s) (mouse s) (lastMouse s) (firstClickHandled s) (stopTimer s)
    (missile s) (explosions s) (particles s) (boy s) (bomber s) (score s) (scorePulse s) (popups
    s) (startTime s) (lastTime s) (quakeActive s) (quakeStart s) (buildings s) (reloadQueued s)
    (raf s) v (listening s) (timers s) (nextTimerId s) (clock s) (randomCalls s) (reloads s)
    (canvas s).

Definition set_listening (v : bool) (s : State) : State :=
  mkState (width s) (height s) (mouse s) (lastMouse s) (firstClickHandled s) (stopTimer s)
    (missile s) (explosions s) (particles s) (boy s) (bomber s) (score s) (scorePulse s) (popups
    s) (startTime s) (lastTime s) (quakeActive s) (quakeStart s) (buildings s) (reloadQueued s)
    (raf s) (running s) v (timers s) (nextTimerId s) (clock s) (randomCalls s) (reloads s)
    (canvas s).

Definition set_timers (v : list Timer.t) (s : State) : State :=
  mkState (width s) (height s) (mouse s) (lastMouse s) (firstClickHandled s) (stopTimer s)
    (missile s) (explosions s) (particles s) (boy s) (bomber s) (score s) (scorePulse s) (popups
    s) (startTime s) (lastTime s) (quakeActive s) (quakeStart s) (buildings s) (reloadQueued s)
    (raf s) (running s) (listening s) v (nextTimerId s) (clock s) (randomCalls s) (reloads s)
    (canvas s).

Definition set_nextTimerId (v : nat) (s : State) : State :=
  mkState (width s) (height s) (mouse s) (lastMouse s) (firstClickHandled s) (stopTimer s)
    (missile s) (explosions s) (particles s) (boy s) (bomber s) (score s) (scorePulse s) (popups
    s) (startTime s) (lastTime s) (quakeActive s) (quakeStart s) (buildings s) (reloadQueued s)
    (raf s) (running s) (listening s) (timers s) v (clock s) (randomCalls s) (reloads s) (canvas
    s).

Definition set_clock (v : Q) (s : State) : State :=
  mkState (width s) (height s) (mouse s) (lastMouse s) (firstClickHandled s) (stopTimer s)
    (missile s) (explosions s) (particles s) (boy s) (bomber s) (score s) (scorePulse s) (popups
    s) (startTime s) (lastTime s) (quakeActive s) (quakeStart s) (buildings s) (reloadQueued s)
    (raf s) (running s) (listening s) (timers s) (nextTimerId s) v (randomCalls s) (reloads s)
    (canvas s).

Definition set_randomCalls (v : nat) (s : State) : State :=
  mkState (width s) (height s) (mouse s) (lastMouse s) (firstClickHandled s) (stopTimer s)
    (missile s) (explosions s) (particles s) (boy s) (bomber s) (score s) (scorePulse s) (popups
    s) (startTime s) (lastTime s) (quakeActive s) (quakeStart s) (buildings s) (reloadQueued s)
    (raf s) (running s) (listening s) (timers s) (nextTimerId s) (clock s) v (reloads s) (canvas
    s).

Definition set_reloads (v : nat) (s : State) : State :=
  mkState (width s) (height s) (mouse s) (lastMouse s) (firstClickHandled s) (stopTimer s)
    (missile s) (explosions s) (particles s) (boy s) (bomber s) (score s) (scorePulse s) (popups
    s) (startTime s) (lastTime s) (quakeActive s) (quakeStart s) (buildings s) (reloadQueued s)
    (raf s) (running s) (listening s) (timers s) (nextTimerId s) (clock s) (randomCalls s) v
    (canvas s).

Definition set_canvas (v : list Paint) (s : State) : State :=
  mkState (width s) (height s) (mouse s) (lastMouse s) (firstClickHandled s) (stopTimer s)
    (missile s) (explosions s) (particles s) (boy s) (bomber s) (score s) (scorePulse s) (popups
    s) (startTime s) (lastTime s) (quakeActive s) (quakeStart s) (buildings s) (reloadQueued s)
    (raf s) (running s) (listening s) (timers s) (nextTimerId s) (clock s) (randomCalls s)
    (reloads s) v.

(** [l[i] = v] for an index inside the array. *)
Fixpoint set_nth {A : Type} (i : nat) (v : A) (l : list A) : list A :=
  match l, i with
  | [], _ => []
  | _ :: t, O => v :: t
  | a :: t, S j => a :: set_nth j v t
  end.

Section Game.

Variable env : Env.

(** ** Browser services *)

(** [Math.random ()] *)
Definition Math_random (s : State) : Q * State :=
  (random env (randomCalls s), set_randomCalls (S (randomCalls s)) s).

(** [setTimeout(callback, delay)]: the callback becomes due [delay] ms from
    now and the fresh handle is returned. *)
Definition setTimeout (a : TimerAction) (delay now : Q) (s : State) : nat * State :=
  let id := nextTimerId s in
  (id, set_nextTimerId (S id) (set_timers (timers s ++ [Timer.mk id (now + delay) a]) s)).

(** [clearTimeout(handle)]: drops the pending callback with that handle, if
    there is one. *)
Definition clearTimeout (h : option nat) (s : State) : State :=
  match h with
  | Some id => set_timers (filter (fun t => negb (Nat.eqb (Timer.id t) id)) (timers s)) s
  | None => s
  end.

Definition paint (p : Paint) (s : State) : State :=
  set_canvas (canvas s ++ [p]) s.

(** ** Input handlers *)

(** [const groundY = () => Math.min(height - 40, height * 0.9)] *)
Definition groundY (s : State) : Q := Qmin (height s - 40) (height s * 0.9).

Definition spawnExplosion (now x y : Q) (s : State) : State :=
  set_explosions
    (explosions s ++ [Explosion.mk x y 0 140 true now nuclear 1200 None None]) s.

Definition onMouseMove (now clientX clientY rectLeft rectTop : Q) (s : State) : State :=
  let x := clientX - rectLeft in
  let y := clientY - rectTop in
  let s := set_mouse (Vec.mk x y) s in
  let s := if handle_truthy (stopTimer s) then clearTimeout (stopTimer s) s else s in
  if firstClickHandled s then
    let '(id, s) := setTimeout SettleDetonation 240 now s in
    set_stopTimer (Some id) s
  else s.

Definition onClick (now clientX clientY rectLeft rectTop : Q) (s : State) : State :=
  let x := clientX - rectLeft in
  let y := clientY - rectTop in
  let s := if negb (firstClickHandled s) then set_firstClickHandled true s else s in
  spawnExplosion now x y s.

(** [resize]; the device pixel ratio only scales the backing store. *)
Definition resize (innerWidth innerHeight : Q) (s : State) : State :=
  set_height (inject_Z (Qfloor innerHeight)) (set_width (inject_Z (Qfloor innerWidth)) s).

(** ** Painting (the parts that write to the state) *)

Definition drawBackground (s : State) : State := set_canvas [PBackground] s.

Definition drawScore (s : State) : State := paint (PScore (score s) (scorePulse s)) s.

Definition drawPopups (s : State) : State := paint (PPopups (popups s)) s.

(** One pass of the exhaust loop of [drawMissile]; the four [Math.random ()]
    calls are made in the order of the object literal. *)
Definition pushParticle (angle : Q) (s : State) : State :=
  let '(r1, s) := Math_random s in
  let '(r2, s) := Math_random s in
  let '(r3, s) := Math_random s in
  let '(r4, s) := Math_random s in
  let p := Missile.pos (missile s) in
  set_particles
    (particles s ++
       [Particle.mk (Vec.x p - cos env angle * 16) (Vec.y p - sin env angle * 16)
          ((r1 - 0.5) * 0.4 - cos env angle * 0.3)
          ((r2 - 0.5) * 0.4 - sin env angle * 0.3)
          0 (600 + r3 * 400) (2 + r4 * 2)]) s.

Definition drawMissile (s : State) : State :=
  if negb (firstClickHandled s) then s
  else
    let dirx := Vec.x (mouse s) - Vec.x (Missile.pos (missile s)) in
    let diry := Vec.y (mouse s) - Vec.y (Missile.pos (missile s)) in
    let angle := atan2 env diry dirx in
    let s := pushParticle angle (pushParticle angle s) in
    paint (PMissile (Missile.pos (missile s)) angle) s.

Definition ageParticle (dt : Q) (p : Particle.t) : Particle.t :=
  Particle.mk (Particle.x p + Particle.vx p * dt) (Particle.y p + Particle.vy p * dt)
    (Particle.vx p) (Particle.vy p - 0.0003 * dt)
    (Particle.life p + dt) (Particle.maxLife p) (Particle.size p).

(** The loop of [drawParticles] runs from the last index down, so the tail
    is aged, painted and spliced before the head. *)
Fixpoint drawParticles_loop (dt : Q) (ps : list Particle.t) : list Particle.t * list Paint :=
  match ps with
  | [] => ([], [])
  | p :: rest =>
      let '(rest', paints) := drawParticles_loop dt rest in
      let p' := ageParticle dt p in
      (if Qgeb (Particle.life p') (Particle.maxLife p') then rest' else p' :: rest',
       paints ++ [PParticle p'])
  end.

Definition drawParticles (dt : Q) (s : State) : State :=
  let '(ps, paints) := drawParticles_loop dt (particles s) in
  set_canvas (canvas s ++ paints) (set_particles ps s).

(** The state-changing line of [drawNuclearExplosion]:
    [ex.r = ex.maxR * (0.2 + 0.8 * t)] with
    [t = clamp(elapsed / ex.lifeMs, 0, 1)]. *)
Definition drawNuclearExplosion (now : Q) (ex : Explosion.t) : Explosion.t :=
  let elapsed := now - Explosion.createdAt ex in
  let t := clamp (elapsed / Explosion.lifeMs ex) 0 1 in
  Explosion.set_r (Explosion.maxR ex * (0.2 + 0.8 * t)) ex.

(** [for (const ex of explosions) if (ex.alive) drawNuclearExplosion(ex);] *)
Definition drawExplosions (now : Q) (s : State) : State :=
  let exs :=
    map (fun ex => if Explosion.alive ex then drawNuclearExplosion now ex else ex)
      (explosions s) in
  set_canvas (canvas s ++ map PExplosion (filter Explosion.alive exs))
    (set_explosions exs s).

Definition drawBoy (dt : Q) (s : State) : State :=
  if negb (Actor.alive (boy s)) then s
  else
    let a := Actor.set_animTime (Actor.animTime (boy s) + dt) (boy s) in
    paint (PBoy a) (set_boy a s).

Definition drawBomber (dt : Q) (s : State) : State :=
  if negb (Actor.alive (bomber s)) then s
  else
    let a := Actor.set_animTime (Actor.animTime (bomber s) + dt) (bomber s) in
    paint (PBomber a) (set_bomber a s).

(** The clean-up loop of [loop]: every explosion with
    [performance.now() - ex.createdAt > ex.lifeMs] is marked dead and
    spliced out; nothing else refers to a spliced explosion. *)
Definition stale (now : Q) (ex : Explosion.t) : bool :=
  Qgtb (now - Explosion.createdAt ex) (Explosion.lifeMs ex).

Definition cleanupExplosions (now : Q) (s : State) : State :=
  set_explosions (filter (fun ex => negb (stale now ex)) (explosions s)) s.

Definition toppleBuilding (dt : Q) (b : Building.t) : Building.t :=
  let vy := Building.vy b + 0.0004 * dt in
  Building.mk (Building.x b + Building.vx b * dt) (Building.y b + vy * dt)
    (Building.w b) (Building.h b) (Building.angle b + Building.angVel b * dt)
    (Building.angVel b) (Building.vx b) vy (Building.hue b) (Building.light b).

(** [drawEarthquake]: two [Math.random ()] calls shake the view, then every
    building is moved and painted. *)
Definition drawEarthquake (dt : Q) (s : State) : State :=
  let '(_, s) := Math_random s in
  let '(_, s) := Math_random s in
  let bs := map (toppleBuilding dt) (buildings s) in
  paint (PEarthquake bs) (set_buildings bs s).

(** ** [update] *)

Definition spawnBomber (s : State) : State :=
  set_bomber
    (Actor.set_y (groundY s - 200)
       (Actor.set_x (-200) (Actor.set_animTime 0 (Actor.set_alive true (bomber s))))) s.

(** One pass of the building loop of [triggerEarthquake]. *)
Definition pushBuilding (i : nat) (cols : Z) (base : Q) (s : State) : State :=
  let '(r1, s) := Math_random s in
  let bw := 60 + r1 * 60 in
  let '(r2, s) := Math_random s in
  let bh := 80 + r2 * 140 in
  let bx := (inject_Z (Z.of_nat i) + 0.5) * (width s / inject_Z cols) in
  let '(r3, s) := Math_random s in
  let '(r4, s) := Math_random s in
  let '(r5, s) := Math_random s in
  let '(r6, s) := Math_random s in
  let '(r7, s) := Math_random s in
  set_buildings
    (buildings s ++
       [Building.mk bx base bw bh 0 ((r3 - 0.5) * 0.0025) ((r4 - 0.5) * 0.02)
          (-0.02 - r5 * 0.02) (200 + r6 * 40) (20 + r7 * 20)]) s.

Fixpoint pushBuildings (n i : nat) (cols : Z) (base : Q) (s : State) : State :=
  match n with
  | O => s
  | S n' => pushBuildings n' (S i) cols base (pushBuilding i cols base s)
  end.

Definition quakeDuration : Q := 2200.

Definition triggerEarthquake (now : Q) (s : State) : State :=
  let s := set_quakeActive true s in
  let s := set_quakeStart now s in
  let s := set_buildings [] s in
  let base := groundY s in
  let cols := Z.max 6 (Qceiling (width s / 120)) in
  let s := pushBuildings (Z.to_nat cols) 0 cols base s in
  if negb (reloadQueued s) then
    let s := set_reloadQueued true s in
    snd (setTimeout ReloadPage (quakeDuration + 300) now s)
  else s.

(** [// missile follow] *)
Definition missileFollow (s : State) : State :=
  if firstClickHandled s then
    let m := missile s in
    let px := Vec.x (Missile.pos m) + (Vec.x (mouse s) - Vec.x (Missile.pos m)) * Missile.speed m in
    let py := Vec.y (Missile.pos m) + (Vec.y (mouse s) - Vec.y (Missile.pos m)) * Missile.speed m in
    let v := Vec.mk (px - Vec.x (lastMouse s)) (py - Vec.y (lastMouse s)) in
    set_lastMouse (Vec.mk px py) (set_missile (Missile.mk (Vec.mk px py) v (Missile.speed m)) s)
  else s.

(** [// spawn boy & bomber after 30s] *)
Definition spawnActors (now : Q) (s : State) : State :=
  let t := now - startTime s in
  if Qgtb t 30000 then
    let s :=
      if negb (Actor.alive (boy s)) then
        set_boy (Actor.set_y (groundY s - 8) (Actor.set_x (-80) (Actor.set_alive true (boy s)))) s
      else s in
    if negb (Actor.alive (bomber s)) then spawnBomber s else s
  else s.

(** [// move boy] *)
Definition moveBoy (dt : Q) (s : State) : State :=
  if Actor.alive (boy s) then
    let s := set_boy (Actor.set_x (Actor.x (boy s) + 0.12 * dt) (boy s)) s in
    if Qgtb (Actor.x (boy s) - Actor.w (boy s) / 2) (width s + 40)
    then set_boy (Actor.set_x (-80) (boy s)) s
    else s
  else s.

(** [// bomber behavior] *)
Definition bomberBehavior (dt : Q) (s : State) : State :=
  if Actor.alive (bomber s) && Actor.alive (boy s) then
    let targetX := Actor.x (boy s) - 160 in
    let targetY := Actor.y (boy s) - 180 in
    let b := bomber s in
    let b := Actor.set_x (Actor.x b + (targetX - Actor.x b) * 0.03) b in
    let b := Actor.set_y (Actor.y b + (targetY - Actor.y b) * 0.03) b in
    set_bomber b s
  else if Actor.alive (bomber s) then
    let s := set_bomber (Actor.set_x (Actor.x (bomber s) + 0.08 * dt) (bomber s)) s in
    if Qgtb (Actor.x (bomber s) - Actor.w (bomber s) / 2) (width s + 60)
    then set_bomber (Actor.set_x (-120) (bomber s)) s
    else s
  else s.

Definition agePopup (dt : Q) (p : Popup.t) : Popup.t :=
  Popup.mk (Popup.x p) (Popup.y p - 0.035 * dt) (Popup.text p) (Popup.life p + dt)
    (Popup.maxLife p).

(** The popup loop runs from the last index down; each popup is aged and
    spliced out once [p.life >= p.maxLife]. *)
Fixpoint agePopups (dt : Q) (ps : list Popup.t) : list Popup.t :=
  match ps with
  | [] => []
  | p :: rest =>
      let rest' := agePopups dt rest in
      let p' := agePopup dt p in
      if Qgeb (Popup.life p') (Popup.maxLife p') then rest' else p' :: rest'
  end.

(** [// score pulse decay and popup updates] *)
Definition decayFeedback (dt : Q) (s : State) : State :=
  set_popups (agePopups dt (popups s)) (set_scorePulse (Qmax 0 (scorePulse s - dt / 400)) s).

Definition circleHit (ex : Explosion.t) (cx cy radius : Q) : bool :=
  let dx := Explosion.x ex - cx in
  let dy := Explosion.y ex - cy in
  hypot_le dx dy (Explosion.r ex + radius).

(** The two conditions of the collision loop. *)
Definition bomberHit (ex : Explosion.t) (s : State) : bool :=
  Actor.alive (bomber s) && negb (truthy (Explosion.hitBomber ex))
  && circleHit ex (Actor.x (bomber s)) (Actor.y (bomber s)) 40.

Definition boyHit (ex : Explosion.t) (s : State) : bool :=
  Actor.alive (boy s) && negb (truthy (Explosion.hitBoy ex))
  && circleHit ex (Actor.x (boy s)) (Actor.y (boy s) - Actor.h (boy s) / 2) 28.

(** [// Bomber destruction].  [ex] is the loop variable: the object is
    threaded through the body and written back to its slot at the end. *)
Definition bomberDestruction (now : Q) (ex : Explosion.t) (s : State) : Explosion.t * State :=
  if bomberHit ex s then
    let ex := Explosion.set_hitBomber (Some true) ex in
    let s := set_score (score s + 1)%Z s in
    let s := set_scorePulse 1 s in
    let s :=
      set_popups
        (popups s ++ [Popup.mk (Actor.x (bomber s)) (Actor.y (bomber s) - 20) "+1" 0 900]) s in
    let s := spawnExplosion now (Actor.x (bomber s)) (Actor.y (bomber s)) s in
    let s := set_bomber (Actor.set_alive false (bomber s)) s in
    (ex, snd (setTimeout RespawnBomber 1200 now s))
  else (ex, s).

(** [// Boy hit -> earthquake crash] *)
Definition boyCrash (now : Q) (ex : Explosion.t) (s : State) : Explosion.t * State :=
  if boyHit ex s then
    let ex := Explosion.set_hitBoy (Some true) ex in
    let s := set_boy (Actor.set_alive false (boy s)) s in
    (ex, triggerEarthquake now s)
  else (ex, s).

(** The body of [for (const ex of explosions)] at index [i]. *)
Definition collide (now : Q) (i : nat) (ex : Explosion.t) (s : State) : State :=
  if negb (Explosion.alive ex) then s
  else
    let '(ex, s) := bomberDestruction now ex s in
    let '(ex, s) := boyCrash now ex s in
    set_explosions (set_nth i ex (explosions s)) s.

(** *** The collision loop

    [for (const ex of explosions)] reads the array through an index and
    looks at its length again before every pass, so an explosion pushed by
    the body is visited by the same loop.  The loop ends because a pass
    pushes only when it turns [bomber.alive] off. *)

Definition collide_measure (i : nat) (s : State) : nat :=
  (length (explosions s) - i) + (if Actor.alive (bomber s) then 1 else 0).

Lemma set_nth_length {A : Type} (i : nat) (v : A) (l : list A) :
  length (set_nth i v l) = length l.
Proof.
  revert i; induction l as [|a l IH]; intros [|i]; simpl; auto.
Qed.

Lemma pushBuildings_frame (n i : nat) (cols : Z) (base : Q) (s : State) :
  exists bs m,
    pushBuildings n i cols base s =
    set_buildings (buildings s ++ bs) (set_randomCalls m s)
    /\ length bs = n.
Proof.
  revert i s; induction n as [|n IH]; intros i s.
  - exists [], (randomCalls s). split; [|reflexivity].
    simpl. rewrite app_nil_r. destruct s; reflexivity.
  - destruct (IH (S i) (pushBuilding i cols base s)) as [bs [m [E L]]].
    cbn [pushBuildings]. rewrite E.
    eexists (_ :: bs), m. split; [|simpl; rewrite L; reflexivity].
    unfold pushBuilding, Math_random; cbn.
    rewrite <- app_assoc. reflexivity.
Qed.

Lemma triggerEarthquake_frame (now : Q) (s : State) :
  exists bs n,
    triggerEarthquake now s =
    (if reloadQueued s
     then fun s' => s'
     else fun s' => snd (setTimeout ReloadPage (quakeDuration + 300) now
                           (set_reloadQueued true s')))
      (set_buildings bs (set_randomCalls n
         (set_quakeStart now (set_quakeActive true s)))).
Proof.
  unfold triggerEarthquake.
  match goal with
  | |- context [pushBuildings ?n ?i ?c ?b ?s0] =>
      destruct (pushBuildings_frame n i c b s0) as [bs [m [E _]]]; rewrite E
  end.
  exists bs. eexists. cbn. destruct (reloadQueued s); reflexivity.
Qed.

Lemma triggerEarthquake_explosions now s :
  explosions (triggerEarthquake now s) = explosions s.
Proof.
  destruct (triggerEarthquake_frame now s) as [bs [n E]]; rewrite E.
  destruct (reloadQueued s); reflexivity.
Qed.

Lemma triggerEarthquake_bomber now s :
  bomber (triggerEarthquake now s) = bomber s.
Proof.
  destruct (triggerEarthquake_frame now s) as [bs [n E]]; rewrite E.
  destruct (reloadQueued s); reflexivity.
Qed.

Lemma boyCrash_explosions now ex s :
  explosions (snd (boyCrash now ex s)) = explosions s.
Proof.
  unfold boyCrash. destruct (boyHit ex s); cbn [snd]; [|reflexivity].
  rewrite triggerEarthquake_explosions. reflexivity.
Qed.

Lemma boyCrash_bomber now ex s :
  bomber (snd (boyCrash now ex s)) = bomber s.
Proof.
  unfold boyCrash. destruct (boyHit ex s); cbn [snd]; [|reflexivity].
  rewrite triggerEarthquake_bomber. reflexivity.
Qed.

(** A pass of the bomber branch either changes nothing, or was entered with
    the bomber alive and leaves it dead with one explosion pushed. *)
Lemma bomberDestruction_cases now ex s :
  (bomberHit ex s = false /\ bomberDestruction now ex s = (ex, s))
  \/ (bomberHit ex s = true
      /\ Actor.alive (bomber s) = true
      /\ Actor.alive (bomber (snd (bomberDestruction now ex s))) = false
      /\ explosions (snd (bomberDestruction now ex s)) =
         explosions s ++
           [Explosion.mk (Actor.x (bomber s)) (Actor.y (bomber s)) 0 140 true now
              nuclear 1200 None None]).
Proof.
  unfold bomberDestruction. destruct (bomberHit ex s) eqn:H; [right|left; auto].
  split; [reflexivity|]. split; [|split; reflexivity].
  unfold bomberHit in H. destruct (Actor.alive (bomber s)); [reflexivity|discriminate].
Qed.

Lemma collide_explosions now i ex s :
  explosions (collide now i ex s) =
  if negb (Explosion.alive ex) then explosions s
  else
    set_nth i (fst (boyCrash now (fst (bomberDestruction now ex s))
                      (snd (bomberDestruction now ex s))))
      (explosions (snd (bomberDestruction now ex s))).
Proof.
  unfold collide. destruct (negb (Explosion.alive ex)); [reflexivity|].
  destruct (bomberDestruction now ex s) as [ex1 s1]. cbn [fst snd].
  pose proof (boyCrash_explosions now ex1 s1) as E.
  destruct (boyCrash now ex1 s1) as [ex2 s2]. cbn [fst snd] in *.
  cbn [explosions set_explosions]. rewrite E. reflexivity.
Qed.

Lemma collide_bomber now i ex s :
  bomber (collide now i ex s) =
  if negb (Explosion.alive ex) then bomber s
  else bomber (snd (bomberDestruction now ex s)).
Proof.
  unfold collide. destruct (negb (Explosion.alive ex)); [reflexivity|].
  destruct (bomberDestruction now ex s) as [ex1 s1]. cbn [fst snd].
  pose proof (boyCrash_bomber now ex1 s1) as E.
  destruct (boyCrash now ex1 s1) as [ex2 s2]. cbn [fst snd] in *.
  cbn [bomber set_explosions]. exact E.
Qed.

Lemma collide_decreases now i ex s :
  nth_error (explosions s) i = Some ex ->
  (collide_measure (S i) (collide now i ex s) < collide_measure i s)%nat.
Proof.
  intros H.
  assert (Hi : (i < length (explosions s))%nat)
    by (apply nth_error_Some; congruence).
  unfold collide_measure.
  rewrite collide_explosions, collide_bomber.
  destruct (negb (Explosion.alive ex)); [lia|].
  rewrite set_nth_length.
  destruct (bomberDestruction_cases now ex s) as [[_ E]|[_ [A [B E]]]].
  - rewrite E. cbn [snd]. lia.
  - rewrite E, A, B, length_app. cbn [length]. lia.
Qed.

Equations? collisions (now : Q) (i : nat) (s : State) : State
  by wf (collide_measure i s) lt :=
  collisions now i s with inspect (nth_error (explosions s) i) := {
    | exist _ (Some ex) _ => collisions now (S i) (collide now i ex s)
    | exist _ None _ => s }.
Proof. apply collide_decreases; assumption. Qed.

Definition update (dt now : Q) (s : State) : State :=
  let s := missileFollow s in
  let s := spawnActors now s in
  let s := moveBoy dt s in
  let s := bomberBehavior dt s in
  let s := decayFeedback dt s in
  collisions now 0 s.

(** ** The frame *)

Definition loop (time now : Q) (s : State) : State :=
  if negb (running s) then s
  else
    let dt := time - lastTime s in
    let s := set_lastTime time s in
    let s := drawBackground s in
    let s := update dt now s in
    let s := drawExplosions now s in
    let s := drawMissile s in
    let s := drawParticles dt s in
    let s := drawBoy dt s in
    let s := drawBomber dt s in
    let s := drawPopups s in
    let s := drawScore s in
    let s := cleanupExplosions now s in
    let s := if quakeActive s then drawEarthquake dt s else s in
    let s := if negb (firstClickHandled s) then paint PIntro s else s in
    set_raf RafLoop s.

(** The function returned by the effect (React runs it on unmount). *)
Definition cleanup (s : State) : State :=
  let s := set_running false s in
  let s := set_raf RafNone s in
  let s := if handle_truthy (stopTimer s) then clearTimeout (stopTimer s) s else s in
  set_listening false s.

(** ** Callbacks as events *)

Inductive Event :=
| PointerMove (clientX clientY rectLeft rectTop : Q)
| Click (clientX clientY rectLeft rectTop : Q)
| Frame (time : Q)
| TimerFires (id : nat)
| Resize (innerWidth innerHeight : Q)
| Unmount.

Definition find_timer (id : nat) (s : State) : option Timer.t :=
  find (fun t => Nat.eqb (Timer.id t) id) (timers s).

Definition runTimer (now : Q) (a : TimerAction) (s : State) : State :=
  match a with
  | SettleDetonation => spawnExplosion now (Vec.x (mouse s)) (Vec.y (mouse s)) s
  | RespawnBomber => if running s then spawnBomber s else s
  | ReloadPage => set_reloads (S (reloads s)) s
  end.

(** The browser runs one callback at time [now].  [None]: the browser
    cannot run it (time does not go back; a listener that was removed is
    not called; a timer runs only while pending and not before it is due;
    a frame runs only while a callback is registered). *)
Definition handle (now : Q) (e : Event) (s : State) : option State :=
  if negb (Qle_bool (clock s) now) then None
  else
    let s := set_clock now s in
    match e with
    | PointerMove cx cy l t =>
        if listening s then Some (onMouseMove now cx cy l t s) else None
    | Click cx cy l t =>
        if listening s then Some (onClick now cx cy l t s) else None
    | Resize w h =>
        if listening s then Some (resize w h s) else None
    | Unmount =>
        if listening s then Some (cleanup s) else None
    | Frame time =>
        match raf s with
        | RafFirst => Some (loop time now (set_lastTime time (set_raf RafNone s)))
        | RafLoop => Some (loop time now (set_raf RafNone s))
        | RafNone => None
        end
    | TimerFires id =>
        match find_timer id s with
        | Some t =>
            if Qle_bool (Timer.fireAt t) now
            then Some (runTimer now (Timer.action t) (clearTimeout (Some id) s))
            else None
        | None => None
        end
    end.

Fixpoint run (es : list (Q * Event)) (s : State) : option State :=
  match es with
  | [] => Some s
  | (now, e) :: rest =>
      match handle now e s with
      | Some s' => run rest s'
      | None => None
      end
  end.

End Game.

(** The state the effect builds before the first callback runs, for a
    window of the given inner size at time [now]. *)
Definition init (innerWidth innerHeight now : Q) : State :=
  let width := inject_Z (Qfloor innerWidth) in
  let height := inject_Z (Qfloor innerHeight) in
  let ground := Qmin (height - 40) (height * 0.9) in
  mkState width height
    (Vec.mk (width / 2) (height / 2)) (Vec.mk (width / 2) (height / 2))
    false None
    (Missile.mk (Vec.mk (width / 2) (height / 2)) (Vec.mk 0 0) 0.15)
    [] []
    (Actor.mk (-80) (ground - 40) 28 46 false 0)
    (Actor.mk (-200) (ground - 200) 110 34 false 0)
    0%Z 0 [] now now false 0 [] false RafFirst true
    true [] 1%nat now 0%nat 0%nat [].

(** * Vocabulary of the proofs

    Definitions that are not code of the program: projections of the state,
    the transition system of the control fields, invariants, and the runs
    used as examples. *)

Record Control := mkControl {
  c_timers : list Timer.t;
  c_nextTimerId : nat;
  c_stopTimer : option nat;
  c_reloadQueued : bool;
  c_reloads : nat;
  c_firstClickHandled : bool;
  c_mouse : Vec.t;
  c_clock : Q;
  c_listening : bool;
  c_running : bool;
  c_score : Z;
  c_quakeActive : bool;
  c_startTime : Q;
  c_width : Q;
  c_height : Q
}.

Definition control (s : State) : Control :=
  mkControl (timers s) (nextTimerId s) (stopTimer s) (reloadQueued s) (reloads s)
    (firstClickHandled s) (mouse s) (clock s) (listening s) (running s) (score s)
    (quakeActive s) (startTime s) (width s) (height s).

(** The part of [update] that runs before the collision loop. *)
Definition prelude (dt now : Q) (s : State) : State :=
  decayFeedback dt (bomberBehavior dt (moveBoy dt (spawnActors now (missileFollow s)))).

Definition scored (now : Q) (c : Control) : Control :=
  mkControl (c_timers c ++ [Timer.mk (c_nextTimerId c) (now + 1200) RespawnBomber])
    (S (c_nextTimerId c)) (c_stopTimer c) (c_reloadQueued c) (c_reloads c)
    (c_firstClickHandled c) (c_mouse c) (c_clock c) (c_listening c) (c_running c)
    (c_score c + 1)%Z (c_quakeActive c) (c_startTime c) (c_width c) (c_height c).

Definition crashed (now : Q) (c : Control) : Control :=
  if c_reloadQueued c then
    mkControl (c_timers c) (c_nextTimerId c) (c_stopTimer c) true (c_reloads c)
      (c_firstClickHandled c) (c_mouse c) (c_clock c) (c_listening c) (c_running c)
      (c_score c) true (c_startTime c) (c_width c) (c_height c)
  else
    mkControl
      (c_timers c ++ [Timer.mk (c_nextTimerId c) (now + (quakeDuration + 300)) ReloadPage])
      (S (c_nextTimerId c)) (c_stopTimer c) true (c_reloads c)
      (c_firstClickHandled c) (c_mouse c) (c_clock c) (c_listening c) (c_running c)
      (c_score c) true (c_startTime c) (c_width c) (c_height c).

Definition maybe {A : Type} (b : bool) (f : A -> A) (a : A) : A :=
  if b then f a else a.

Definition c_tick (now : Q) (c : Control) : Control :=
  mkControl (c_timers c) (c_nextTimerId c) (c_stopTimer c) (c_reloadQueued c) (c_reloads c)
    (c_firstClickHandled c) (c_mouse c) now (c_listening c) (c_running c)
    (c_score c) (c_quakeActive c) (c_startTime c) (c_width c) (c_height c).

Definition c_with_timers (ts : list Timer.t) (c : Control) : Control :=
  mkControl ts (c_nextTimerId c) (c_stopTimer c) (c_reloadQueued c) (c_reloads c)
    (c_firstClickHandled c) (c_mouse c) (c_clock c) (c_listening c) (c_running c)
    (c_score c) (c_quakeActive c) (c_startTime c) (c_width c) (c_height c).

Definition drop_timer (id : nat) (ts : list Timer.t) : list Timer.t :=
  filter (fun t => negb (Nat.eqb (Timer.id t) id)) ts.

Definition c_clear (h : option nat) (c : Control) : Control :=
  match h with
  | Some id => c_with_timers (drop_timer id (c_timers c)) c
  | None => c
  end.

Definition c_clear_stop (c : Control) : Control :=
  if handle_truthy (c_stopTimer c) then c_clear (c_stopTimer c) c else c.

Definition c_move (now x y : Q) (c : Control) : Control :=
  let c1 := c_clear_stop c in
  if c_firstClickHandled c then
    mkControl (c_timers c1 ++ [Timer.mk (c_nextTimerId c) (now + 240) SettleDetonation])
      (S (c_nextTimerId c)) (Some (c_nextTimerId c)) (c_reloadQueued c) (c_reloads c)
      (c_firstClickHandled c) (Vec.mk x y) (c_clock c) (c_listening c) (c_running c)
      (c_score c) (c_quakeActive c) (c_startTime c) (c_width c) (c_height c)
  else
    mkControl (c_timers c1) (c_nextTimerId c) (c_stopTimer c) (c_reloadQueued c) (c_reloads c)
      (c_firstClickHandled c) (Vec.mk x y) (c_clock c) (c_listening c) (c_running c)
      (c_score c) (c_quakeActive c) (c_startTime c) (c_width c) (c_height c).

Definition c_click (c : Control) : Control :=
  mkControl (c_timers c) (c_nextTimerId c) (c_stopTimer c) (c_reloadQueued c) (c_reloads c)
    true (c_mouse c) (c_clock c) (c_listening c) (c_running c)
    (c_score c) (c_quakeActive c) (c_startTime c) (c_width c) (c_height c).

Definition c_resize (w h : Q) (c : Control) : Control :=
  mkControl (c_timers c) (c_nextTimerId c) (c_stopTimer c) (c_reloadQueued c) (c_reloads c)
    (c_firstClickHandled c) (c_mouse c) (c_clock c) (c_listening c) (c_running c)
    (c_score c) (c_quakeActive c) (c_startTime c)
    (inject_Z (Qfloor w)) (inject_Z (Qfloor h)).

Definition c_cleanup (c : Control) : Control :=
  let c1 := c_clear_stop c in
  mkControl (c_timers c1) (c_nextTimerId c) (c_stopTimer c) (c_reloadQueued c) (c_reloads c)
    (c_firstClickHandled c) (c_mouse c) (c_clock c) false false
    (c_score c) (c_quakeActive c) (c_startTime c) (c_width c) (c_height c).

Definition c_fire (a : TimerAction) (id : nat) (c : Control) : Control :=
  let c1 := c_clear (Some id) c in
  match a with
  | ReloadPage =>
      mkControl (c_timers c1) (c_nextTimerId c) (c_stopTimer c) (c_reloadQueued c)
        (S (c_reloads c))
        (c_firstClickHandled c) (c_mouse c) (c_clock c) (c_listening c) (c_running c)
        (c_score c) (c_quakeActive c) (c_startTime c) (c_width c) (c_height c)
  | _ => c1
  end.

(** The control fields at the end of a frame: some passes of the collision
    loop have scored, some have crashed. *)
Inductive frame_reach (now : Q) (c : Control) : Control -> Prop :=
| fr_none : frame_reach now c c
| fr_scored c' : frame_reach now c c' -> frame_reach now c (scored now c')
| fr_crashed c' : frame_reach now c c' -> frame_reach now c (crashed now c').

Inductive cstep (now : Q) : Event -> Control -> Control -> Prop :=
| cs_move cx cy l t c :
    c_listening c = true ->
    cstep now (PointerMove cx cy l t) c (c_move now (cx - l) (cy - t) c)
| cs_click cx cy l t c :
    c_listening c = true ->
    cstep now (Click cx cy l t) c (c_click c)
| cs_resize w h c :
    c_listening c = true ->
    cstep now (Resize w h) c (c_resize w h c)
| cs_unmount c :
    c_listening c = true ->
    cstep now Unmount c (c_cleanup c)
| cs_frame time c c' :
    frame_reach now c c' ->
    cstep now (Frame time) c c'
| cs_timer id t c :
    find (fun t => Nat.eqb (Timer.id t) id) (c_timers c) = Some t ->
    Timer.fireAt t <= now ->
    cstep now (TimerFires id) c (c_fire (Timer.action t) id c).

Definition is_action (a : TimerAction) (t : Timer.t) : bool :=
  match a, Timer.action t with
  | SettleDetonation, SettleDetonation => true
  | RespawnBomber, RespawnBomber => true
  | ReloadPage, ReloadPage => true
  | _, _ => false
  end.

(** The pending callbacks of one kind. *)
Definition pending (a : TimerAction) (ts : list Timer.t) : list Timer.t :=
  filter (is_action a) ts.

(** Handles are handed out in increasing order, a pending settle callback is
    the one [stopTimer] names, and [stopTimer] names no other callback. *)
Record timers_ok (c : Control) : Prop := mk_timers_ok {
  ids_fresh : Forall (fun t => Timer.id t < c_nextTimerId c)%nat (c_timers c);
  ids_nodup : NoDup (map Timer.id (c_timers c));
  next_pos : (1 <= c_nextTimerId c)%nat;
  stop_fresh : forall id, c_stopTimer c = Some id -> (1 <= id < c_nextTimerId c)%nat;
  settle_is_stop :
    forall t, In t (c_timers c) -> Timer.action t = SettleDetonation ->
              c_stopTimer c = Some (Timer.id t);
  stop_is_settle :
    forall t, In t (c_timers c) -> c_stopTimer c = Some (Timer.id t) ->
              Timer.action t = SettleDetonation
}.

(** The reload callback is pending or has run exactly when [reloadQueued]
    is set, and then exactly once. *)
Definition reload_once (c : Control) : Prop :=
  (length (pending ReloadPage (c_timers c)) + c_reloads c
   = if c_reloadQueued c then 1 else 0)%nat.

Definition control_inv (c : Control) : Prop := timers_ok c /\ reload_once c.

Definition state_inv (s : State) : Prop := control_inv (control s).

(** An event that is neither a pointer move nor the unmount. *)
Definition quiet_event (e : Event) : bool :=
  match e with
  | PointerMove _ _ _ _ | Unmount => false
  | _ => true
  end.

(** The event runs a pending settle callback. *)
Definition settle_fires (e : Event) (ts : list Timer.t) : bool :=
  match e with
  | TimerFires id =>
      match find (fun t => Nat.eqb (Timer.id t) id) ts with
      | Some t => is_action SettleDetonation t
      | None => false
      end
  | _ => false
  end.

(** Once a move has been handled at [tm], every pending settle callback is
    due no earlier than [tm + 240]. *)
Definition settle_after (tm : Q) (c : Control) : Prop :=
  tm <= c_clock c
  /\ forall t, In t (c_timers c) -> Timer.action t = SettleDetonation ->
               tm + 240 <= Timer.fireAt t.

Definition quiet (es : list (Q * Event)) : bool :=
  forallb (fun ne => quiet_event (snd ne)) es.

(** The explosions flagged for the bomber. *)
Definition flagged (l : list Explosion.t) : nat :=
  length (filter (fun ex => truthy (Explosion.hitBomber ex)) l).

(** Slot by slot, [l'] holds the explosions of [l]: same place, same birth,
    same radius, and a flag that is set stays set. *)
Definition slotwise (l l' : list Explosion.t) : Prop :=
  forall j e,
    nth_error l j = Some e ->
    exists e',
      nth_error l' j = Some e'
      /\ Explosion.x e' = Explosion.x e /\ Explosion.y e' = Explosion.y e
      /\ Explosion.r e' = Explosion.r e
      /\ Explosion.createdAt e' = Explosion.createdAt e
      /\ (truthy (Explosion.hitBomber e) = true -> truthy (Explosion.hitBomber e') = true)
      /\ (truthy (Explosion.hitBoy e) = true -> truthy (Explosion.hitBoy e') = true).

(** What a step does to the score and to the flags: the score grows by the
    number of flags that were set, and slot by slot no flag is cleared. *)
Definition accounted (s s' : State) : Prop :=
  (score s' - score s
   = Z.of_nat (flagged (explosions s')) - Z.of_nat (flagged (explosions s)))%Z
  /\ (score s <= score s')%Z
  /\ slotwise (explosions s) (explosions s').

(** Where the two actors are and whether they are alive. *)
Definition actors (s : State) : (Q * Q * bool) * (Q * Q * bool) :=
  ((Actor.x (boy s), Actor.y (boy s), Actor.alive (boy s)),
   (Actor.x (bomber s), Actor.y (bomber s), Actor.alive (bomber s))).

Definition scene (s : State) : list Explosion.t * ((Q * Q * bool) * (Q * Q * bool)) * Z :=
  (explosions s, actors s, score s).

(** What the draw loop of [loop] does to one explosion. *)
Definition drawn (now : Q) (ex : Explosion.t) : Explosion.t :=
  if Explosion.alive ex then drawNuclearExplosion now ex else ex.

(** The Runner is down and a flagged explosion overlaps the place where it
    stands. *)
Definition struck (s : State) : Prop :=
  exists j ex,
    nth_error (explosions s) j = Some ex
    /\ truthy (Explosion.hitBoy ex) = true
    /\ circleHit ex (Actor.x (boy s)) (Actor.y (boy s) - Actor.h (boy s) / 2) 28 = true.

(** Across the collision loop the Runner does not move, and it is down at
    the end only if an explosion struck it. *)
Definition runner_kept (s s' : State) : Prop :=
  slotwise (explosions s) (explosions s')
  /\ Actor.x (boy s') = Actor.x (boy s)
  /\ Actor.y (boy s') = Actor.y (boy s)
  /\ Actor.h (boy s') = Actor.h (boy s)
  /\ (Actor.alive (boy s) = true -> Actor.alive (boy s') = false -> struck s').

(** What a hit on the bomber at position [(bx, by)] leaves behind when the
    loop ends. *)
Definition bomber_was_hit (now bx by0 : Q) (s0 s' : State) : Prop :=
  score s' = (score s0 + 1)%Z
  /\ scorePulse s' = 1
  /\ popups s' = popups s0 ++ [Popup.mk bx (by0 - 20) "+1" 0 900]
  /\ Actor.alive (bomber s') = false
  /\ (exists id, In (Timer.mk id (now + 1200) RespawnBomber) (timers s'))
  /\ (exists k ex ex',
        nth_error (explosions s0) k = Some ex
        /\ Explosion.alive ex = true /\ bomberHit ex s0 = true
        /\ nth_error (explosions s') k = Some ex'
        /\ truthy (Explosion.hitBomber ex') = true)
  /\ (exists j e,
        nth_error (explosions s') j = Some e
        /\ (length (explosions s0) <= j)%nat
        /\ Explosion.x e = bx /\ Explosion.y e = by0
        /\ Explosion.r e = 0 /\ Explosion.createdAt e = now).

(** With the bomber down, the loop scores nothing more. *)
Definition nothing_scored (s s' : State) : Prop :=
  Actor.alive (bomber s) = false ->
  score s' = score s /\ scorePulse s' = scorePulse s /\ popups s' = popups s
  /\ Actor.alive (bomber s') = false
  /\ (forall t, In t (timers s) -> In t (timers s'))
  /\ slotwise (explosions s) (explosions s').

(** The radius law of the specification, at elapsed time [now - createdAt]. *)
Definition radius_at (now : Q) (ex : Explosion.t) : Q :=
  Explosion.maxR ex
  * (0.2 + 0.8 * clamp ((now - Explosion.createdAt ex) / Explosion.lifeMs ex) 0 1).

Section Derived.

Variable env : Env.

(** The part of [loop] that runs after [update]. *)
Definition finish (dt now : Q) (s : State) : State :=
  let s := drawExplosions now s in
  let s := drawMissile env s in
  let s := drawParticles dt s in
  let s := drawBoy dt s in
  let s := drawBomber dt s in
  let s := drawPopups s in
  let s := drawScore s in
  let s := cleanupExplosions now s in
  let s := if quakeActive s then drawEarthquake env dt s else s in
  let s := if negb (firstClickHandled s) then paint PIntro s else s in
  set_raf RafLoop s.

(** The number of settle detonations during a run. *)
Fixpoint detonations (es : list (Q * Event)) (s : State) : nat :=
  match es with
  | [] => 0
  | (now, e) :: rest =>
      match handle env now e s with
      | Some s' => (if settle_fires e (timers s) then 1 else 0) + detonations rest s'
      | None => 0
      end
  end.

(** The state in which the frame at [time] runs [update], and what it
    returns. *)
Definition updated (time now : Q) (s : State) : State :=
  update env (time - lastTime s) now (drawBackground (set_lastTime time s)).

End Derived.

(** ** Worked runs *)

(** An environment for the worked examples: every [Math.random ()] is one
    half and the missile always points along the x axis. *)
Definition calm : Env := mkEnv (fun _ => 0.5) (fun _ => 1) (fun _ => 0) (fun _ _ => 0).

(** Two explosions are put on the Runner one millisecond apart.  The first
    one hits it in the next frame, the second one in the frame after (the
    Runner is alive again by then): the reload callback is scheduled by the
    first hit only, and runs once. *)
Definition crash_run : list (Q * Event) :=
  [(0, Frame 0); (30001, Frame 30001);
   (30002, Click (-78) 509 0 0); (30003, Click (-78) 509 0 0);
   (30017, Frame 30017); (30033, Frame 30033); (32600, TimerFires 1)].

Definition armed_run : list (Q * Event) :=
  [(0, Frame 0); (50, Click 300 200 0 0);
   (1000, PointerMove 310 200 0 0); (1100, PointerMove 320 200 0 0)].

(** The Flyer is spawned at 30 s; a click puts an explosion on it, and the
    next frame scores. *)
Definition flyer_run : list (Q * Event) :=
  [(0, Frame 0); (30001, Frame 30001); (30002, Click (-201) 340 0 0); (30017, Frame 30017)].

(** A click puts an explosion where the bomber will be in the next frame. *)
Definition chase_run : list (Q * Event) :=
  [(0, Frame 0); (30001, Frame 30001); (30002, Click 10 1745 0 0); (30017, Frame 30017)].

(** One click on the bomber, one on the Runner: both are hit in the same
    frame. *)
Definition crash_respawn_run : list (Q * Event) :=
  [(0, Frame 0); (30001, Frame 30001);
   (30002, Click (-201) 340 0 0); (30003, Click (-78) 509 0 0); (30017, Frame 30017)].

(** ** Vocabulary of the further properties

    The branches of the collision loop in closed form, the invariants of
    the reachable states, and the numbers that the paint code computes. *)

(** The state after the bomber branch of the collision loop was taken. *)
Definition scoreHit (now : Q) (s : State) : State :=
  let s := set_score (score s + 1)%Z s in
  let s := set_scorePulse 1 s in
  let s :=
    set_popups
      (popups s ++ [Popup.mk (Actor.x (bomber s)) (Actor.y (bomber s) - 20) "+1" 0 900]) s in
  let s := spawnExplosion now (Actor.x (bomber s)) (Actor.y (bomber s)) s in
  let s := set_bomber (Actor.set_alive false (bomber s)) s in
  snd (setTimeout RespawnBomber 1200 now s).

(** The building that pass [i] of the loop of [triggerEarthquake] pushes,
    when [k] calls of [Math.random ()] were made before the pass. *)
Definition building (env : Env) (width base : Q) (cols : Z) (k i : nat) : Building.t :=
  Building.mk ((inject_Z (Z.of_nat i) + 0.5) * (width / inject_Z cols)) base
    (60 + random env k * 60) (80 + random env (S k) * 140) 0
    ((random env (S (S k)) - 0.5) * 0.0025)
    ((random env (S (S (S k))) - 0.5) * 0.02)
    (-0.02 - random env (S (S (S (S k)))) * 0.02)
    (200 + random env (S (S (S (S (S k))))) * 40)
    (20 + random env (S (S (S (S (S (S k)))))) * 20).

(** [const cols = Math.max(6, Math.ceil(width / 120))] *)
Definition columns (s : State) : Z := Z.max 6 (Qceiling (width s / 120)).

(** The buildings [triggerEarthquake] leaves in the array. *)
Definition skyline (env : Env) (s : State) : list Building.t :=
  map (fun i => building env (width s) (groundY s) (columns s) (randomCalls s + 7 * i) i)
    (seq 0 (Z.to_nat (columns s))).

(** The state after [triggerEarthquake] with the buildings [bs], [n] calls
    of [Math.random ()] having been made. *)
Definition quaked (now : Q) (bs : list Building.t) (n : nat) (s : State) : State :=
  let s := set_buildings bs (set_randomCalls n (set_quakeStart now (set_quakeActive true s))) in
  if reloadQueued s then s
  else snd (setTimeout ReloadPage (quakeDuration + 300) now (set_reloadQueued true s)).

(** What the collision loop may do to the explosion it examines. *)
Definition reflagged (e e' : Explosion.t) : Prop :=
  exists b1 b2 : bool,
    e' = (if b2 then Explosion.set_hitBoy (Some true) else fun x => x)
           ((if b1 then Explosion.set_hitBomber (Some true) else fun x => x) e).

(** A state some run of the program reaches. *)
Definition reachable (env : Env) (s : State) : Prop :=
  exists w h t0 es, run env es (init w h t0) = Some s.

(** The interval [dt] that the frame callback computes at [time]: the
    first callback sets [lastTime] to [time] before it calls [loop]. *)
Definition frame_dt (time : Q) (s : State) : Q :=
  match raf s with
  | RafFirst => time - time
  | _ => time - lastTime s
  end.

(** The frame interval of the event satisfies [D]. *)
Definition timely (D : Q -> Prop) (e : Event) (s : State) : Prop :=
  match e with
  | Frame time => D (frame_dt time s)
  | _ => True
  end.

(** Every frame interval of the run satisfies [D]. *)
Fixpoint timed (env : Env) (D : Q -> Prop) (es : list (Q * Event)) (s : State) : Prop :=
  match es with
  | [] => True
  | (now, e) :: rest =>
      match handle env now e s with
      | Some s' => timely D e s /\ timed env D rest s'
      | None => True
      end
  end.

(** The property [I], during the frame that runs at [now]. *)
Definition during (I : State -> Prop) (now : Q) (s : State) : Prop :=
  I s /\ clock s = now /\ running s = true.

(** No more than 30 s have passed since the effect ran. *)
Definition early (s : State) : Prop := clock s - startTime s <= 30000.

(** Nothing of the game has happened yet. *)
Definition dormant (s : State) : Prop :=
  Actor.alive (boy s) = false /\ Actor.alive (bomber s) = false
  /\ score s = 0%Z /\ quakeActive s = false /\ reloadQueued s = false
  /\ buildings s = [] /\ popups s = [] /\ reloads s = 0%nat
  /\ Forall (fun t => Timer.action t = SettleDetonation) (timers s).

Definition timing_inv (s : State) : Prop :=
  (early s -> dormant s)
  /\ Forall (fun t => Timer.action t = ReloadPage -> startTime s + 32500 < Timer.fireAt t)
       (timers s)
  /\ (reloads s <> 0%nat -> startTime s + 32500 < clock s).

(** A frame callback is registered only while the effect is mounted. *)
Definition raf_inv (s : State) : Prop := raf s <> RafNone -> running s = true.

(** [lastMouse] holds the position of the missile, and the missile keeps
    its speed. *)
Definition missile_inv (s : State) : Prop :=
  lastMouse s = Missile.pos (missile s) /\ Missile.speed (missile s) = 0.15.

(** An explosion of the array is live, has the size and the lifetime that
    [spawnExplosion] gives, a radius between 0 and its full size, and was
    not created after [c]. *)
Definition explosion_ok (c : Q) (e : Explosion.t) : Prop :=
  Explosion.alive e = true /\ Explosion.maxR e = 140 /\ Explosion.lifeMs e = 1200
  /\ 0 <= Explosion.r e /\ Explosion.r e <= 140 /\ Explosion.createdAt e <= c.

Definition explosions_inv (s : State) : Prop :=
  Forall (explosion_ok (clock s)) (explosions s).

(** A popup of the array is the [+1] of a scored point and has not outlived
    its 900 ms. *)
Definition popup_ok (p : Popup.t) : Prop :=
  Popup.text p = "+1"%string /\ Popup.maxLife p = 900 /\ Popup.life p < Popup.maxLife p.

Definition feedback_inv (s : State) : Prop :=
  0 <= scorePulse s /\ Forall popup_ok (popups s)
  /\ (Z.of_nat (length (popups s)) <= score s)%Z.

(** The earthquake is on exactly when the reload was queued, and then at
    least six buildings are falling. *)
Definition quake_inv (s : State) : Prop :=
  quakeActive s = reloadQueued s
  /\ (quakeActive s = false -> buildings s = [])
  /\ (quakeActive s = true -> (6 <= length (buildings s))%nat).

(** The effect ran at [t0]. *)
Definition started (t0 : Q) (s : State) : Prop := startTime s = t0.

(** Until the first click nothing was spawned, scheduled, scored or drawn
    at random, and the missile stays where the effect put it. *)
Definition preclick_inv (m0 : Missile.t) (s : State) : Prop :=
  firstClickHandled s = false ->
  explosions s = [] /\ particles s = [] /\ timers s = [] /\ stopTimer s = None
  /\ score s = 0%Z /\ popups s = [] /\ quakeActive s = false /\ reloadQueued s = false
  /\ buildings s = [] /\ reloads s = 0%nat /\ randomCalls s = 0%nat
  /\ missile s = m0 /\ lastMouse s = Missile.pos m0.

(** An exhaust particle of the array has not outlived its life, which is
    between 600 and 1000 ms, and has a size between 2 and 4. *)
Definition particle_ok (p : Particle.t) : Prop :=
  Particle.life p < Particle.maxLife p
  /\ 600 <= Particle.maxLife p /\ Particle.maxLife p < 1000
  /\ 2 <= Particle.size p /\ Particle.size p < 4.

Definition particles_inv (s : State) : Prop := Forall particle_ok (particles s).

(** The fields that steer the missile. *)
Definition guidance (s : State) : Vec.t * Vec.t * Missile.t * bool :=
  (mouse s, lastMouse s, missile s, firstClickHandled s).

Definition guided (g : Vec.t * Vec.t * Missile.t * bool) (s : State) : Prop :=
  guidance s = g.

(** The events of a run that are frames. *)
Definition is_frame (e : Event) : bool :=
  match e with Frame _ => true | _ => false end.

Definition is_pointer_move (e : Event) : bool :=
  match e with PointerMove _ _ _ _ => true | _ => false end.

Definition frames (es : list (Q * Event)) : nat :=
  length (filter (fun ne => is_frame (snd ne)) es).

Definition no_pointer_move (es : list (Q * Event)) : bool :=
  forallb (fun ne => negb (is_pointer_move (snd ne))) es.

(** The state in which [loop], called at [time] with the effect mounted,
    moves the actors. *)
Definition entered (time : Q) (s : State) : State :=
  drawBackground (set_lastTime time s).

(** The effect was unmounted, and no settle callback is pending. *)
Definition unmounted (s : State) : Prop :=
  running s = false /\ listening s = false /\ raf s = RafNone
  /\ pending SettleDetonation (timers s) = [].

(** The state without the timer table, the clock and the count of reloads. *)
Definition game (s : State) : State := set_reloads 0 (set_clock 0 (set_timers [] s)).

(** [s'] is [s] but for the timer table, the clock and the count of
    reloads. *)
Definition frozen (s s' : State) : Prop := game s' = game s.

(** The timestamps that the frames of a run are called with. *)
Fixpoint frame_times (es : list (Q * Event)) : list Q :=
  match es with
  | [] => []
  | (_, Frame time) :: rest => time :: frame_times rest
  | _ :: rest => frame_times rest
  end.

(** No frame has a negative interval [dt]. *)
Definition steady (env : Env) (es : list (Q * Event)) (s : State) : Prop :=
  timed env (fun dt => 0 <= dt) es s.

Definition lasted (t : Q) (s : State) : Prop := lastTime s = t.

(** With a non-negative [dt], the pulse stays at most 1 and no popup has a
    negative age. *)
Definition pulse_inv (s : State) : Prop :=
  scorePulse s <= 1 /\ Forall (fun p => 0 <= Popup.life p) (popups s).

(** [const alpha = Math.max(0, 1 - p.life / p.maxLife)] of [drawPopups] *)
Definition popupAlpha (p : Popup.t) : Q := Qmax 0 (1 - Popup.life p / Popup.maxLife p).

(** [const scale = 1 + 0.35 * scorePulse] of [drawScore] *)
Definition scoreScale (s : State) : Q := 1 + 0.35 * scorePulse s.

(** [ctx.shadowBlur = 8 * scorePulse] of [drawScore] *)
Definition scoreBlur (s : State) : Q := 8 * scorePulse s.

Definition quaking (s : State) : Prop := quakeActive s = true.

(** The canvas holds the paint calls [l]. *)
Definition painted (l : list Paint) (s : State) : Prop := canvas s = l.

Definition clicked (b : bool) (s : State) : Prop := firstClickHandled s = b.

(** The intro text was not painted. *)
Definition no_intro (s : State) : Prop := ~ In PIntro (canvas s).

(** The score, the popups and the actors that are alive are on the canvas
    as the state holds them. *)
Definition shown (s : State) : Prop :=
  In (PScore (score s) (scorePulse s)) (canvas s)
  /\ In (PPopups (popups s)) (canvas s)
  /\ (Actor.alive (boy s) = true -> In (PBoy (boy s)) (canvas s))
  /\ (Actor.alive (bomber s) = true -> In (PBomber (bomber s)) (canvas s))
  /\ hd_error (canvas s) = Some PBackground.

(** The Runner is 28 by 46 and the bomber 110 by 34. *)
Definition sizes_inv (s : State) : Prop :=
  Actor.w (boy s) = 28 /\ Actor.h (boy s) = 46
  /\ Actor.w (bomber s) = 110 /\ Actor.h (bomber s) = 34.

(** An alive Runner is not left of its spawn point. *)
Definition track_inv (s : State) : Prop :=
  Actor.alive (boy s) = true -> -80 <= Actor.x (boy s).

(** After a frame an alive Runner is not right of the point where
    [update] wraps it around. *)
Definition on_track (s : State) : Prop :=
  Actor.alive (boy s) = true -> Actor.x (boy s) <= width s + 54.

Definition roomy (s : State) : Prop := 0 <= width s.

(** A building has the size [triggerEarthquake] gives with [Math.random ()]
    in [0, 1). *)
Definition building_ok (b : Building.t) : Prop :=
  60 <= Building.w b /\ Building.w b < 120 /\ 80 <= Building.h b /\ Building.h b < 220.

Definition buildings_inv (s : State) : Prop := Forall building_ok (buildings s).

(** The sum of the frame intervals. *)
Definition elapsed (dts : list Q) : Q := fold_right Qplus 0 dts.

(** A building after the frames with the intervals [dts]. *)
Definition toppled (dts : list Q) (b : Building.t) : Building.t :=
  fold_left (fun b dt => toppleBuilding dt b) dts b.

(** The state after [drawEarthquake] ran in the frames with the intervals
    [dts]. *)
Definition quakeFrames (env : Env) (dts : list Q) (s : State) : State :=
  fold_left (fun s dt => drawEarthquake env dt s) dts s.

(** The windows that [drawEarthquake] paints on a building, by their top
    left corners in the frame of the building (each is 6 wide and 8 high):
    [rows = Math.max(3, Math.floor(b.h / 20))],
    [cols = Math.max(2, Math.floor(b.w / 16))],
    [wx = -b.w / 2 + 6 + c * (b.w - 12) / cols],
    [wy = -b.h + 8 + r * (b.h - 16) / rows]. *)
Definition windowRows (b : Building.t) : Z := Z.max 3 (Qfloor (Building.h b / 20)).

Definition windowCols (b : Building.t) : Z := Z.max 2 (Qfloor (Building.w b / 16)).

Definition window (b : Building.t) (r c : nat) : Q * Q :=
  (- Building.w b / 2 + 6
   + inject_Z (Z.of_nat c) * (Building.w b - 12) / inject_Z (windowCols b),
   - Building.h b + 8
   + inject_Z (Z.of_nat r) * (Building.h b - 16) / inject_Z (windowRows b)).

Definition windows (b : Building.t) : list (Q * Q) :=
  flat_map
    (fun r => map (fun c => window b r c) (seq 0 (Z.to_nat (windowCols b))))
    (seq 0 (Z.to_nat (windowRows b))).

(** The state in which the frame callback calls [loop]: the registration is
    used up, and the first callback has set [lastTime]. *)
Definition frame_entry (now time : Q) (s : State) : State :=
  match raf s with
  | RafFirst => set_lastTime time (set_raf RafNone (set_clock now s))
  | _ => set_raf RafNone (set_clock now s)
  end.

(** The state in which [update] reaches [// bomber behavior] in the frame
    that the browser runs at [now] with the timestamp [time]. *)
Definition chase_entry (now time : Q) (s : State) : State :=
  let s0 := frame_entry now time s in
  moveBoy (time - lastTime s0)
    (spawnActors now (missileFollow (drawBackground (set_lastTime time s0)))).

(** *** The points of each explosion

    Every explosion gets a counter of the points it has scored.  The
    counters of the explosions in the array are kept in the order of the
    array, those of the explosions that were spliced out in the order of
    their removal. *)
Record Ledger := mkLedger { live : list Z; closed : list Z }.

Definition total (l : list Z) : Z := fold_right Z.add 0%Z l.

(** The point that [hitBomber] stands for. *)
Definition point (e : Explosion.t) : Z :=
  if truthy (Explosion.hitBomber e) then 1%Z else 0%Z.

(** The flag of the explosion was set between [e] and [e']. *)
Definition newly (e e' : Explosion.t) : Z :=
  if negb (truthy (Explosion.hitBomber e)) && truthy (Explosion.hitBomber e')
  then 1%Z else 0%Z.

(** The counters after a pass that works on the array in place and pushes at
    its end ([l] before, [l'] after): a counter grows by one when the flag
    of its explosion was set, and a pushed explosion starts at 0. *)
Fixpoint credit (l l' : list Explosion.t) (pts : list Z) {struct l'} : list Z :=
  match l' with
  | [] => []
  | e' :: l'' =>
      match l, pts with
      | e :: l0, p :: pts0 => (p + newly e e')%Z :: credit l0 l'' pts0
      | _, _ => 0%Z :: credit [] l'' []
      end
  end.

(** The counters after the cleanup loop of [loop] at [now]: those of the
    explosions that stay, and those of the explosions it splices out. *)
Fixpoint retire (now : Q) (l : list Explosion.t) (pts : list Z) : list Z * list Z :=
  match l, pts with
  | e :: l0, p :: pts0 =>
      let '(a, b) := retire now l0 pts0 in
      if stale now e then (a, p :: b) else (p :: a, b)
  | _, _ => ([], [])
  end.

(** The counters after the callback [e] that takes [s] to [s'].  A frame
    credits the flags that [update] set and then retires the counters of
    the explosions that the cleanup loop removes; any other callback leaves
    the explosions in place and can only push. *)
Definition audit (env : Env) (now : Q) (e : Event) (s s' : State) (L : Ledger) : Ledger :=
  match e with
  | Frame time =>
      let s0 := frame_entry now time s in
      if running s0 then
        let u := updated env time now s0 in
        let '(a, b) := retire now (explosions u) (credit (explosions s0) (explosions u) (live L)) in
        mkLedger a (closed L ++ b)
      else L
  | _ => mkLedger (credit (explosions s) (explosions s') (live L)) (closed L)
  end.

(** The counters at the end of a run. *)
Fixpoint ledger (env : Env) (es : list (Q * Event)) (s : State) (L : Ledger) : Ledger :=
  match es with
  | [] => L
  | (now, e) :: rest =>
      match handle env now e s with
      | Some s' => ledger env rest s' (audit env now e s s' L)
      | None => L
      end
  end.

(** The counters agree with the flags and with the score: the counter of an
    explosion in the array is 1 when its flag is set and 0 otherwise, the
    counter of a removed explosion is 0 or 1, and the score is the sum of
    all counters. *)
Definition booked (s : State) (L : Ledger) : Prop :=
  Forall2 (fun e p => p = point e) (explosions s) (live L)
  /\ Forall (fun p => p = 0%Z \/ p = 1%Z) (closed L)
  /\ score s = (total (live L) + total (closed L))%Z.

(** Across passes of the collision loop: the array only grows; an
    explosion pushed by the loop is not flagged for the bomber, and the
    bomber is down from its push on; and with the bomber down no bomber flag
    changes. *)
Definition pushed_unflagged (s s' : State) : Prop :=
  (length (explosions s) <= length (explosions s'))%nat
  /\ (forall j e',
         nth_error (explosions s') j = Some e' -> (length (explosions s) <= j)%nat ->
         truthy (Explosion.hitBomber e') = false /\ Actor.alive (bomber s') = false)
  /\ (Actor.alive (bomber s) = false ->
      Actor.alive (bomber s') = false
      /\ forall j e e',
           nth_error (explosions s) j = Some e -> nth_error (explosions s') j = Some e' ->
           Explosion.hitBomber e' = Explosion.hitBomber e).

(** ** Further worked runs *)

(** A run without a click: frames, pointer moves and a resize. *)
Definition idle_run : list (Q * Event) :=
  [(0, Frame 0); (10, PointerMove 5 5 0 0); (16, Frame 16); (20, Resize 1024 768);
   (32, Frame 32)].

(** An exhaust run: the first click, then a frame. *)
Definition exhaust_run : list (Q * Event) :=
  [(0, Frame 0); (50, Click 300 200 0 0); (66, Frame 66)].

(** After the run [armed_run]: two frames with a click in between. *)
Definition glide_run : list (Q * Event) :=
  [(1116, Frame 1116); (1120, Click 5 5 0 0); (1132, Frame 1132)].

(** A crash under way: the Runner was hit, the reload is pending. *)
Definition crashing_run : list (Q * Event) :=
  [(0, Frame 0); (30001, Frame 30001); (30002, Click (-78) 509 0 0); (30017, Frame 30017)].

(** One more frame after [flyer_run]: the bomber is back and the first
    explosion overlaps it again. *)
Definition second_hit_run : list (Q * Event) := flyer_run ++ [(30033, Frame 30033)].

(** * Basic facts *)

Arguments triggerEarthquake : simpl never.
Arguments pushBuildings : simpl never.
Arguments collisions : simpl never.
Arguments update : simpl never.
Arguments loop : simpl never.

Ltac case_if :=
  match goal with
  | |- context [if ?c then _ else _] => destruct c eqn:?
  end.

(** ** Comparisons *)

Lemma Qltb_lt (a b : Q) : Qltb a b = true <-> a < b.
Proof.
  unfold Qltb. rewrite negb_true_iff. split; intros H.
  - apply Qnot_le_lt. intros L. apply Qle_bool_iff in L. congruence.
  - destruct (Qle_bool b a) eqn:E; [|reflexivity].
    apply Qle_bool_iff in E. apply Qle_not_lt in E. contradiction.
Qed.

Lemma Qltb_ge (a b : Q) : Qltb a b = false <-> b <= a.
Proof.
  unfold Qltb. rewrite negb_false_iff. apply Qle_bool_iff.
Qed.

Lemma Qgtb_gt (a b : Q) : Qgtb a b = true <-> b < a.
Proof. apply Qltb_lt. Qed.

Lemma Qgtb_le (a b : Q) : Qgtb a b = false <-> a <= b.
Proof. apply Qltb_ge. Qed.

(** [hypot_le] is the comparison of the squared distance. *)
Lemma hypot_le_spec (dx dy b : Q) :
  hypot_le dx dy b = true <-> 0 <= b /\ dx * dx + dy * dy <= b * b.
Proof.
  unfold hypot_le. rewrite andb_true_iff, !Qle_bool_iff. reflexivity.
Qed.

Lemma clamp_bounds (v : Q) : 0 <= clamp v 0 1 /\ clamp v 0 1 <= 1.
Proof.
  unfold clamp. split.
  - apply Q.le_max_l.
  - apply Q.max_lub; [lra | apply Q.le_min_l].
Qed.

Lemma clamp_monotone (u v : Q) : u <= v -> clamp u 0 1 <= clamp v 0 1.
Proof.
  intros H. unfold clamp.
  apply Q.max_le_compat_l. apply Q.min_le_compat_l. exact H.
Qed.

(** ** Arrays *)

Lemma set_nth_nth_error {A : Type} (i : nat) (v : A) (l : list A) :
  (i < length l)%nat -> nth_error (set_nth i v l) i = Some v.
Proof.
  revert i; induction l as [|a l IH]; intros [|i] H; simpl in *; try lia; auto.
  apply IH; lia.
Qed.

Lemma set_nth_other {A : Type} (i j : nat) (v : A) (l : list A) :
  i <> j -> nth_error (set_nth i v l) j = nth_error l j.
Proof.
  revert i j; induction l as [|a l IH]; intros [|i] [|j] H; simpl; auto.
  congruence.
Qed.

Lemma set_nth_app {A : Type} (i : nat) (v : A) (l k : list A) :
  (i < length l)%nat -> set_nth i v (l ++ k) = set_nth i v l ++ k.
Proof.
  revert i; induction l as [|a l IH]; intros [|i] H; simpl in *; try lia; auto.
  f_equal. apply IH. lia.
Qed.

(** ** The fields only the collision loop writes during a frame *)

Section Frames.

Variable env : Env.

Lemma missileFollow_control s : control (missileFollow s) = control s.
Proof. unfold missileFollow. case_if; reflexivity. Qed.

Lemma missileFollow_explosions s : explosions (missileFollow s) = explosions s.
Proof. unfold missileFollow. case_if; reflexivity. Qed.

Lemma spawnActors_control now s : control (spawnActors now s) = control s.
Proof. unfold spawnActors, spawnBomber. repeat case_if; reflexivity. Qed.

Lemma spawnActors_explosions now s : explosions (spawnActors now s) = explosions s.
Proof. unfold spawnActors, spawnBomber. repeat case_if; reflexivity. Qed.

Lemma moveBoy_control dt s : control (moveBoy dt s) = control s.
Proof. unfold moveBoy. repeat case_if; reflexivity. Qed.

Lemma moveBoy_explosions dt s : explosions (moveBoy dt s) = explosions s.
Proof. unfold moveBoy. repeat case_if; reflexivity. Qed.

Lemma bomberBehavior_control dt s : control (bomberBehavior dt s) = control s.
Proof. unfold bomberBehavior. repeat case_if; reflexivity. Qed.

Lemma bomberBehavior_explosions dt s : explosions (bomberBehavior dt s) = explosions s.
Proof. unfold bomberBehavior. repeat case_if; reflexivity. Qed.

Lemma update_prelude dt now s :
  update env dt now s = collisions env now 0 (prelude dt now s).
Proof. reflexivity. Qed.

Lemma decayFeedback_control dt s : control (decayFeedback dt s) = control s.
Proof. reflexivity. Qed.

Lemma decayFeedback_explosions dt s : explosions (decayFeedback dt s) = explosions s.
Proof. reflexivity. Qed.

Lemma prelude_control dt now s : control (prelude dt now s) = control s.
Proof.
  unfold prelude.
  rewrite decayFeedback_control, bomberBehavior_control, moveBoy_control,
    spawnActors_control.
  apply missileFollow_control.
Qed.

Lemma prelude_explosions dt now s : explosions (prelude dt now s) = explosions s.
Proof.
  unfold prelude.
  rewrite decayFeedback_explosions, bomberBehavior_explosions, moveBoy_explosions,
    spawnActors_explosions.
  apply missileFollow_explosions.
Qed.

Lemma loop_running time now s :
  running s = true ->
  loop env time now s =
  finish env (time - lastTime s) now
    (update env (time - lastTime s) now (drawBackground (set_lastTime time s))).
Proof. intros H. unfold loop. rewrite H. reflexivity. Qed.

Lemma loop_stopped time now s : running s = false -> loop env time now s = s.
Proof. intros H. unfold loop. rewrite H. reflexivity. Qed.

Lemma drawMissile_control s : control (drawMissile env s) = control s.
Proof. unfold drawMissile. case_if; reflexivity. Qed.

Lemma drawParticles_control dt s : control (drawParticles dt s) = control s.
Proof. unfold drawParticles. destruct (drawParticles_loop dt (particles s)); reflexivity. Qed.

Lemma drawBoy_control dt s : control (drawBoy dt s) = control s.
Proof. unfold drawBoy. case_if; reflexivity. Qed.

Lemma drawBomber_control dt s : control (drawBomber dt s) = control s.
Proof. unfold drawBomber. case_if; reflexivity. Qed.

Lemma drawEarthquake_control dt s : control (drawEarthquake env dt s) = control s.
Proof. reflexivity. Qed.

Lemma drawExplosions_control now s : control (drawExplosions now s) = control s.
Proof. reflexivity. Qed.

Lemma tail_control now s :
  control (cleanupExplosions now (drawScore (drawPopups s))) = control s.
Proof. reflexivity. Qed.

Lemma closing_control dt s :
  control
    (set_raf RafLoop
       ((fun s0 => if negb (firstClickHandled s0) then paint PIntro s0 else s0)
          (if quakeActive s then drawEarthquake env dt s else s))) = control s.
Proof.
  destruct (quakeActive s); cbv beta;
    [destruct (firstClickHandled (drawEarthquake env dt s))
    |destruct (firstClickHandled s)]; reflexivity.
Qed.

Lemma finish_control dt now s : control (finish env dt now s) = control s.
Proof.
  unfold finish. cbv zeta.
  rewrite (closing_control dt), tail_control, drawBomber_control, drawBoy_control,
    drawParticles_control, drawMissile_control.
  apply drawExplosions_control.
Qed.

End Frames.

(** ** What one pass of the collision loop does to the control fields *)

Section ControlEffects.

Variable env : Env.

Lemma bomberDestruction_control now ex s :
  control (snd (bomberDestruction now ex s)) =
  maybe (bomberHit ex s) (scored now) (control s).
Proof. unfold bomberDestruction, maybe. case_if; reflexivity. Qed.

Lemma triggerEarthquake_control now s :
  control (triggerEarthquake env now s) = crashed now (control s).
Proof.
  destruct (triggerEarthquake_frame env now s) as [bs [n E]]; rewrite E.
  unfold crashed. cbn [control c_reloadQueued].
  destruct (reloadQueued s) eqn:R; cbv beta.
  - unfold control. cbn [timers nextTimerId stopTimer reloadQueued reloads
      firstClickHandled mouse clock listening running score quakeActive startTime
      width height set_buildings set_randomCalls set_quakeStart set_quakeActive].
    rewrite R. reflexivity.
  - reflexivity.
Qed.

Lemma boyCrash_control now ex s :
  control (snd (boyCrash env now ex s)) = maybe (boyHit ex s) (crashed now) (control s).
Proof.
  unfold boyCrash, maybe. case_if; [|reflexivity].
  cbn [snd]. rewrite triggerEarthquake_control. reflexivity.
Qed.

Lemma collide_control now i ex s :
  exists b1 b2 : bool,
    control (collide env now i ex s) =
    maybe b2 (crashed now) (maybe b1 (scored now) (control s)).
Proof.
  unfold collide. destruct (negb (Explosion.alive ex)).
  - exists false, false. reflexivity.
  - pose proof (bomberDestruction_control now ex s) as E1.
    destruct (bomberDestruction now ex s) as [ex1 s1]. cbn [snd] in E1.
    pose proof (boyCrash_control now ex1 s1) as E2.
    destruct (boyCrash env now ex1 s1) as [ex2 s2]. cbn [snd] in E2.
    exists (bomberHit ex s), (boyHit ex1 s1).
    rewrite <- E1, <- E2. reflexivity.
Qed.

(** A property of the control fields kept by both branches of the loop body
    is kept by the loop, by [update] and by the whole frame. *)
Section Closed.

Variable P : Control -> Prop.
Variable now : Q.
Hypothesis P_scored : forall c, P c -> P (scored now c).
Hypothesis P_crashed : forall c, P c -> P (crashed now c).

Lemma collide_closed i ex s : P (control s) -> P (control (collide env now i ex s)).
Proof.
  intros H. destruct (collide_control now i ex s) as [b1 [b2 E]]; rewrite E.
  destruct b1, b2; unfold maybe; auto.
Qed.

Lemma collisions_closed i s : P (control s) -> P (control (collisions env now i s)).
Proof.
  funelim (collisions env now i s); intros HP.
  - match goal with
    | IH : P (control (collide _ _ _ _ _)) -> _ |- _ => apply IH
    end.
    apply collide_closed; assumption.
  - assumption.
Qed.

Lemma update_closed dt s : P (control s) -> P (control (update env dt now s)).
Proof.
  intros H. rewrite update_prelude. apply collisions_closed.
  rewrite prelude_control. exact H.
Qed.

Lemma loop_closed time s : P (control s) -> P (control (loop env time now s)).
Proof.
  intros H. destruct (running s) eqn:R.
  - rewrite loop_running by exact R. rewrite finish_control.
    apply update_closed. exact H.
  - rewrite loop_stopped by exact R. exact H.
Qed.

End Closed.

End ControlEffects.

(** ** The control fields as a transition system

    What every callback does to the control fields can be told from the
    control fields alone, except for which explosions hit during a frame. *)

Section Simulation.

Variable env : Env.

Lemma clearTimeout_control h s :
  control (clearTimeout h s) = c_clear h (control s).
Proof. destruct h; reflexivity. Qed.

Lemma onMouseMove_control now cx cy l t s :
  control (onMouseMove now cx cy l t s) = c_move now (cx - l) (cy - t) (control s).
Proof.
  destruct s. unfold onMouseMove, c_move, c_clear_stop. cbn.
  destruct stopTimer0 as [[|n]|]; destruct firstClickHandled0; reflexivity.
Qed.

Lemma onClick_control now cx cy l t s :
  control (onClick now cx cy l t s) = c_click (control s).
Proof.
  destruct s. unfold onClick. cbn. destruct firstClickHandled0; reflexivity.
Qed.

Lemma cleanup_control s : control (cleanup s) = c_cleanup (control s).
Proof.
  destruct s. unfold cleanup, c_cleanup, c_clear_stop. cbn.
  destruct stopTimer0 as [[|n]|]; reflexivity.
Qed.

Lemma runTimer_control now a id s :
  control (runTimer now a (clearTimeout (Some id) s)) = c_fire a id (control s).
Proof.
  destruct s. destruct a; cbn; try reflexivity.
  destruct running0; reflexivity.
Qed.

Lemma loop_frame_reach time now s :
  frame_reach now (control s) (control (loop env time now s)).
Proof.
  apply loop_closed.
  - intros c H. apply fr_scored, H.
  - intros c H. apply fr_crashed, H.
  - apply fr_none.
Qed.

(** Every callback moves the control fields by one step of [cstep], at a
    time that is not before the previous callback. *)
Lemma handle_cstep now e s s' :
  handle env now e s = Some s' ->
  c_clock (control s) <= now /\ cstep now e (c_tick now (control s)) (control s').
Proof.
  unfold handle. destruct (Qle_bool (clock s) now) eqn:C; cbn [negb]; [|discriminate].
  apply Qle_bool_iff in C. intros H. split; [exact C|].
  change (c_tick now (control s)) with (control (set_clock now s)).
  set (s1 := set_clock now s) in *. clearbody s1.
  destruct e.
  - destruct (listening s1) eqn:L; [|discriminate].
    injection H as <-. rewrite onMouseMove_control. constructor. exact L.
  - destruct (listening s1) eqn:L; [|discriminate].
    injection H as <-. rewrite onClick_control. constructor. exact L.
  - constructor.
    destruct (raf s1); try discriminate; injection H as <-.
    + apply (loop_frame_reach time now (set_lastTime time (set_raf RafNone s1))).
    + apply (loop_frame_reach time now (set_raf RafNone s1)).
  - unfold find_timer in H.
    destruct (find _ (timers s1)) as [t|] eqn:F; [|discriminate].
    destruct (Qle_bool (Timer.fireAt t) now) eqn:D; [|discriminate].
    injection H as <-.
    change (set_timers _ s1) with (clearTimeout (Some id) s1).
    rewrite runTimer_control.
    apply cs_timer; [exact F | apply Qle_bool_iff; exact D].
  - destruct (listening s1) eqn:L; [|discriminate].
    injection H as <-. apply (cs_resize now innerWidth innerHeight (control s1)). exact L.
  - destruct (listening s1) eqn:L; [|discriminate].
    injection H as <-. rewrite cleanup_control. constructor. exact L.
Qed.

End Simulation.

(** ** Pending timers *)

Lemma is_action_iff a t : is_action a t = true <-> Timer.action t = a.
Proof.
  unfold is_action. destruct a, (Timer.action t); split; congruence.
Qed.

Lemma drop_timer_In id t ts :
  In t (drop_timer id ts) <-> In t ts /\ Timer.id t <> id.
Proof.
  unfold drop_timer. rewrite filter_In, negb_true_iff, Nat.eqb_neq. reflexivity.
Qed.

Lemma drop_timer_NoDup id ts :
  NoDup (map Timer.id ts) -> NoDup (map Timer.id (drop_timer id ts)).
Proof.
  induction ts as [|t ts IH]; simpl; intros H; [constructor|].
  inversion H as [|? ? Hn Hd]; subst.
  destruct (negb (Timer.id t =? id)); simpl; [|auto].
  constructor; [|auto].
  intros Hin. apply Hn. apply in_map_iff in Hin as [u [E Hu]].
  apply drop_timer_In in Hu as [Hu _]. apply in_map_iff. eauto.
Qed.

Lemma drop_timer_absent id ts :
  (forall t, In t ts -> Timer.id t <> id) -> drop_timer id ts = ts.
Proof.
  induction ts as [|t ts IH]; simpl; intros H; [reflexivity|].
  destruct (Nat.eqb_spec (Timer.id t) id) as [E|_].
  - exfalso. apply (H t); auto.
  - simpl. rewrite IH; [reflexivity|]. intros u Hu. apply H. auto.
Qed.

(** Dropping a handle does not touch the callbacks of another kind. *)
Lemma pending_drop_other a id ts :
  (forall t, In t ts -> Timer.id t = id -> Timer.action t <> a) ->
  pending a (drop_timer id ts) = pending a ts.
Proof.
  induction ts as [|t ts IH]; simpl; intros H; [reflexivity|].
  destruct (Nat.eqb_spec (Timer.id t) id) as [E|N]; simpl.
  - destruct (is_action a t) eqn:A.
    + apply is_action_iff in A. exfalso. apply (H t); auto.
    + apply IH. intros u Hu. apply H. auto.
  - rewrite IH; [reflexivity|]. intros u Hu. apply H. auto.
Qed.

(** Dropping the handle of a pending callback removes exactly that one. *)
Lemma pending_drop_found a id t ts :
  NoDup (map Timer.id ts) ->
  find (fun t => Nat.eqb (Timer.id t) id) ts = Some t ->
  In t ts /\ Timer.id t = id
  /\ length (pending a ts) =
     ((if is_action a t then 1 else 0) + length (pending a (drop_timer id ts)))%nat.
Proof.
  induction ts as [|u ts IH]; simpl; intros Hd Hf; [discriminate|].
  inversion Hd as [|? ? Hn Hd']; subst.
  destruct (Nat.eqb_spec (Timer.id u) id) as [E|N]; simpl.
  - injection Hf as ->. split; [auto|]. split; [exact E|].
    rewrite (drop_timer_absent id ts).
    + destruct (is_action a t); reflexivity.
    + intros v Hv Ev. apply Hn. apply in_map_iff. exists v. split; [congruence|auto].
  - destruct (IH Hd' Hf) as [Hin [Eid L]].
    split; [auto|]. split; [exact Eid|].
    destruct (is_action a u); simpl; rewrite L; lia.
Qed.

(** ** Invariants of the control fields *)

Lemma pending_app a ts us : pending a (ts ++ us) = pending a ts ++ pending a us.
Proof. apply filter_app. Qed.

Lemma fresh_not_in n ts :
  Forall (fun t => Timer.id t < n)%nat ts -> ~ In n (map Timer.id ts).
Proof.
  intros H Hin. apply in_map_iff in Hin as [t [E Ht]].
  rewrite Forall_forall in H. specialize (H t Ht). lia.
Qed.

(** Pushing a callback that is not a settle callback. *)
Lemma timers_ok_push (c : Control) (due : Q) (a : TimerAction) (c' : Control) :
  a <> SettleDetonation ->
  c_timers c' = c_timers c ++ [Timer.mk (c_nextTimerId c) due a] ->
  c_nextTimerId c' = S (c_nextTimerId c) ->
  c_stopTimer c' = c_stopTimer c ->
  timers_ok c -> timers_ok c'.
Proof.
  intros Ha Et En Es [F D NP SF SS SI].
  constructor; rewrite ?Et, ?En, ?Es.
  - apply Forall_app. split.
    + eapply Forall_impl; [|exact F]. cbv beta. intros; lia.
    + constructor; [cbn; lia|constructor].
  - rewrite map_app. cbn. apply NoDup_app; [exact D|repeat constructor; auto|].
    intros n Hn [<-|[]]. revert Hn. apply fresh_not_in. exact F.
  - lia.
  - intros id H. specialize (SF id H). lia.
  - intros t Hin A. apply in_app_iff in Hin as [Hin|[<-|[]]]; [auto|].
    cbn in A. congruence.
  - intros t Hin E. apply in_app_iff in Hin as [Hin|[<-|[]]]; [auto|].
    cbn in E. specialize (SF _ E). lia.
Qed.

(** Both invariants read only the timer table, the next handle, [stopTimer],
    [reloadQueued] and the reload count. *)
Lemma timers_ok_ext (c c' : Control) :
  c_timers c' = c_timers c -> c_nextTimerId c' = c_nextTimerId c ->
  c_stopTimer c' = c_stopTimer c ->
  timers_ok c -> timers_ok c'.
Proof.
  intros Et En Es [F D NP SF SS SI].
  constructor; rewrite ?Et, ?En, ?Es; assumption.
Qed.

Lemma control_inv_ext (c c' : Control) :
  c_timers c' = c_timers c -> c_nextTimerId c' = c_nextTimerId c ->
  c_stopTimer c' = c_stopTimer c -> c_reloadQueued c' = c_reloadQueued c ->
  c_reloads c' = c_reloads c ->
  control_inv c -> control_inv c'.
Proof.
  intros Et En Es Eq Er [T R]. split.
  - eapply timers_ok_ext; eauto.
  - unfold reload_once in *. rewrite Et, Eq, Er. exact R.
Qed.

Lemma scored_inv now c : control_inv c -> control_inv (scored now c).
Proof.
  intros [T R]. split.
  - eapply timers_ok_push; try exact T; try reflexivity. discriminate.
  - unfold reload_once in *. cbn [scored c_timers c_reloads c_reloadQueued].
    rewrite pending_app, length_app. cbn. lia.
Qed.

Lemma crashed_inv now c : control_inv c -> control_inv (crashed now c).
Proof.
  intros [T R]. unfold crashed. destruct (c_reloadQueued c) eqn:Q.
  - split.
    + eapply timers_ok_ext; try exact T; reflexivity.
    + unfold reload_once in *. cbn. rewrite Q in R. exact R.
  - split.
    + eapply timers_ok_push; try exact T; try reflexivity. discriminate.
    + unfold reload_once in *. cbn [c_timers c_reloads c_reloadQueued].
      rewrite Q in R. rewrite pending_app, length_app. cbn. lia.
Qed.

Lemma frame_reach_inv now c c' :
  frame_reach now c c' -> control_inv c -> control_inv c'.
Proof.
  induction 1; intros I; auto using scored_inv, crashed_inv.
Qed.

(** Dropping handles keeps the timer table in order. *)
Lemma timers_ok_drop id (c : Control) :
  timers_ok c -> timers_ok (c_with_timers (drop_timer id (c_timers c)) c).
Proof.
  intros [F D NP SF SS SI]. constructor; cbn.
  - rewrite Forall_forall in *. intros t Ht. apply drop_timer_In in Ht as [Ht _]. auto.
  - apply drop_timer_NoDup. exact D.
  - exact NP.
  - exact SF.
  - intros t Ht. apply drop_timer_In in Ht as [Ht _]. auto.
  - intros t Ht. apply drop_timer_In in Ht as [Ht _]. auto.
Qed.

(** What [if (stopTimer) clearTimeout(stopTimer)] leaves: no settle callback,
    and every other callback. *)
Lemma clear_stop_spec (c : Control) :
  timers_ok c ->
  timers_ok (c_clear_stop c)
  /\ pending SettleDetonation (c_timers (c_clear_stop c)) = []
  /\ (forall a, a <> SettleDetonation ->
       pending a (c_timers (c_clear_stop c)) = pending a (c_timers c))
  /\ (forall t, In t (c_timers (c_clear_stop c)) ->
       c_stopTimer c <> Some (Timer.id t))
  /\ c_nextTimerId (c_clear_stop c) = c_nextTimerId c
  /\ c_stopTimer (c_clear_stop c) = c_stopTimer c
  /\ c_reloads (c_clear_stop c) = c_reloads c
  /\ c_reloadQueued (c_clear_stop c) = c_reloadQueued c.
Proof.
  intros T. pose proof T as [F D NP SF SS SI].
  assert (NoSettle : forall ts,
             (forall t, In t ts -> Timer.action t <> SettleDetonation) ->
             pending SettleDetonation ts = []).
  { induction ts as [|t ts IH]; intros H; [reflexivity|]. cbn [pending filter].
    fold (pending SettleDetonation ts).
    destruct (is_action SettleDetonation t) eqn:A.
    - apply is_action_iff in A. exfalso. apply (H t); cbn; auto.
    - apply IH. intros u Hu. apply H. cbn; auto. }
  unfold c_clear_stop. destruct (c_stopTimer c) as [[|n]|] eqn:S; cbn [handle_truthy].
  - specialize (SF 0%nat eq_refl). lia.
  - cbn [c_clear]. split; [apply timers_ok_drop; exact T|].
    split; [|split; [|split; [|repeat split; cbn; congruence]]]; cbn.
    + apply NoSettle. intros t Ht A. apply drop_timer_In in Ht as [Ht N].
      specialize (SS t Ht A). congruence.
    + intros a Ha. apply pending_drop_other. intros t Ht E A.
      assert (Timer.action t = SettleDetonation) by (apply SI; [exact Ht|congruence]).
      congruence.
    + intros t Ht E. apply drop_timer_In in Ht as [Ht N]. congruence.
  - split; [exact T|].
    split; [|split; [|split; [|repeat split; cbn; congruence]]].
    + apply NoSettle. intros t Ht A. specialize (SS t Ht A). congruence.
    + reflexivity.
    + intros t Ht E. discriminate.
Qed.

Lemma pending_In a t ts : In t (pending a ts) <-> In t ts /\ Timer.action t = a.
Proof. unfold pending. rewrite filter_In, is_action_iff. reflexivity. Qed.

Lemma c_move_inv now x y c : control_inv c -> control_inv (c_move now x y c).
Proof.
  intros [T R].
  destruct (clear_stop_spec c T) as (T1 & NoS & Oth & NotStop & En & Es & Er & Eq).
  unfold c_move. cbv zeta. destruct (c_firstClickHandled c).
  - pose proof T1 as [F D NP SF SS SI]. rewrite En in *. split.
    + constructor; cbn [c_timers c_nextTimerId c_stopTimer].
      * apply Forall_app. split.
        -- eapply Forall_impl; [|exact F]. cbv beta. intros; lia.
        -- constructor; [cbn; lia|constructor].
      * rewrite map_app. cbn. apply NoDup_app; [exact D|repeat constructor; auto|].
        intros n Hn [<-|[]]. revert Hn. apply fresh_not_in. exact F.
      * lia.
      * intros id [= <-]. lia.
      * intros t Hin A. apply in_app_iff in Hin as [Hin|[<-|[]]]; [|reflexivity].
        assert (In t (pending SettleDetonation (c_timers (c_clear_stop c))))
          by (apply pending_In; auto).
        rewrite NoS in *. contradiction.
      * intros t Hin [= E]. apply in_app_iff in Hin as [Hin|[<-|[]]]; [|reflexivity].
        rewrite Forall_forall in F. specialize (F t Hin). lia.
    + unfold reload_once in *. cbn [c_timers c_reloads c_reloadQueued].
      rewrite pending_app, length_app, Oth by discriminate. cbn. lia.
  - eapply control_inv_ext with (c := c_clear_stop c); cbn; try congruence.
    split; [exact T1|]. unfold reload_once in *.
    rewrite Oth, Er, Eq by discriminate. exact R.
Qed.

Lemma c_cleanup_inv c : control_inv c -> control_inv (c_cleanup c).
Proof.
  intros [T R].
  destruct (clear_stop_spec c T) as (T1 & NoS & Oth & NotStop & En & Es & Er & Eq).
  eapply control_inv_ext with (c := c_clear_stop c); cbn; try congruence.
  split; [exact T1|]. unfold reload_once in *.
  rewrite Oth, Er, Eq by discriminate. exact R.
Qed.

Lemma c_fire_inv id t c :
  find (fun t => Nat.eqb (Timer.id t) id) (c_timers c) = Some t ->
  control_inv c -> control_inv (c_fire (Timer.action t) id c).
Proof.
  intros Hf [T R].
  destruct (pending_drop_found ReloadPage id t (c_timers c) (ids_nodup c T) Hf)
    as (Hin & Eid & L).
  assert (T1 : timers_ok (c_clear (Some id) c)) by (apply timers_ok_drop; exact T).
  assert (IA : is_action ReloadPage t =
               match Timer.action t with ReloadPage => true | _ => false end)
    by (unfold is_action; destruct (Timer.action t); reflexivity).
  rewrite IA in L. clear IA.
  unfold c_fire. cbv zeta. unfold reload_once in R.
  destruct (Timer.action t) eqn:A; cbv beta iota in L.
  - split; [exact T1|]. unfold reload_once.
    cbn [c_clear c_with_timers c_timers c_reloads c_reloadQueued]. lia.
  - split; [exact T1|]. unfold reload_once.
    cbn [c_clear c_with_timers c_timers c_reloads c_reloadQueued]. lia.
  - split.
    + eapply timers_ok_ext; try exact T1; reflexivity.
    + unfold reload_once.
      cbn [c_clear c_with_timers c_timers c_reloads c_reloadQueued].
      destruct (c_reloadQueued c); lia.
Qed.

Lemma cstep_inv now e c c' : cstep now e c c' -> control_inv c -> control_inv c'.
Proof.
  intros H I. destruct H.
  - apply c_move_inv. exact I.
  - eapply control_inv_ext; try exact I; reflexivity.
  - eapply control_inv_ext; try exact I; reflexivity.
  - apply c_cleanup_inv. exact I.
  - eapply frame_reach_inv; eauto.
  - apply c_fire_inv; assumption.
Qed.

Lemma init_inv w h now : state_inv (init w h now).
Proof.
  split.
  - constructor; cbn; try constructor; try lia; try discriminate; try contradiction.
  - reflexivity.
Qed.

Section Runs.

Variable env : Env.

Lemma handle_inv now e s s' :
  handle env now e s = Some s' -> state_inv s -> state_inv s'.
Proof.
  intros H I. apply handle_cstep in H as [_ H].
  eapply cstep_inv; [exact H|].
  eapply control_inv_ext; try exact I; reflexivity.
Qed.

Lemma run_inv es s s' : run env es s = Some s' -> state_inv s -> state_inv s'.
Proof.
  revert s; induction es as [|[now e] es IH]; intros s H I; cbn in H.
  - injection H as <-. exact I.
  - destruct (handle env now e s) as [s1|] eqn:E; [|discriminate].
    eapply IH; [exact H|]. eapply handle_inv; eauto.
Qed.

End Runs.

(** ** The settle timer *)

Arguments pending : simpl never.

Lemma ids_unique (ts : list Timer.t) (t u : Timer.t) :
  NoDup (map Timer.id ts) -> In t ts -> In u ts -> Timer.id t = Timer.id u -> t = u.
Proof.
  induction ts as [|v ts IH]; cbn; intros Hd Ht Hu E; [contradiction|].
  inversion Hd as [|? ? Hn Hd']; subst.
  destruct Ht as [<-|Ht], Hu as [<-|Hu]; auto.
  - exfalso. apply Hn. rewrite E. apply in_map. exact Hu.
  - exfalso. apply Hn. rewrite <- E. apply in_map. exact Ht.
Qed.

Lemma find_timer_unique (ts : list Timer.t) (t : Timer.t) :
  NoDup (map Timer.id ts) -> In t ts ->
  find (fun u => Nat.eqb (Timer.id u) (Timer.id t)) ts = Some t.
Proof.
  intros Hd Ht.
  destruct (find _ ts) as [u|] eqn:F.
  - apply find_some in F as [Hu E]. apply Nat.eqb_eq in E.
    f_equal. eapply ids_unique; eauto.
  - exfalso. apply (find_none _ _ F) in Ht. rewrite Nat.eqb_refl in Ht. discriminate.
Qed.

Lemma pending_none a ts :
  (forall t, In t ts -> Timer.action t <> a) -> pending a ts = [].
Proof.
  unfold pending.
  induction ts as [|t ts IH]; intros H; [reflexivity|]. cbn [filter].
  destruct (is_action a t) eqn:A.
  - apply is_action_iff in A. exfalso. apply (H t); cbn; auto.
  - apply IH. intros u Hu. apply H. cbn; auto.
Qed.

(** The settle callbacks are not touched by a frame. *)
Lemma frame_reach_settle now c c' :
  frame_reach now c c' ->
  pending SettleDetonation (c_timers c') = pending SettleDetonation (c_timers c)
  /\ c_mouse c' = c_mouse c /\ c_clock c' = c_clock c
  /\ c_firstClickHandled c' = c_firstClickHandled c.
Proof.
  induction 1 as [|c' _ IH|c' _ IH]; [auto| |].
  - destruct IH as (E & M & K & F). cbn. rewrite pending_app, E.
    unfold pending at 2. cbn. rewrite app_nil_r. auto.
  - destruct IH as (E & M & K & F). unfold crashed.
    destruct (c_reloadQueued c'); cbn; [auto|].
    rewrite pending_app, E. unfold pending at 2. cbn. rewrite app_nil_r. auto.
Qed.

(** A quiet step leaves the settle callback pending, unless it runs it, and
    then none is left. *)
Lemma cstep_quiet now e c c' :
  cstep now e c c' -> timers_ok c -> quiet_event e = true ->
  c_mouse c' = c_mouse c
  /\ ((settle_fires e (c_timers c) = false
       /\ pending SettleDetonation (c_timers c') = pending SettleDetonation (c_timers c))
      \/ (settle_fires e (c_timers c) = true
          /\ pending SettleDetonation (c_timers c') = []
          /\ length (pending SettleDetonation (c_timers c)) = 1%nat)).
Proof.
  intros H T Q. pose proof T as [F D NP SF SS SI].
  destruct H; try discriminate; cbn [settle_fires].
  - split; [reflexivity|]. left. split; reflexivity.
  - split; [reflexivity|]. left. split; reflexivity.
  - apply frame_reach_settle in H as (E & M & _). auto.
  - rewrite H.
    destruct (pending_drop_found SettleDetonation id t (c_timers c) D H)
      as (Hin & Eid & L).
    destruct (is_action SettleDetonation t) eqn:A.
    + pose proof A as A'. apply is_action_iff in A'.
      rewrite A'. cbn [c_fire c_clear c_with_timers c_timers c_mouse]. split; [reflexivity|].
      right. split; [reflexivity|].
      assert (N : pending SettleDetonation (drop_timer id (c_timers c)) = []).
      { apply pending_none. intros u Hu Au. apply drop_timer_In in Hu as [Hu Nu].
        pose proof (SS u Hu Au) as E1. pose proof (SS t Hin A') as E2. congruence. }
      split; [exact N|]. rewrite L, N. reflexivity.
    + assert (E : pending SettleDetonation (drop_timer id (c_timers c))
                  = pending SettleDetonation (c_timers c)).
      { apply pending_drop_other. intros u Hu Eu Au.
        assert (u = t) by (eapply ids_unique; eauto; congruence). subst u.
        apply is_action_iff in Au. congruence. }
      unfold c_fire. cbv zeta.
      destruct (Timer.action t); cbn [c_clear c_with_timers c_timers c_mouse]; auto.
Qed.

Lemma clear_stop_sub (c : Control) t :
  In t (c_timers (c_clear_stop c)) -> In t (c_timers c).
Proof.
  unfold c_clear_stop. destruct (handle_truthy (c_stopTimer c)); [|auto].
  destruct (c_stopTimer c); cbn; [|auto].
  intros H. apply drop_timer_In in H as [H _]. exact H.
Qed.

Lemma frame_reach_settle_after tm now c c' :
  frame_reach now c c' -> settle_after tm c -> settle_after tm c'.
Proof.
  induction 1 as [|c' _ IH|c' _ IH]; intros S; [exact S| |].
  - destruct (IH S) as [K A]. split; [exact K|]. cbn.
    intros t Ht At. apply in_app_iff in Ht as [Ht|[<-|[]]]; [auto|discriminate].
  - destruct (IH S) as [K A]. unfold crashed.
    destruct (c_reloadQueued c'); (split; [exact K|]); cbn; [exact A|].
    intros t Ht At. apply in_app_iff in Ht as [Ht|[<-|[]]]; [auto|discriminate].
Qed.

Lemma cstep_settle_after tm now e c c' :
  cstep now e (c_tick now c) c' -> c_clock c <= now ->
  settle_after tm c -> settle_after tm c'.
Proof.
  intros H C [K A].
  assert (S1 : settle_after tm (c_tick now c)).
  { split; cbn; [lra|exact A]. }
  clear A. remember (c_tick now c) as c1 eqn:E1.
  assert (K1 : c_clock c1 = now) by (subst c1; reflexivity).
  clear E1. destruct S1 as [K' A].
  destruct H.
  - unfold c_move. cbv zeta. destruct (c_firstClickHandled c0); split; cbn; try lra.
    + intros u Hu Au. apply in_app_iff in Hu as [Hu|[<-|[]]].
      * apply A; [apply clear_stop_sub; exact Hu|exact Au].
      * cbn. lra.
    + intros u Hu Au. apply A; [apply clear_stop_sub; exact Hu|exact Au].
  - split; cbn; [lra|exact A].
  - split; cbn; [lra|exact A].
  - split; cbn; [lra|].
    intros u Hu Au. apply A; [apply clear_stop_sub; exact Hu|exact Au].
  - eapply frame_reach_settle_after; [eassumption|]. split; [lra|exact A].
  - assert (S2 : settle_after tm (c_clear (Some id) c0)).
    { split; cbn; [lra|]. intros u Hu Au. apply drop_timer_In in Hu as [Hu _]. auto. }
    unfold c_fire. cbv zeta. destruct (Timer.action t); exact S2.
Qed.

(** Right after a move at [tm] that arms the timer, exactly its callback is
    pending. *)
Lemma c_move_armed tm x y c :
  timers_ok c -> c_firstClickHandled c = true ->
  pending SettleDetonation (c_timers (c_move tm x y c))
  = [Timer.mk (c_nextTimerId c) (tm + 240) SettleDetonation]
  /\ c_mouse (c_move tm x y c) = Vec.mk x y.
Proof.
  intros T F.
  destruct (clear_stop_spec c T) as (T1 & NoS & _).
  unfold c_move. cbv zeta. rewrite F. cbn [c_timers c_mouse].
  rewrite pending_app, NoS. split; reflexivity.
Qed.

Lemma c_move_settle_after tm x y c :
  timers_ok c -> c_clock c = tm -> settle_after tm (c_move tm x y c).
Proof.
  intros T K.
  destruct (clear_stop_spec c T) as (T1 & NoS & _).
  assert (N : forall u, In u (c_timers (c_clear_stop c)) ->
                        Timer.action u <> SettleDetonation).
  { intros u Hu Au.
    assert (In u (pending SettleDetonation (c_timers (c_clear_stop c))))
      by (apply pending_In; auto).
    rewrite NoS in *. contradiction. }
  unfold c_move. cbv zeta. destruct (c_firstClickHandled c); split; cbn.
  - rewrite K. apply Qle_refl.
  - intros u Hu Au. apply in_app_iff in Hu as [Hu|[<-|[]]].
    + exfalso. eapply N; eauto.
    + cbn. apply Qle_refl.
  - rewrite K. apply Qle_refl.
  - intros u Hu Au. exfalso. eapply N; eauto.
Qed.

(** ** Runs *)

Section Traces.

Variable env : Env.

Lemma handle_settle_after tm now e s s' :
  handle env now e s = Some s' ->
  settle_after tm (control s) -> settle_after tm (control s').
Proof.
  intros H S. apply handle_cstep in H as [C H].
  eapply cstep_settle_after; eauto.
Qed.

Lemma run_settle_after tm es s s' :
  run env es s = Some s' ->
  settle_after tm (control s) -> settle_after tm (control s').
Proof.
  revert s; induction es as [|[now e] es IH]; intros s H S; cbn in H.
  - injection H as <-. exact S.
  - destruct (handle env now e s) as [s1|] eqn:E; [|discriminate].
    eapply IH; [exact H|]. eapply handle_settle_after; eauto.
Qed.

(** A timer callback runs only once it is due, and is then taken out of
    the table. *)
Lemma timer_fires_inv now id s s' :
  handle env now (TimerFires id) s = Some s' ->
  exists t,
    find_timer id s = Some t /\ Timer.fireAt t <= now /\ clock s <= now
    /\ s' = runTimer now (Timer.action t) (clearTimeout (Some id) (set_clock now s)).
Proof.
  unfold handle. destruct (Qle_bool (clock s) now) eqn:C; cbn [negb]; [|discriminate].
  change (find_timer id (set_clock now s)) with (find_timer id s).
  destruct (find_timer id s) as [t|]; [|discriminate].
  destruct (Qle_bool (Timer.fireAt t) now) eqn:D; [|discriminate].
  intros [= <-]. exists t. rewrite <- !Qle_bool_iff. auto.
Qed.

Lemma timer_fires_enabled now t s :
  state_inv s -> In t (timers s) -> clock s <= now -> Timer.fireAt t <= now ->
  handle env now (TimerFires (Timer.id t)) s
  = Some (runTimer now (Timer.action t)
            (clearTimeout (Some (Timer.id t)) (set_clock now s))).
Proof.
  intros [T _] Hin C D. unfold handle.
  apply Qle_bool_iff in C. rewrite C. cbn [negb].
  change (find_timer (Timer.id t) (set_clock now s))
    with (find (fun u => Nat.eqb (Timer.id u) (Timer.id t)) (c_timers (control s))).
  rewrite (find_timer_unique _ t (ids_nodup _ T) Hin).
  apply Qle_bool_iff in D. rewrite D. reflexivity.
Qed.

(** A settle detonation pushes one explosion at the pointer. *)
Lemma settle_detonation_effect now id t s s' :
  find_timer id s = Some t -> Timer.action t = SettleDetonation ->
  handle env now (TimerFires id) s = Some s' ->
  explosions s' =
  explosions s ++
    [Explosion.mk (Vec.x (mouse s)) (Vec.y (mouse s)) 0 140 true now nuclear 1200 None None].
Proof.
  intros F A H. apply timer_fires_inv in H as (t' & F' & _ & _ & ->).
  rewrite F in F'. injection F' as <-. rewrite A. reflexivity.
Qed.

Lemma handle_quiet now e s s' :
  handle env now e s = Some s' -> state_inv s -> quiet_event e = true ->
  mouse s' = mouse s
  /\ ((settle_fires e (timers s) = false
       /\ pending SettleDetonation (timers s') = pending SettleDetonation (timers s))
      \/ (settle_fires e (timers s) = true
          /\ pending SettleDetonation (timers s') = []
          /\ length (pending SettleDetonation (timers s)) = 1%nat)).
Proof.
  intros H [T _] Q. apply handle_cstep in H as [_ H].
  apply cstep_quiet in H; [|eapply timers_ok_ext; try exact T; reflexivity|exact Q].
  exact H.
Qed.

(** Over a run without pointer moves, the pending settle callback stays as
    it is until it runs, it runs at most once, and the pointer stays. *)
Lemma run_quiet es s s' :
  run env es s = Some s' -> state_inv s -> quiet es = true ->
  mouse s' = mouse s
  /\ ((detonations env es s = 0%nat
       /\ pending SettleDetonation (timers s') = pending SettleDetonation (timers s))
      \/ (detonations env es s = 1%nat
          /\ pending SettleDetonation (timers s') = []
          /\ length (pending SettleDetonation (timers s)) = 1%nat)).
Proof.
  revert s; induction es as [|[now e] es IH]; intros s H I Q; cbn in H.
  - injection H as <-. auto.
  - cbn in Q. apply andb_true_iff in Q as [Qe Q].
    cbn [detonations].
    destruct (handle env now e s) as [s1|] eqn:E; [|discriminate].
    destruct (handle_quiet _ _ _ _ E I Qe) as [M1 L1].
    destruct (IH s1 H (handle_inv env _ _ _ _ E I) Q) as [M2 L2].
    split; [congruence|].
    destruct L1 as [[F1 E1]|[F1 [E1 N1]]]; rewrite F1.
    + destruct L2 as [[D2 E2]|[D2 [E2 N2]]]; rewrite D2; [left|right].
      * split; [reflexivity|congruence].
      * split; [reflexivity|]. split; [exact E2|congruence].
    + right. destruct L2 as [[D2 E2]|[D2 [E2 N2]]].
      * rewrite D2. split; [reflexivity|]. split; [congruence|exact N1].
      * rewrite E1 in N2. discriminate.
Qed.

End Traces.

(** ** The collision loop in detail *)

Lemma slotwise_refl l : slotwise l l.
Proof. intros j e H. exists e. repeat split; auto. Qed.

Lemma slotwise_trans l1 l2 l3 : slotwise l1 l2 -> slotwise l2 l3 -> slotwise l1 l3.
Proof.
  intros H12 H23 j e H.
  destruct (H12 j e H) as (e2 & H2 & X2 & Y2 & R2 & C2 & B2 & K2).
  destruct (H23 j e2 H2) as (e3 & H3 & X3 & Y3 & R3 & C3 & B3 & K3).
  exists e3. repeat split; try congruence; auto.
Qed.

Lemma set_nth_same {A : Type} (i : nat) (v : A) (l : list A) :
  nth_error l i = Some v -> set_nth i v l = l.
Proof.
  revert i; induction l as [|a l IH]; intros [|i] H; cbn in *; try discriminate.
  - congruence.
  - f_equal. auto.
Qed.

Lemma flagged_app l k : flagged (l ++ k) = (flagged l + flagged k)%nat.
Proof. unfold flagged. rewrite filter_app, length_app. reflexivity. Qed.

Lemma flagged_set_nth i e e' l :
  nth_error l i = Some e ->
  (flagged (set_nth i e' l) + (if truthy (Explosion.hitBomber e) then 1 else 0)
   = flagged l + (if truthy (Explosion.hitBomber e') then 1 else 0))%nat.
Proof.
  unfold flagged. revert i; induction l as [|a l IH]; intros [|i] H; cbn in H; try discriminate.
  - injection H as ->. cbn.
    destruct (truthy (Explosion.hitBomber e)), (truthy (Explosion.hitBomber e')); cbn; lia.
  - cbn. specialize (IH i H).
    destruct (truthy (Explosion.hitBomber a)); cbn; lia.
Qed.

Section Collide.

Variable env : Env.

(** [triggerEarthquake] leaves the scene alone and pushes at most the reload
    callback. *)
Lemma triggerEarthquake_scene now s :
  let s' := triggerEarthquake env now s in
  score s' = score s /\ scorePulse s' = scorePulse s /\ popups s' = popups s
  /\ explosions s' = explosions s /\ bomber s' = bomber s /\ boy s' = boy s
  /\ quakeActive s' = true
  /\ exists added, timers s' = timers s ++ added.
Proof.
  destruct (triggerEarthquake_frame env now s) as [bs [n E]]. cbv zeta. rewrite E.
  destruct (reloadQueued s); cbv beta.
  - repeat split; try reflexivity. exists []. cbn. rewrite app_nil_r. reflexivity.
  - repeat split; try reflexivity. eexists. reflexivity.
Qed.

Lemma boyCrash_scene now ex s :
  let ex' := fst (boyCrash env now ex s) in
  let s' := snd (boyCrash env now ex s) in
  score s' = score s /\ scorePulse s' = scorePulse s /\ popups s' = popups s
  /\ explosions s' = explosions s /\ bomber s' = bomber s
  /\ Actor.x (boy s') = Actor.x (boy s) /\ Actor.y (boy s') = Actor.y (boy s)
  /\ Actor.alive (boy s') = Actor.alive (boy s) && negb (boyHit ex s)
  /\ (exists added, timers s' = timers s ++ added)
  /\ ex' = (if boyHit ex s then Explosion.set_hitBoy (Some true) ex else ex).
Proof.
  unfold boyCrash. destruct (boyHit ex s) eqn:B; cbn [fst snd].
  - destruct (triggerEarthquake_scene now (set_boy (Actor.set_alive false (boy s)) s))
      as (A1 & A2 & A3 & A4 & A5 & A6 & A7 & A8).
    rewrite A1, A2, A3, A4, A5, A6. cbn. rewrite andb_false_r.
    repeat split; auto.
  - rewrite andb_true_r. repeat split; auto. exists []. rewrite app_nil_r. reflexivity.
Qed.

(** The state and the explosion after the bomber branch was taken. *)
Lemma bomberDestruction_hit now ex s :
  bomberHit ex s = true ->
  let ex' := fst (bomberDestruction now ex s) in
  let s' := snd (bomberDestruction now ex s) in
  ex' = Explosion.set_hitBomber (Some true) ex
  /\ score s' = (score s + 1)%Z /\ scorePulse s' = 1
  /\ popups s' =
     popups s ++ [Popup.mk (Actor.x (bomber s)) (Actor.y (bomber s) - 20) "+1" 0 900]
  /\ explosions s' =
     explosions s ++
       [Explosion.mk (Actor.x (bomber s)) (Actor.y (bomber s)) 0 140 true now nuclear 1200
          None None]
  /\ Actor.alive (bomber s') = false
  /\ Actor.x (bomber s') = Actor.x (bomber s) /\ Actor.y (bomber s') = Actor.y (bomber s)
  /\ timers s' = timers s ++ [Timer.mk (nextTimerId s) (now + 1200) RespawnBomber]
  /\ boy s' = boy s.
Proof.
  intros H. destruct s. unfold bomberDestruction. rewrite H. cbv zeta.
  unfold spawnExplosion, setTimeout. cbn [fst snd].
  repeat split; reflexivity.
Qed.

Lemma bomberDestruction_miss now ex s :
  bomberHit ex s = false -> bomberDestruction now ex s = (ex, s).
Proof. intros H. unfold bomberDestruction. rewrite H. reflexivity. Qed.

(** One pass of the loop body, field by field. *)
Lemma collide_spec now i ex s :
  nth_error (explosions s) i = Some ex ->
  let s' := collide env now i ex s in
  let hit := Explosion.alive ex && bomberHit ex s in
  score s' = (score s + (if hit then 1 else 0))%Z
  /\ scorePulse s' = (if hit then 1 else scorePulse s)
  /\ popups s' =
     popups s ++
       (if hit
        then [Popup.mk (Actor.x (bomber s)) (Actor.y (bomber s) - 20) "+1" 0 900]
        else [])
  /\ (exists ex',
        explosions s' =
        set_nth i ex' (explosions s) ++
          (if hit
           then [Explosion.mk (Actor.x (bomber s)) (Actor.y (bomber s)) 0 140 true now
                   nuclear 1200 None None]
           else [])
        /\ Explosion.x ex' = Explosion.x ex /\ Explosion.y ex' = Explosion.y ex
        /\ Explosion.r ex' = Explosion.r ex
        /\ Explosion.createdAt ex' = Explosion.createdAt ex
        /\ Explosion.hitBomber ex' = (if hit then Some true else Explosion.hitBomber ex)
        /\ (truthy (Explosion.hitBoy ex) = true -> truthy (Explosion.hitBoy ex') = true))
  /\ Actor.alive (bomber s') = Actor.alive (bomber s) && negb hit
  /\ Actor.x (bomber s') = Actor.x (bomber s) /\ Actor.y (bomber s') = Actor.y (bomber s)
  /\ Actor.x (boy s') = Actor.x (boy s) /\ Actor.y (boy s') = Actor.y (boy s)
  /\ (Actor.alive (boy s') = true -> Actor.alive (boy s) = true)
  /\ (exists added,
        timers s' =
        timers s ++
          (if hit then [Timer.mk (nextTimerId s) (now + 1200) RespawnBomber] else [])
          ++ added).
Proof.
  intros Hn. assert (Hi : (i < length (explosions s))%nat)
    by (apply nth_error_Some; congruence).
  cbv zeta. unfold collide.
  destruct (Explosion.alive ex); cbn [negb andb].
  2:{ rewrite andb_true_r, !app_nil_r, Z.add_0_r. repeat split; auto.
      - exists ex. rewrite set_nth_same, app_nil_r by exact Hn. repeat split; auto.
      - exists []. rewrite app_nil_r. reflexivity. }
  destruct (bomberHit ex s) eqn:B.
  - destruct (bomberDestruction_hit now ex s B)
      as (E1 & A1 & A2 & A3 & A4 & A5 & A6 & A7 & A8 & A9).
    destruct (bomberDestruction now ex s) as [ex1 s1]. cbn [fst snd] in *.
    destruct (boyCrash_scene now ex1 s1) as (B1 & B2 & B3 & B4 & B5 & B6 & B7 & B8 & B9 & E2).
    destruct (boyCrash env now ex1 s1) as [ex2 s2]. cbn [fst snd] in *.
    cbn [score scorePulse popups explosions bomber boy timers set_explosions].
    rewrite B1, B2, B3, B4, B5, B6, B7, B8, A1, A2, A3, A4, A5, A6, A7, A9.
    rewrite andb_false_r.
    repeat split; auto.
    + exists ex2. rewrite set_nth_app by exact Hi.
      subst ex2 ex1. destruct (boyHit _ s1); repeat split; auto.
    + intros H. apply andb_true_iff in H as [H _]. exact H.
    + destruct B9 as [added B9]. exists added. rewrite B9, A8, app_assoc. reflexivity.
  - rewrite (bomberDestruction_miss now ex s B).
    destruct (boyCrash_scene now ex s) as (B1 & B2 & B3 & B4 & B5 & B6 & B7 & B8 & B9 & E2).
    destruct (boyCrash env now ex s) as [ex2 s2]. cbn [fst snd] in *.
    cbn [score scorePulse popups explosions bomber boy timers set_explosions].
    rewrite B1, B2, B3, B4, B5, B6, B7, B8, !app_nil_r, andb_true_r, Z.add_0_r.
    repeat split; auto.
    + exists ex2. rewrite app_nil_r. subst ex2. destruct (boyHit ex s); repeat split; auto.
    + intros H. apply andb_true_iff in H as [H _]. exact H.
Qed.

End Collide.

(** ** Scoring *)

Lemma accounted_refl s : accounted s s.
Proof. split; [lia|]. split; [lia|apply slotwise_refl]. Qed.

Lemma accounted_trans a b c : accounted a b -> accounted b c -> accounted a c.
Proof.
  intros (E1 & L1 & S1) (E2 & L2 & S2).
  split; [lia|]. split; [lia|]. eapply slotwise_trans; eauto.
Qed.

Lemma bomberHit_unflagged ex s :
  bomberHit ex s = true -> truthy (Explosion.hitBomber ex) = false.
Proof.
  unfold bomberHit. intros H.
  apply andb_true_iff in H as [H _]. apply andb_true_iff in H as [_ H].
  apply negb_true_iff in H. exact H.
Qed.

Section Loop.

Variable env : Env.

(** A relation between states that holds across every pass of the loop body
    holds across the loop. *)
Lemma collisions_rel (R : State -> State -> Prop) (now : Q) :
  (forall s, R s s) ->
  (forall a b c, R a b -> R b c -> R a c) ->
  (forall i ex s, nth_error (explosions s) i = Some ex -> R s (collide env now i ex s)) ->
  forall i s, R s (collisions env now i s).
Proof.
  intros Hr Ht Hb i s. funelim (collisions env now i s).
  - eapply Ht; [apply Hb; eassumption|].
    match goal with
    | IH : forall R' : State -> State -> Prop, _ |- _ => apply IH; assumption
    end.
  - apply Hr.
Qed.

Lemma collide_accounted now i ex s :
  nth_error (explosions s) i = Some ex -> accounted s (collide env now i ex s).
Proof.
  intros Hn.
  assert (Hi : (i < length (explosions s))%nat) by (apply nth_error_Some; congruence).
  destruct (collide_spec env now i ex s Hn)
    as (Sc & _ & _ & (ex' & El & X & Y & Rr & Cr & Fb & Fy) & _).
  set (hit := Explosion.alive ex && bomberHit ex s) in *.
  pose proof (flagged_set_nth i ex ex' (explosions s) Hn) as Fl.
  assert (Hf : hit = true -> truthy (Explosion.hitBomber ex) = false).
  { intros H. apply andb_true_iff in H as [_ H]. eapply bomberHit_unflagged; eauto. }
  split; [|split].
  - rewrite Sc, El, flagged_app. rewrite Fb in Fl.
    destruct hit.
    + rewrite Hf in Fl by reflexivity.
      change (flagged [_]) with 0%nat. cbn [truthy] in Fl. lia.
    + change (flagged []) with 0%nat.
      destruct (truthy (Explosion.hitBomber ex)); lia.
  - rewrite Sc. destruct hit; lia.
  - intros j e Hj. rewrite El.
    assert (Hjl : (j < length (explosions s))%nat) by (apply nth_error_Some; congruence).
    rewrite nth_error_app1 by (rewrite set_nth_length; exact Hjl).
    destruct (Nat.eq_dec i j) as [<-|N].
    + rewrite set_nth_nth_error by exact Hi. exists ex'.
      assert (e = ex) by congruence. subst e.
      repeat split; auto.
      rewrite Fb. destruct hit; auto.
    + rewrite set_nth_other by exact N. exists e. repeat split; auto.
Qed.

Lemma update_accounted dt now s : accounted s (update env dt now s).
Proof.
  rewrite update_prelude.
  assert (E : accounted (prelude dt now s) (collisions env now 0 (prelude dt now s))).
  { apply collisions_rel.
    - apply accounted_refl.
    - apply accounted_trans.
    - intros. apply collide_accounted. assumption. }
  unfold accounted in *. rewrite prelude_explosions in E.
  assert (Es : score (prelude dt now s) = score s)
    by exact (f_equal c_score (prelude_control dt now s)).
  rewrite Es in E. exact E.
Qed.

End Loop.

(** The score as a control field never goes down. *)
Lemma frame_reach_score now c c' : frame_reach now c c' -> (c_score c <= c_score c')%Z.
Proof.
  induction 1 as [|c' _ IH|c' _ IH]; [lia| |].
  - cbn. lia.
  - unfold crashed. destruct (c_reloadQueued c'); cbn; lia.
Qed.

Lemma cstep_score now e c c' : cstep now e c c' -> (c_score c <= c_score c')%Z.
Proof.
  intros H. destruct H; try (cbn; lia).
  - unfold c_move. cbv zeta. destruct (c_firstClickHandled c); cbn; lia.
  - apply frame_reach_score with (now := now). assumption.
  - unfold c_fire. cbv zeta. destruct (Timer.action t); cbn; lia.
Qed.

Lemma run_score env es s s' : run env es s = Some s' -> (score s <= score s')%Z.
Proof.
  revert s; induction es as [|[now e] es IH]; intros s H; cbn in H.
  - injection H as <-. lia.
  - destruct (handle env now e s) as [s1|] eqn:E; [|discriminate].
    specialize (IH _ H). apply handle_cstep in E as [_ E].
    apply cstep_score in E. cbn in E. lia.
Qed.

(** ** The rest of the frame *)

Section Finish.

Variable env : Env.

Lemma drawMissile_scene s :
  scene (drawMissile env s) = scene s
  /\ exists extra, canvas (drawMissile env s) = canvas s ++ extra.
Proof.
  unfold drawMissile. destruct (negb (firstClickHandled s)).
  - split; [reflexivity|]. exists []. rewrite app_nil_r. reflexivity.
  - split; [reflexivity|]. eexists. reflexivity.
Qed.

Lemma drawParticles_scene dt s :
  scene (drawParticles dt s) = scene s
  /\ exists extra, canvas (drawParticles dt s) = canvas s ++ extra.
Proof.
  unfold drawParticles. destruct (drawParticles_loop dt (particles s)) as [ps paints].
  split; [reflexivity|]. exists paints. reflexivity.
Qed.

Lemma drawBoy_scene dt s :
  scene (drawBoy dt s) = scene s
  /\ exists extra, canvas (drawBoy dt s) = canvas s ++ extra.
Proof.
  unfold drawBoy. destruct (negb (Actor.alive (boy s))).
  - split; [reflexivity|]. exists []. rewrite app_nil_r. reflexivity.
  - split; [reflexivity|]. eexists. reflexivity.
Qed.

Lemma drawBomber_scene dt s :
  scene (drawBomber dt s) = scene s
  /\ exists extra, canvas (drawBomber dt s) = canvas s ++ extra.
Proof.
  unfold drawBomber. destruct (negb (Actor.alive (bomber s))).
  - split; [reflexivity|]. exists []. rewrite app_nil_r. reflexivity.
  - split; [reflexivity|]. eexists. reflexivity.
Qed.

Lemma tail_scene now s :
  scene (cleanupExplosions now (drawScore (drawPopups s)))
  = (filter (fun ex => negb (stale now ex)) (explosions s), actors s, score s)
  /\ exists extra,
      canvas (cleanupExplosions now (drawScore (drawPopups s))) = canvas s ++ extra.
Proof.
  split; [reflexivity|]. eexists. cbn. rewrite <- app_assoc. reflexivity.
Qed.

Lemma closing_scene dt s :
  let s' :=
    set_raf RafLoop
      ((fun s0 => if negb (firstClickHandled s0) then paint PIntro s0 else s0)
         (if quakeActive s then drawEarthquake env dt s else s)) in
  scene s' = scene s /\ exists extra, canvas s' = canvas s ++ extra.
Proof.
  cbv zeta beta. destruct (quakeActive s).
  - destruct (firstClickHandled (drawEarthquake env dt s)); cbn [negb].
    + split; [reflexivity|]. eexists. reflexivity.
    + split; [reflexivity|]. eexists. cbn. rewrite <- app_assoc. reflexivity.
  - destruct (firstClickHandled s); cbn [negb].
    + split; [reflexivity|]. exists []. rewrite app_nil_r. reflexivity.
    + split; [reflexivity|]. eexists. reflexivity.
Qed.

Lemma drawExplosions_scene now s :
  scene (drawExplosions now s) = (map (drawn now) (explosions s), actors s, score s)
  /\ canvas (drawExplosions now s)
     = canvas s ++ map PExplosion (filter Explosion.alive (map (drawn now) (explosions s))).
Proof. split; reflexivity. Qed.

(** After [update], the frame redraws the radius of every live explosion,
    drops the stale ones, and moves no actor. *)
Lemma finish_scene dt now s :
  scene (finish env dt now s)
  = (filter (fun ex => negb (stale now ex)) (map (drawn now) (explosions s)),
     actors s, score s)
  /\ forall p,
      In p (map PExplosion (filter Explosion.alive (map (drawn now) (explosions s)))) ->
      In p (canvas (finish env dt now s)).
Proof.
  unfold finish. cbv zeta.
  destruct (drawExplosions_scene now s) as [S1 C1].
  set (s1 := drawExplosions now s) in *.
  destruct (drawMissile_scene s1) as [S2 [x2 C2]].
  set (s2 := drawMissile env s1) in *.
  destruct (drawParticles_scene dt s2) as [S3 [x3 C3]].
  set (s3 := drawParticles dt s2) in *.
  destruct (drawBoy_scene dt s3) as [S4 [x4 C4]].
  set (s4 := drawBoy dt s3) in *.
  destruct (drawBomber_scene dt s4) as [S5 [x5 C5]].
  set (s5 := drawBomber dt s4) in *.
  destruct (tail_scene now s5) as [S6 [x6 C6]].
  set (s6 := cleanupExplosions now (drawScore (drawPopups s5))) in *.
  destruct (closing_scene dt s6) as [S7 [x7 C7]].
  cbv zeta beta in S7, C7.
  clearbody s1 s2 s3 s4 s5 s6.
  split.
  - rewrite S7, S6.
    assert (E : scene s5 = (map (drawn now) (explosions s), actors s, score s))
      by congruence.
    pose proof (f_equal (fun t => fst (fst t)) E) as E1.
    pose proof (f_equal (fun t => snd (fst t)) E) as E2.
    pose proof (f_equal snd E) as E3.
    cbn [scene fst snd] in E1, E2, E3. rewrite E1, E2, E3. reflexivity.
  - intros p Hp. rewrite C7, C6, C5, C4, C3, C2, C1.
    do 6 (apply in_or_app; left). apply in_or_app. right. exact Hp.
Qed.

End Finish.

(** ** The Runner during [update] *)

Lemma circleHit_ext (e e' : Explosion.t) (cx cy radius : Q) :
  Explosion.x e' = Explosion.x e -> Explosion.y e' = Explosion.y e ->
  Explosion.r e' = Explosion.r e ->
  circleHit e' cx cy radius = circleHit e cx cy radius.
Proof. intros X Y R. unfold circleHit. rewrite X, Y, R. reflexivity. Qed.

Lemma runner_kept_refl s : runner_kept s s.
Proof.
  split; [apply slotwise_refl|]. repeat split; auto. intros A B. congruence.
Qed.

Lemma runner_kept_trans a b c : runner_kept a b -> runner_kept b c -> runner_kept a c.
Proof.
  intros (S1 & X1 & Y1 & H1 & K1) (S2 & X2 & Y2 & H2 & K2).
  split; [eapply slotwise_trans; eauto|].
  split; [congruence|]. split; [congruence|]. split; [congruence|].
  intros A C. destruct (Actor.alive (boy b)) eqn:B.
  - apply K2; auto.
  - destruct (K1 A eq_refl) as (j & ex & Hj & F & Hc).
    destruct (S2 j ex Hj) as (ex' & Hj' & X & Y & R & _ & _ & F').
    exists j, ex'. split; [exact Hj'|]. split; [auto|].
    rewrite X2, Y2, H2. rewrite (circleHit_ext ex ex') by assumption. exact Hc.
Qed.

Section Runner.

Variable env : Env.

Lemma collide_runner_kept now i ex s :
  nth_error (explosions s) i = Some ex -> runner_kept s (collide env now i ex s).
Proof.
  intros Hn.
  assert (Hi : (i < length (explosions s))%nat) by (apply nth_error_Some; congruence).
  destruct (collide_accounted env now i ex s Hn) as (_ & _ & Sl).
  split; [exact Sl|].
  unfold collide. destruct (Explosion.alive ex); cbn [negb].
  2:{ repeat split; auto. intros A B. congruence. }
  assert (E1 : exists ex1 s1,
             bomberDestruction now ex s = (ex1, s1) /\ boy s1 = boy s
             /\ Explosion.x ex1 = Explosion.x ex /\ Explosion.y ex1 = Explosion.y ex
             /\ Explosion.r ex1 = Explosion.r ex
             /\ (length (explosions s) <= length (explosions s1))%nat).
  { destruct (bomberHit ex s) eqn:B.
    - destruct (bomberDestruction_hit now ex s B)
        as (A0 & _ & _ & _ & A4 & _ & _ & _ & _ & A9).
      destruct (bomberDestruction now ex s) as [ex1 s1]. cbn [fst snd] in *.
      exists ex1, s1. subst ex1. repeat split; auto.
      rewrite A4, length_app. lia.
    - rewrite (bomberDestruction_miss now ex s B). exists ex, s. repeat split; auto. }
  destruct E1 as (ex1 & s1 & -> & Eb & X1 & Y1 & R1 & L1).
  unfold boyCrash. destruct (boyHit ex1 s1) eqn:B.
  - destruct (triggerEarthquake_scene env now (set_boy (Actor.set_alive false (boy s1)) s1))
      as (_ & _ & _ & T4 & _ & T6 & _).
    set (s2 := triggerEarthquake env now (set_boy (Actor.set_alive false (boy s1)) s1)) in *.
    cbn [boy explosions set_boy] in T4, T6.
    unfold struck. cbn [boy explosions set_explosions]. rewrite T6, T4.
    cbn [Actor.x Actor.y Actor.h Actor.alive Actor.set_alive]. rewrite Eb.
    repeat split; try reflexivity.
    intros A _. exists i, (Explosion.set_hitBoy (Some true) ex1).
    split; [apply set_nth_nth_error; lia|]. split; [reflexivity|].
    unfold boyHit in B. rewrite Eb in B.
    apply andb_true_iff in B as [_ B].
    rewrite (circleHit_ext ex1 (Explosion.set_hitBoy (Some true) ex1)) by reflexivity.
    exact B.
  - cbn [boy explosions set_explosions]. rewrite Eb. repeat split; try reflexivity.
    intros A C. congruence.
Qed.

Lemma collisions_runner_kept now i s : runner_kept s (collisions env now i s).
Proof.
  apply collisions_rel.
  - apply runner_kept_refl.
  - apply runner_kept_trans.
  - intros. apply collide_runner_kept. assumption.
Qed.

Lemma missileFollow_rest s :
  boy (missileFollow s) = boy s /\ startTime (missileFollow s) = startTime s
  /\ height (missileFollow s) = height s /\ width (missileFollow s) = width s.
Proof. unfold missileFollow. destruct (firstClickHandled s); repeat split; reflexivity. Qed.

Lemma spawnActors_boy now s :
  boy (spawnActors now s)
  = (if Qgtb (now - startTime s) 30000 && negb (Actor.alive (boy s))
     then Actor.mk (-80) (groundY s - 8) (Actor.w (boy s)) (Actor.h (boy s)) true
            (Actor.animTime (boy s))
     else boy s)
  /\ width (spawnActors now s) = width s.
Proof.
  unfold spawnActors. cbv zeta.
  destruct (Qgtb (now - startTime s) 30000); cbn [andb]; [|split; reflexivity].
  destruct (Actor.alive (boy s)) eqn:A; cbn [negb].
  - destruct (Actor.alive (bomber s)); cbn [negb]; split; reflexivity.
  - destruct (Actor.alive (bomber (set_boy _ s))); cbn [negb]; split; reflexivity.
Qed.

Lemma bomberBehavior_boy dt s : boy (bomberBehavior dt s) = boy s.
Proof. unfold bomberBehavior. repeat case_if; reflexivity. Qed.

(** The Runner when the collision loop starts. *)
Lemma prelude_boy dt now s :
  boy (prelude dt now s) = boy (moveBoy dt (spawnActors now (missileFollow s)))
  /\ boy (spawnActors now (missileFollow s))
     = (if Qgtb (now - startTime s) 30000 && negb (Actor.alive (boy s))
        then Actor.mk (-80) (groundY s - 8) (Actor.w (boy s)) (Actor.h (boy s)) true
               (Actor.animTime (boy s))
        else boy s)
  /\ width (spawnActors now (missileFollow s)) = width s.
Proof.
  destruct (missileFollow_rest s) as (Mb & Mt & Mh & Mw).
  destruct (spawnActors_boy now (missileFollow s)) as [Sb Sw].
  split; [|split].
  - unfold prelude.
    change (boy (decayFeedback dt ?a)) with (boy a).
    apply bomberBehavior_boy.
  - rewrite Sb, Mb, Mt. unfold groundY. rewrite Mh. reflexivity.
  - rewrite Sw. exact Mw.
Qed.

End Runner.

(** ** The first hit on the bomber in a run of the collision loop *)

Section FirstHit.

Variable env : Env.

Lemma nothing_scored_refl s : nothing_scored s s.
Proof. intros B. repeat split; auto. apply slotwise_refl. Qed.

Lemma nothing_scored_trans a b c :
  nothing_scored a b -> nothing_scored b c -> nothing_scored a c.
Proof.
  intros H1 H2 B. destruct (H1 B) as (S1 & P1 & Q1 & B1 & T1 & L1).
  destruct (H2 B1) as (S2 & P2 & Q2 & B2 & T2 & L2).
  repeat split; try congruence; auto.
  eapply slotwise_trans; eauto.
Qed.

Lemma collide_nothing_scored now i ex s :
  nth_error (explosions s) i = Some ex -> nothing_scored s (collide env now i ex s).
Proof.
  intros Hn B.
  destruct (collide_accounted env now i ex s Hn) as (_ & _ & Sl).
  destruct (collide_spec env now i ex s Hn)
    as (Sc & Sp & Pp & _ & Ba & _ & _ & _ & _ & _ & (added & Tm)).
  assert (H : Explosion.alive ex && bomberHit ex s = false).
  { unfold bomberHit. rewrite B. cbn. apply andb_false_r. }
  rewrite H in *. rewrite Z.add_0_r in Sc. rewrite app_nil_r in Pp.
  repeat split; auto.
  - rewrite Ba, B. reflexivity.
  - intros t Ht. rewrite Tm. cbn. apply in_or_app. left. exact Ht.
Qed.

Lemma collisions_nothing_scored now i s : nothing_scored s (collisions env now i s).
Proof.
  apply collisions_rel.
  - apply nothing_scored_refl.
  - apply nothing_scored_trans.
  - intros. apply collide_nothing_scored. assumption.
Qed.

(** A pass that does not hit the bomber leaves it, the feedback and every
    other slot as they were. *)
Lemma collide_miss now i ex s :
  nth_error (explosions s) i = Some ex ->
  Explosion.alive ex && bomberHit ex s = false ->
  let s' := collide env now i ex s in
  score s' = score s /\ scorePulse s' = scorePulse s /\ popups s' = popups s
  /\ bomber s' = bomber s
  /\ length (explosions s') = length (explosions s)
  /\ forall k, k <> i -> nth_error (explosions s') k = nth_error (explosions s) k.
Proof.
  intros Hn H. cbv zeta. unfold collide.
  destruct (Explosion.alive ex); cbn [negb andb] in *; [|repeat split; auto].
  rewrite (bomberDestruction_miss now ex s H).
  destruct (boyCrash_scene env now ex s) as (B1 & B2 & B3 & B4 & B5 & _).
  destruct (boyCrash env now ex s) as [ex2 s2]. cbn [fst snd] in *.
  cbn [score scorePulse popups bomber explosions set_explosions].
  rewrite B1, B2, B3, B4, B5, set_nth_length.
  repeat split; auto. intros k N. apply set_nth_other. auto.
Qed.

Lemma bomberHit_slot (e e' : Explosion.t) s :
  Explosion.x e' = Explosion.x e -> Explosion.y e' = Explosion.y e ->
  Explosion.r e' = Explosion.r e ->
  Explosion.hitBomber e' = Explosion.hitBomber e ->
  bomberHit e' s = bomberHit e s.
Proof.
  intros X Y R F. unfold bomberHit. rewrite F, (circleHit_ext e e') by assumption.
  reflexivity.
Qed.

(** The loop body never writes [ex.alive]. *)
Lemma collide_alive now i ex s ex' :
  nth_error (explosions s) i = Some ex ->
  nth_error (explosions (collide env now i ex s)) i = Some ex' ->
  Explosion.alive ex' = Explosion.alive ex.
Proof.
  intros Hn. rewrite collide_explosions.
  assert (Hi : (i < length (explosions s))%nat) by (apply nth_error_Some; congruence).
  destruct (Explosion.alive ex) eqn:A; cbn [negb].
  - assert (L : (i < length (explosions (snd (bomberDestruction now ex s))))%nat).
    { destruct (bomberDestruction_cases now ex s) as [[_ E]|(_ & _ & _ & E)]; rewrite E.
      - exact Hi.
      - rewrite length_app. lia. }
    rewrite set_nth_nth_error by exact L. intros [= <-].
    destruct (boyCrash_scene env now (fst (bomberDestruction now ex s))
                (snd (bomberDestruction now ex s))) as (_ & _ & _ & _ & _ & _ & _ & _ & _ & E).
    rewrite E. clear E.
    assert (E1 : Explosion.alive (fst (bomberDestruction now ex s)) = true).
    { unfold bomberDestruction. destruct (bomberHit ex s); exact A. }
    destruct (boyHit _ _); exact E1.
  - rewrite Hn. intros [= <-]. exact A.
Qed.

Lemma bomberHit_ext ex s s' :
  bomber s' = bomber s -> bomberHit ex s' = bomberHit ex s.
Proof. intros E. unfold bomberHit. rewrite E. reflexivity. Qed.

(** If a live explosion at or after slot [i] overlaps the alive bomber, the
    loop from slot [i] on hits the bomber exactly once. *)
Lemma collisions_first_hit now i s :
  (exists k ex,
      (i <= k)%nat /\ nth_error (explosions s) k = Some ex
      /\ Explosion.alive ex = true /\ bomberHit ex s = true) ->
  bomber_was_hit now (Actor.x (bomber s)) (Actor.y (bomber s)) s (collisions env now i s).
Proof.
  funelim (collisions env now i s); intros (k & exk & Hk & Hnk & Ak & Bk).
  - rename e into Hn.
    assert (Hi : (i < length (explosions s))%nat) by (apply nth_error_Some; congruence).
    destruct (Explosion.alive ex && bomberHit ex s) eqn:Hit.
    + (* this pass hits *)
      clear H.
      destruct (collide_spec env now i ex s Hn)
        as (Sc & Sp & Pp & (ex' & El & _ & _ & _ & _ & Fb & _) & Ba & _ & _ & _ & _ & _
            & (added & Tm)).
      rewrite Hit in *.
      assert (Bd : Actor.alive (bomber (collide env now i ex s)) = false)
        by (rewrite Ba; apply andb_false_r).
      destruct (collisions_nothing_scored now (S i) (collide env now i ex s) Bd)
        as (S2 & P2 & Q2 & B2 & T2 & L2).
      apply andb_true_iff in Hit as [Ai Bi].
      unfold bomber_was_hit.
      rewrite S2, P2, Q2, Sc, Sp, Pp.
      repeat split; auto.
      * eexists. apply T2. rewrite Tm. apply in_or_app. right. left. reflexivity.
      * assert (Hx : nth_error (explosions (collide env now i ex s)) i = Some ex').
        { rewrite El, nth_error_app1 by (rewrite set_nth_length; exact Hi).
          apply set_nth_nth_error. exact Hi. }
        destruct (L2 i ex' Hx) as (e2 & H2 & _ & _ & _ & _ & F2 & _).
        exists i, ex, e2. repeat split; auto. apply F2. rewrite Fb. reflexivity.
      * assert (Hx : nth_error (explosions (collide env now i ex s)) (length (explosions s))
                     = Some (Explosion.mk (Actor.x (bomber s)) (Actor.y (bomber s)) 0 140
                               true now nuclear 1200 None None)).
        { rewrite El, nth_error_app2 by (rewrite set_nth_length; lia).
          rewrite set_nth_length, Nat.sub_diag. reflexivity. }
        destruct (L2 _ _ Hx) as (e2 & H2 & X2 & Y2 & R2 & C2 & _).
        exists (length (explosions s)), e2. repeat split; auto.
    + (* this pass misses: the hit is further on *)
      destruct (collide_miss now i ex s Hn Hit) as (Sc & Sp & Pp & Bb & Ll & Oth).
      assert (Nk : k <> i).
      { intros ->. rewrite Hn in Hnk. injection Hnk as <-.
        rewrite Ak, Bk in Hit. discriminate. }
      assert (IH : bomber_was_hit now (Actor.x (bomber (collide env now i ex s)))
                     (Actor.y (bomber (collide env now i ex s)))
                     (collide env now i ex s)
                     (collisions env now (S i) (collide env now i ex s))).
      { apply H. exists k, exk. split; [lia|]. split; [rewrite Oth by exact Nk; exact Hnk|].
        split; [exact Ak|]. rewrite (bomberHit_ext exk s _ Bb). exact Bk. }
      clear H. unfold bomber_was_hit in *. rewrite Bb, Sc, Pp in IH.
      destruct IH as (I1 & I2 & I3 & I4 & I5 & (k' & e1 & e1' & J1 & J2 & J3 & J4 & J5) & I7).
      repeat split; auto.
      * destruct (Nat.eq_dec k' i) as [->|N'].
        -- (* the pass at [i] missed and left its explosion as it was, so
              the hit cannot be in slot [i] *)
           exfalso.
           pose proof (collide_alive now i ex s e1 Hn J1) as Ae.
           destruct (collide_spec env now i ex s Hn)
             as (_ & _ & _ & (ex' & El & X & Y & Rr & _ & Fb & _) & _).
           rewrite Hit in *. rewrite app_nil_r in El.
           rewrite El, set_nth_nth_error in J1 by exact Hi. injection J1 as <-.
           rewrite (bomberHit_ext ex' s _ Bb) in J3.
           rewrite (bomberHit_slot ex ex' s X Y Rr Fb) in J3.
           rewrite <- Ae, J2, J3 in Hit. discriminate.
        -- exists k', e1, e1'. rewrite Oth in J1 by exact N'.
           rewrite (bomberHit_ext e1 s _ Bb) in J3. repeat split; auto.
      * destruct I7 as (j & e & Hj & Lj & Xj & Yj & Rj & Cj).
        exists j, e. rewrite Ll in Lj. repeat split; auto.
  - exfalso. rename e into Hn.
    pose proof (proj1 (nth_error_None (explosions s) i) Hn).
    assert (k < length (explosions s))%nat by (apply nth_error_Some; congruence).
    lia.
Qed.

End FirstHit.

(** * The claims about timers *)


(** A pointer move made after an activation: the state it leaves. *)
Lemma move_arms_settle_timer
  (env : Env) (w h t0 : Q) (es0 : list (Q * Event)) (s0 : State)
  (tm cx cy l t : Q) (s1 : State) :
  run env es0 (init w h t0) = Some s0 ->
  firstClickHandled s0 = true ->
  handle env tm (PointerMove cx cy l t) s0 = Some s1 ->
  state_inv s1
  /\ settle_after tm (control s1)
  /\ pending SettleDetonation (timers s1)
     = [Timer.mk (nextTimerId s0) (tm + 240) SettleDetonation]
  /\ mouse s1 = Vec.mk (cx - l) (cy - t).
Proof.
  intros R0 F0 H1.
  pose proof (run_inv env es0 _ _ R0 (init_inv w h t0)) as I0.
  pose proof (handle_inv env _ _ _ _ H1 I0) as I1.
  pose proof H1 as C1. apply handle_cstep in C1 as [K0 C1].
  inversion C1 as [? ? ? ? c L E1 E2 E3| | | | |]; subst c. clear C1.
  assert (T0 : timers_ok (c_tick tm (control s0)))
    by (destruct I0 as [T _]; eapply timers_ok_ext; try exact T; reflexivity).
  destruct (c_move_armed tm (cx - l) (cy - t) _ T0 F0) as [A1 M1].
  rewrite E3 in A1, M1. cbn [control c_timers c_mouse c_tick c_nextTimerId] in A1, M1.
  pose proof (c_move_settle_after tm (cx - l) (cy - t) _ T0 eq_refl) as S1.
  rewrite E3 in S1.
  rewrite ?E3.
  split; [exact I1|]. split; [exact S1|]. split; [exact A1|exact M1].
Qed.

(** Whatever happens after a move at [tm], a settle detonation does not run
    before [tm + 240], and pushes one explosion at the pointer. *)
Lemma settle_detonation_not_before
  (env : Env) (tm : Q) (s1 : State) (es : list (Q * Event)) (s2 : State)
  (now : Q) (id : nat) (s3 : State) :
  settle_after tm (control s1) ->
  run env es s1 = Some s2 ->
  settle_fires (TimerFires id) (timers s2) = true ->
  handle env now (TimerFires id) s2 = Some s3 ->
  tm + 240 <= now
  /\ explosions s3 =
     explosions s2 ++
       [Explosion.mk (Vec.x (mouse s2)) (Vec.y (mouse s2)) 0 140 true now
          nuclear 1200 None None].
Proof.
  intros S1 R2 Fi H3.
  pose proof (run_settle_after env tm es _ _ R2 S1) as [_ S2].
  cbn [settle_fires] in Fi.
  destruct (find _ (timers s2)) as [u|] eqn:Fu; [|discriminate].
  apply is_action_iff in Fi.
  split.
  - pose proof H3 as H3'. apply timer_fires_inv in H3' as (u' & Fu' & D & _).
    unfold find_timer in Fu'. rewrite Fu in Fu'. injection Fu' as <-.
    apply find_some in Fu as [Hu _].
    specialize (S2 u Hu Fi). lra.
  - eapply settle_detonation_effect; eauto.
Qed.

(** A pending settle callback can run once it is due. *)
Lemma pending_settle_can_run
  (env : Env) (s : State) (armed : Timer.t) (now : Q) :
  state_inv s ->
  pending SettleDetonation (timers s) = [armed] ->
  clock s <= now -> Timer.fireAt armed <= now ->
  exists s',
    handle env now (TimerFires (Timer.id armed)) s = Some s'
    /\ explosions s' =
       explosions s ++
         [Explosion.mk (Vec.x (mouse s)) (Vec.y (mouse s)) 0 140 true now
            nuclear 1200 None None].
Proof.
  intros I P K D.
  assert (Hp : In armed (pending SettleDetonation (timers s)))
    by (rewrite P; left; reflexivity).
  apply pending_In in Hp as [Hin A].
  exists (runTimer now (Timer.action armed)
            (clearTimeout (Some (Timer.id armed)) (set_clock now s))).
  split.
  - apply timer_fires_enabled; auto.
  - rewrite A. reflexivity.
Qed.

(** C8.  After at least one activation, a pointer move at [tm] leaves exactly
    one settle callback pending, due at [tm + 240], and the pointer where the
    move put it.  From then on no settle detonation runs before [tm + 240]
    (so none runs between moves less than 240 ms apart), and a detonation
    pushes one explosion at the pointer.  While no further pointer move
    arrives, either the armed callback is still the one pending and nothing
    has detonated, or exactly one detonation has happened and none is
    pending; while pending it can run at any time from [tm + 240] on, and
    then spawns the explosion where the last move left the pointer. *)
Theorem settle_detonation_debounced
  (env : Env) (w h t0 : Q) (es0 : list (Q * Event)) (s0 : State)
  (tm cx cy l t : Q) (s1 : State) :
  run env es0 (init w h t0) = Some s0 ->
  firstClickHandled s0 = true ->
  handle env tm (PointerMove cx cy l t) s0 = Some s1 ->
  let armed := Timer.mk (nextTimerId s0) (tm + 240) SettleDetonation in
  pending SettleDetonation (timers s1) = [armed]
  /\ mouse s1 = Vec.mk (cx - l) (cy - t)
  /\ forall es s2,
      run env es s1 = Some s2 ->
      (forall now id s3,
          settle_fires (TimerFires id) (timers s2) = true ->
          handle env now (TimerFires id) s2 = Some s3 ->
          tm + 240 <= now
          /\ explosions s3 =
             explosions s2 ++
               [Explosion.mk (Vec.x (mouse s2)) (Vec.y (mouse s2)) 0 140 true now
                  nuclear 1200 None None])
      /\ (quiet es = true ->
          mouse s2 = mouse s1
          /\ ((detonations env es s1 = 0%nat
               /\ pending SettleDetonation (timers s2) = [armed]
               /\ forall now, clock s2 <= now -> tm + 240 <= now ->
                    exists s3,
                      handle env now (TimerFires (Timer.id armed)) s2 = Some s3
                      /\ explosions s3 =
                         explosions s2 ++
                           [Explosion.mk (cx - l) (cy - t) 0 140 true now
                              nuclear 1200 None None])
              \/ (detonations env es s1 = 1%nat
                  /\ pending SettleDetonation (timers s2) = []))).
Proof.
  intros R0 F0 H1 armed.
  destruct (move_arms_settle_timer env w h t0 es0 s0 tm cx cy l t s1 R0 F0 H1)
    as (I1 & S1 & A1 & M1).
  split; [exact A1|]. split; [exact M1|].
  intros es s2 R2.
  pose proof (run_inv env es _ _ R2 I1) as I2.
  split.
  - intros now id s3 Fi H3.
    eapply settle_detonation_not_before; eauto.
  - intros Q. destruct (run_quiet env es _ _ R2 I1 Q) as [M2 D].
    split; [exact M2|].
    destruct D as [[D0 P2]|[D1 [P2 _]]]; [left|right; auto].
    split; [exact D0|]. rewrite A1 in P2. split; [exact P2|].
    intros now K2 Due.
    destruct (pending_settle_can_run env s2 armed now I2 P2 K2 Due) as (s3 & H3 & E3).
    exists s3. split; [exact H3|]. rewrite E3, M2, M1. reflexivity.
Qed.


(** The run of the witness: both explosions are flagged for the Runner, one
    reload was scheduled and it has run. *)
Example crash_run_result :
  option_map
    (fun s => (map Explosion.hitBoy (explosions s), reloadQueued s, reloads s, timers s))
    (run calm crash_run (init 800 600 0))
  = Some ([Some true; Some true], true, 1%nat, []).
Proof. vm_compute. reflexivity. Qed.

Lemma settle_detonation_debounced_witness :
  exists s0 s1,
    run calm armed_run (init 800 600 0) = Some s0
    /\ firstClickHandled s0 = true
    /\ handle calm 1200 (PointerMove 330 200 0 0) s0 = Some s1
    /\ pending SettleDetonation (timers s1) = [Timer.mk 3 (1200 + 240) SettleDetonation]
    /\ mouse s1 = Vec.mk (330 - 0) (200 - 0).
Proof.
  eexists. eexists.
  split; [vm_compute; reflexivity|].
  match goal with
  | |- firstClickHandled ?a = true /\ _ => pose (s0 := a)
  end.
  split; [reflexivity|].
  split; [vm_compute; reflexivity|].
  match goal with
  | |- pending _ (timers ?s1) = _ /\ _ =>
      pose proof (settle_detonation_debounced calm 800 600 0 armed_run s0
                    1200 330 200 0 0 s1) as W
  end.
  destruct W as (A & M & _).
  - vm_compute. reflexivity.
  - reflexivity.
  - vm_compute. reflexivity.
  - split; [exact A|exact M].
Defined.

(** The scenario of the specification: moves at [t], [t + 100], [t + 200]
    (here [t = 1000]).  The browser cannot run the settle callback at
    [t + 240]; at [t + 440] it runs, and pushes one explosion. *)
Example debounce_scenario :
  handle calm 1240 (TimerFires 3)
    (match run calm (armed_run ++ [(1200, PointerMove 330 200 0 0)]) (init 800 600 0) with
     | Some s => s
     | None => init 800 600 0
     end) = None
  /\ option_map (fun s => (length (explosions s), timers s))
       (run calm (armed_run ++ [(1200, PointerMove 330 200 0 0); (1440, TimerFires 3)])
          (init 800 600 0))
     = Some (2%nat, []).
Proof. split; vm_compute; reflexivity. Qed.

(** ** The settle callback between a move and a click *)

Section Waiting.

Variable env : Env.

Lemma handle_clock now e s s' : handle env now e s = Some s' -> clock s <= now /\ clock s' = now.
Proof.
  intros H. apply handle_cstep in H as [C H]. split; [exact C|].
  change (c_clock (control s') = c_clock (c_tick now (control s))).
  remember (c_tick now (control s)) as c eqn:E. clear E.
  destruct H; try reflexivity.
  - unfold c_move. cbv zeta. destruct (c_firstClickHandled c); reflexivity.
  - match goal with
    | F : frame_reach _ _ _ |- _ => apply frame_reach_settle in F as (_ & _ & K & _); exact K
    end.
  - unfold c_fire. cbv zeta. destruct (Timer.action t); reflexivity.
Qed.

Lemma run_clock es : forall s s', run env es s = Some s' -> clock s <= clock s'.
Proof.
  induction es as [|[now e] es IH]; intros s s' H; cbn [run] in H.
  - injection H as <-. lra.
  - destruct (handle env now e s) as [s1|] eqn:E; [|discriminate].
    destruct (handle_clock now e s s1 E) as (C & K). specialize (IH s1 s' H).
    rewrite K in IH. lra.
Qed.

(** No settle detonation runs in a run that ends less than 240 ms after the
    last move. *)
Lemma detonation_waits tm es : forall s s',
  settle_after tm (control s) -> run env es s = Some s' -> clock s' < tm + 240 ->
  detonations env es s = 0%nat.
Proof.
  induction es as [|[now e] es IH]; intros s s' S H K; cbn [run detonations] in *;
    [reflexivity|].
  destruct (handle env now e s) as [s1|] eqn:E; [|reflexivity].
  rewrite (IH s1 s' (handle_settle_after env tm now e s s1 E S) H K).
  destruct (settle_fires e (timers s)) eqn:F; [|reflexivity]. exfalso.
  destruct e; try discriminate. cbn [settle_fires] in F.
  destruct (find _ (timers s)) as [u|] eqn:Fu; [|discriminate].
  apply is_action_iff in F.
  pose proof E as E'. apply timer_fires_inv in E' as (u' & Fu' & D & _).
  unfold find_timer in Fu'. rewrite Fu in Fu'. injection Fu' as <-.
  apply find_some in Fu as [Hu _].
  destruct S as [_ A]. specialize (A u Hu F).
  destruct (handle_clock now _ s s1 E) as (_ & K1).
  pose proof (run_clock es s1 s' H) as K2. rewrite K1 in K2. lra.
Qed.

End Waiting.

(** C10, as stated, fails: a pointer move before the first activation arms
    no timer, so the activation that follows it within 240 ms spawns its own
    explosion and no settle detonation can follow. *)
Lemma first_activation_has_no_settle_detonation :
  exists s,
    run calm [(0, PointerMove 10 10 0 0); (100, Click 10 10 0 0)] (init 800 600 0) = Some s
    /\ length (explosions s) = 1%nat
    /\ timers s = []
    /\ forall es s',
        quiet es = true -> run calm es s = Some s' ->
        detonations calm es s = 0%nat.
Proof.
  eexists. split; [vm_compute; reflexivity|].
  split; [reflexivity|]. split; [reflexivity|].
  intros es s' Q R.
  match type of R with
  | run _ _ ?s = _ =>
      assert (I : state_inv s)
        by (apply (run_inv calm [(0, PointerMove 10 10 0 0); (100, Click 10 10 0 0)]
                     (init 800 600 0)); [vm_compute; reflexivity|apply init_inv])
  end.
  destruct (run_quiet calm es _ _ R I Q) as [_ [[D _]|[_ [_ L]]]]; [exact D|].
  vm_compute in L. discriminate.
Qed.

(** C10, amended.  A click never touches the timer table.  When a pointer
    move made after an earlier activation is followed within 240 ms by a
    click, whatever frames, timer callbacks, resizes and clicks run in
    between (but no further move and no unmount), the click pushes its
    explosion and leaves the timers as they are, no settle detonation has
    run before the click, the settle callback armed by the move is still the
    one pending, and from 240 ms after the move the browser can run it; it
    then pushes the settle explosion where the move left the pointer.  (A
    click exactly 240 ms after the move may find that the callback has just
    run.)  No settle detonation runs earlier than 240 ms after the move. *)
Theorem activation_keeps_settle_timer
  (env : Env) (w h t0 : Q) (es0 : list (Q * Event)) (s0 : State)
  (tm cx cy l t : Q) (s1 : State) (mid : list (Q * Event)) (s1' : State)
  (tc cx' cy' l' t' : Q) (s2 : State) :
  run env es0 (init w h t0) = Some s0 ->
  firstClickHandled s0 = true ->
  handle env tm (PointerMove cx cy l t) s0 = Some s1 ->
  run env mid s1 = Some s1' ->
  quiet mid = true ->
  handle env tc (Click cx' cy' l' t') s1' = Some s2 ->
  tc <= tm + 240 ->
  let armed := Timer.mk (nextTimerId s0) (tm + 240) SettleDetonation in
  timers s2 = timers s1'
  /\ stopTimer s2 = stopTimer s1'
  /\ explosions s2 =
     explosions s1' ++ [Explosion.mk (cx' - l') (cy' - t') 0 140 true tc nuclear 1200 None None]
  /\ ((detonations env mid s1 = 0%nat
       /\ pending SettleDetonation (timers s2) = [armed]
       /\ forall now, tc <= now -> tm + 240 <= now ->
            exists s3,
              handle env now (TimerFires (Timer.id armed)) s2 = Some s3
              /\ explosions s3 =
                 explosions s2 ++
                   [Explosion.mk (cx - l) (cy - t) 0 140 true now nuclear 1200 None None])
      \/ (detonations env mid s1 = 1%nat /\ tc == tm + 240
          /\ pending SettleDetonation (timers s2) = []))
  /\ (tc < tm + 240 -> detonations env mid s1 = 0%nat)
  /\ (forall es s3 now id s4,
        run env es s2 = Some s3 ->
        settle_fires (TimerFires id) (timers s3) = true ->
        handle env now (TimerFires id) s3 = Some s4 ->
        tm + 240 <= now
        /\ explosions s4 =
           explosions s3 ++
             [Explosion.mk (Vec.x (mouse s3)) (Vec.y (mouse s3)) 0 140 true now
                nuclear 1200 None None]).
Proof.
  intros R0 F0 H1 Rm Qm H2 Within armed.
  destruct (move_arms_settle_timer env w h t0 es0 s0 tm cx cy l t s1 R0 F0 H1)
    as (I1 & S1 & A1 & M1).
  pose proof (run_inv env _ _ _ Rm I1) as I1'.
  pose proof (handle_inv env _ _ _ _ H2 I1') as I2.
  pose proof (run_settle_after env tm _ _ _ Rm S1) as S1'.
  pose proof (handle_settle_after env tm _ _ _ _ H2 S1') as S2.
  destruct (handle_clock env _ _ _ _ H2) as (C1' & K).
  destruct (run_quiet env _ _ _ Rm I1 Qm) as [Mm Dm].
  assert (E : s2 = onClick tc cx' cy' l' t' (set_clock tc s1')).
  { unfold handle in H2. destruct (Qle_bool (clock s1') tc); cbn in H2; [|discriminate].
    destruct (listening s1'); [|discriminate]. congruence. }
  assert (T : timers s2 = timers s1').
  { rewrite E. unfold onClick. cbv zeta.
    destruct (firstClickHandled (set_clock tc s1')); reflexivity. }
  assert (M2 : mouse s2 = mouse s1').
  { rewrite E. unfold onClick. cbv zeta.
    destruct (firstClickHandled (set_clock tc s1')); reflexivity. }
  assert (Early : tc < tm + 240 -> detonations env mid s1 = 0%nat).
  { intros Lt. apply (detonation_waits env tm mid s1 s1' S1 Rm). lra. }
  split; [exact T|]. split; [|split; [|split; [|split; [exact Early|]]]].
  - rewrite E. unfold onClick. cbv zeta.
    destruct (firstClickHandled (set_clock tc s1')); reflexivity.
  - rewrite E. unfold onClick. cbv zeta.
    destruct (firstClickHandled (set_clock tc s1')); reflexivity.
  - rewrite T. destruct Dm as [[D0 P]|[D1 [P _]]].
    + left. rewrite A1 in P. split; [exact D0|]. split; [exact P|].
      intros now C D.
      assert (P2 : pending SettleDetonation (timers s2) = [armed]) by (rewrite T; exact P).
      destruct (pending_settle_can_run env s2 armed now I2 P2) as (s3 & H3 & E3);
        [rewrite K; exact C|exact D|].
      exists s3. split; [exact H3|]. rewrite E3, M2, Mm, M1. reflexivity.
    + right. split; [exact D1|]. split; [|exact P].
      destruct (Qlt_le_dec tc (tm + 240)) as [Lt|Ge].
      * rewrite (Early Lt) in D1. discriminate.
      * apply Qle_antisym; assumption.
  - intros es s3 now id s4 R3 Fi H4.
    exact (settle_detonation_not_before env tm s2 es s3 now id s4 S2 R3 Fi H4).
Qed.

Lemma activation_keeps_settle_timer_witness :
  exists s0 s1 s1' s2,
    run calm armed_run (init 800 600 0) = Some s0
    /\ handle calm 1200 (PointerMove 330 200 0 0) s0 = Some s1
    /\ run calm [(1216, Frame 1216); (1232, Frame 1232)] s1 = Some s1'
    /\ handle calm 1300 (Click 330 200 0 0) s1' = Some s2
    /\ timers s2 = timers s1'
    /\ detonations calm [(1216, Frame 1216); (1232, Frame 1232)] s1 = 0%nat.
Proof.
  eexists. eexists. eexists. eexists.
  match goal with
  | |- ?A /\ ?B /\ ?C /\ ?D /\ _ =>
      assert (HA : A) by (vm_compute; reflexivity);
      assert (HB : B) by (vm_compute; reflexivity);
      assert (HC : C) by (vm_compute; reflexivity);
      assert (HD : D) by (vm_compute; reflexivity)
  end.
  split; [exact HA|]. split; [exact HB|]. split; [exact HC|]. split; [exact HD|].
  destruct (activation_keeps_settle_timer calm 800 600 0 armed_run _
              1200 330 200 0 0 _ [(1216, Frame 1216); (1232, Frame 1232)] _
              1300 330 200 0 0 _ HA eq_refl HB HC eq_refl HD)
    as (T & _ & _ & _ & N & _).
  - vm_compute. intros X. discriminate.
  - split; [exact T|]. apply N. vm_compute. reflexivity.
Defined.

(** * The claims about scoring and the Flyer *)

(** C3.  When the collision loop examines a live explosion that is not yet
    flagged for the bomber and overlaps the alive bomber, that pass sets the
    explosion's [hitBomber] flag, adds 1 to the score, sets [scorePulse] to
    1, pushes the popup [+1] 20 px above the bomber, pushes a new explosion
    at the bomber's position, marks the bomber dead and schedules its
    respawn 1200 ms later.  And for the whole step: when such an explosion
    exists as the collision loop of [update] starts, [update] ends with all
    of this done, once ([bomber_was_hit]). *)
Theorem flyer_hit_effects (env : Env) (now : Q) :
  (forall (i : nat) (ex : Explosion.t) (s : State),
      nth_error (explosions s) i = Some ex ->
      Explosion.alive ex = true ->
      truthy (Explosion.hitBomber ex) = false ->
      Actor.alive (bomber s) = true ->
      circleHit ex (Actor.x (bomber s)) (Actor.y (bomber s)) 40 = true ->
      let s' := collide env now i ex s in
      (exists ex', nth_error (explosions s') i = Some ex'
                   /\ Explosion.hitBomber ex' = Some true)
      /\ score s' = (score s + 1)%Z
      /\ scorePulse s' = 1
      /\ popups s' =
         popups s ++ [Popup.mk (Actor.x (bomber s)) (Actor.y (bomber s) - 20) "+1" 0 900]
      /\ nth_error (explosions s') (length (explosions s)) =
         Some (Explosion.mk (Actor.x (bomber s)) (Actor.y (bomber s)) 0 140 true now nuclear
                 1200 None None)
      /\ length (explosions s') = S (length (explosions s))
      /\ Actor.alive (bomber s') = false
      /\ In (Timer.mk (nextTimerId s) (now + 1200) RespawnBomber) (timers s'))
  /\ (forall (dt : Q) (s : State),
        let s1 := prelude dt now s in
        (exists k ex,
            nth_error (explosions s1) k = Some ex
            /\ Explosion.alive ex = true
            /\ truthy (Explosion.hitBomber ex) = false
            /\ Actor.alive (bomber s1) = true
            /\ circleHit ex (Actor.x (bomber s1)) (Actor.y (bomber s1)) 40 = true) ->
        bomber_was_hit now (Actor.x (bomber s1)) (Actor.y (bomber s1)) s1
          (update env dt now s)).
Proof.
  split.
  - intros i ex s Hn A F B C.
    assert (Hi : (i < length (explosions s))%nat) by (apply nth_error_Some; congruence).
    assert (H : Explosion.alive ex && bomberHit ex s = true).
    { unfold bomberHit. rewrite A, B, F, C. reflexivity. }
    destruct (collide_spec env now i ex s Hn)
      as (Sc & Sp & Pp & (ex' & El & _ & _ & _ & _ & Fb & _) & Ba & _ & _ & _ & _ & _ & Tm).
    cbv zeta. rewrite H in *.
    split; [|split; [exact Sc|split; [exact Sp|split; [exact Pp|split; [|split; [|split]]]]]].
    + exists ex'. split; [|exact Fb].
      rewrite El, nth_error_app1 by (rewrite set_nth_length; exact Hi).
      apply set_nth_nth_error. exact Hi.
    + rewrite El, nth_error_app2 by (rewrite set_nth_length; lia).
      rewrite set_nth_length, Nat.sub_diag. reflexivity.
    + rewrite El, length_app, set_nth_length. cbn. lia.
    + rewrite Ba, B. reflexivity.
    + destruct Tm as [added Tm]. rewrite Tm.
      apply in_or_app. right. left. reflexivity.
  - intros dt s. cbv zeta. intros (k & ex & Hn & A & F & B & C).
    rewrite update_prelude. apply collisions_first_hit.
    exists k, ex. split; [lia|]. split; [exact Hn|]. split; [exact A|].
    unfold bomberHit. rewrite B, F, C. reflexivity.
Qed.

(** The overlap test is the comparison of the distance between the centre of
    the explosion and the target with [r + radius]. *)
Lemma circleHit_spec (ex : Explosion.t) (cx cy radius : Q) :
  circleHit ex cx cy radius = true <->
  0 <= Explosion.r ex + radius
  /\ (Explosion.x ex - cx) * (Explosion.x ex - cx)
     + (Explosion.y ex - cy) * (Explosion.y ex - cy)
     <= (Explosion.r ex + radius) * (Explosion.r ex + radius).
Proof. unfold circleHit. cbv zeta. apply hypot_le_spec. Qed.

Lemma flyer_hit_effects_witness :
  exists s ex,
    run calm [(0, Frame 0); (30001, Frame 30001); (30002, Click (-201) 340 0 0)]
      (init 800 600 0) = Some s
    /\ nth_error (explosions s) 0 = Some ex
    /\ score (collide calm 30017 0 ex s) = (score s + 1)%Z
    /\ scorePulse (collide calm 30017 0 ex s) = 1
    /\ Actor.alive (bomber (collide calm 30017 0 ex s)) = false.
Proof.
  eexists. eexists.
  split; [vm_compute; reflexivity|].
  split; [reflexivity|].
  match goal with
  | |- score (collide _ _ _ ?ex ?s) = _ /\ _ =>
      pose proof (proj1 (flyer_hit_effects calm 30017) 0%nat ex s) as W
  end.
  destruct W as (_ & Sc & Sp & _ & _ & _ & Ba & _); try reflexivity.
  split; [exact Sc|]. split; [exact Sp|exact Ba].
Defined.

(** C6, as stated, fails.  On a 3840 x 2160 window the bomber is destroyed
    in the frame at 30017 and its respawn is scheduled for 31217, but the
    frame at 30033 already finds it dead after 30 s and puts it back at once:
    it is alive 16 ms after it was destroyed.  And the respawn callback looks
    at [running], not at the phase: in the second run the Runner is hit in
    the same frame as the bomber (the crash has begun, the reload is
    pending), and the callback at 31217 still brings the bomber back. *)
Lemma flyer_respawns_early_and_while_crashing :
  (option_map (fun s => (Actor.alive (bomber s), score s, timers s, quakeActive s))
     (run calm chase_run (init 3840 2160 0))
   = Some (false, 1%Z, [Timer.mk 1 (30017 + 1200) RespawnBomber], false)
   /\ option_map (fun s => (Actor.alive (bomber s), score s, timers s, quakeActive s))
        (run calm (chase_run ++ [(30033, Frame 30033)]) (init 3840 2160 0))
      = Some (true, 1%Z, [Timer.mk 1 (30017 + 1200) RespawnBomber], false)
   /\ 30033 < 30017 + 1200)
  /\ (option_map
        (fun s => (Actor.alive (bomber s), quakeActive s, reloads s, timers s))
        (run calm crash_respawn_run (init 800 600 0))
      = Some (false, true, 0%nat,
              [Timer.mk 1 (30017 + 1200) RespawnBomber;
               Timer.mk 2 (30017 + (2200 + 300)) ReloadPage])
      /\ option_map
           (fun s => (Actor.alive (bomber s), quakeActive s, reloads s, timers s))
           (run calm (crash_respawn_run ++ [(30017 + 1200, TimerFires 1)])
              (init 800 600 0))
         = Some (true, true, 0%nat, [Timer.mk 2 (30017 + (2200 + 300)) ReloadPage])).
Proof.
  split; [split; [|split]|split]; vm_compute; reflexivity.
Qed.

(** C6, amended.  The pass of the collision loop that destroys the bomber at
    [now] leaves it dead and schedules a respawn callback due at
    [now + 1200].  The browser cannot run that callback before it is due;
    when it runs and the effect has not been cleaned up ([running]), the
    bomber is alive at its spawn point [(-200, groundY - 200)], whatever the
    phase; after the clean-up the callback changes nothing. *)
Theorem flyer_respawn_callback
  (env : Env) (now : Q) (i : nat) (ex : Explosion.t) (s : State) :
  nth_error (explosions s) i = Some ex ->
  Explosion.alive ex = true ->
  bomberHit ex s = true ->
  let s1 := collide env now i ex s in
  let callback := Timer.mk (nextTimerId s) (now + 1200) RespawnBomber in
  Actor.alive (bomber s1) = false
  /\ In callback (timers s1)
  /\ forall s2 now' s3,
      find_timer (nextTimerId s) s2 = Some callback ->
      handle env now' (TimerFires (nextTimerId s)) s2 = Some s3 ->
      now + 1200 <= now'
      /\ bomber s3 =
         (if running s2
          then Actor.mk (-200) (groundY s2 - 200) (Actor.w (bomber s2))
                 (Actor.h (bomber s2)) true 0
          else bomber s2).
Proof.
  intros Hn A H.
  assert (Hh : Explosion.alive ex && bomberHit ex s = true) by (rewrite A, H; reflexivity).
  destruct (collide_spec env now i ex s Hn)
    as (_ & _ & _ & _ & Ba & _ & _ & _ & _ & _ & Tm).
  cbv zeta. rewrite Hh in *.
  split; [rewrite Ba; apply andb_false_r|].
  split.
  - destruct Tm as [added Tm]. rewrite Tm. apply in_or_app. right. left. reflexivity.
  - intros s2 now' s3 F H3.
    apply timer_fires_inv in H3 as (t & F' & D & _ & ->).
    rewrite F in F'. injection F' as <-. cbn [Timer.fireAt Timer.action] in *.
    split; [exact D|].
    cbn [runTimer].
    change (running (clearTimeout (Some (nextTimerId s)) (set_clock now' s2)))
      with (running s2).
    destruct (running s2); reflexivity.
Qed.

Lemma flyer_respawn_callback_witness :
  exists s ex s2 s3,
    run calm [(0, Frame 0); (30001, Frame 30001); (30002, Click (-201) 340 0 0)]
      (init 800 600 0) = Some s
    /\ nth_error (explosions s) 0 = Some ex
    /\ run calm flyer_run (init 800 600 0) = Some s2
    /\ handle calm 31300 (TimerFires 1) s2 = Some s3
    /\ Actor.alive (bomber (collide calm 30017 0 ex s)) = false
    /\ 30017 + 1200 <= 31300
    /\ bomber s3 = Actor.mk (-200) (groundY s2 - 200) 110 34 true 0.
Proof.
  eexists. eexists. eexists. eexists.
  split; [vm_compute; reflexivity|].
  split; [reflexivity|].
  split; [vm_compute; reflexivity|].
  split; [vm_compute; reflexivity|].
  match goal with
  | |- Actor.alive (bomber (collide _ _ _ ?ex ?s)) = _ /\ _ /\ bomber ?s3 = Actor.mk _ (groundY ?s2 - _) _ _ _ _ =>
      pose proof (flyer_respawn_callback calm 30017 0 ex s) as W;
      destruct W as (Ba & _ & Later); try reflexivity;
      destruct (Later s2 31300 s3) as [D B]; try (vm_compute; reflexivity)
  end.
  split; [exact Ba|]. split; [exact D|exact B].
Defined.

(** * The claims about the radius and the order of a frame *)

Lemma drawNuclearExplosion_radius now ex :
  Explosion.r (drawNuclearExplosion now ex) = radius_at now ex.
Proof. reflexivity. Qed.

Lemma radius_at_drawn now ex :
  Explosion.alive ex = true ->
  Explosion.r (drawn now ex) = radius_at now (drawn now ex)
  /\ Explosion.alive (drawn now ex) = true.
Proof. intros A. unfold drawn. rewrite A. split; [reflexivity|exact A]. Qed.

Lemma radius_at_monotone ex now1 now2 :
  0 < Explosion.lifeMs ex -> 0 <= Explosion.maxR ex -> now1 <= now2 ->
  radius_at now1 ex <= radius_at now2 ex.
Proof.
  intros L M N. unfold radius_at.
  assert (C : clamp ((now1 - Explosion.createdAt ex) / Explosion.lifeMs ex) 0 1
              <= clamp ((now2 - Explosion.createdAt ex) / Explosion.lifeMs ex) 0 1).
  { apply clamp_monotone. unfold Qdiv. apply Qmult_le_compat_r; [lra|].
    apply Qlt_le_weak, Qinv_lt_0_compat, L. }
  set (c1 := clamp _ 0 1) in *. set (c2 := clamp _ 0 1) in *.
  nra.
Qed.

Lemma scene_inv (a : State) l ac sc :
  scene a = (l, ac, sc) -> explosions a = l /\ actors a = ac /\ score a = sc.
Proof. unfold scene. intros E. injection E as E1 E2 E3. auto. Qed.

Section FrameOrder.

Variable env : Env.

Lemma loop_updated time now s :
  running s = true ->
  loop env time now s = finish env (time - lastTime s) now (updated env time now s).
Proof. apply loop_running. Qed.

Lemma loop_explosions time now s :
  running s = true ->
  explosions (loop env time now s)
  = filter (fun ex => negb (stale now ex)) (map (drawn now) (explosions (updated env time now s))).
Proof.
  intros R. rewrite loop_updated by exact R.
  destruct (finish_scene env (time - lastTime s) now (updated env time now s)) as [E _].
  apply scene_inv in E as [E _]. exact E.
Qed.

End FrameOrder.

(** C4, as stated, fails.  An explosion carries radius 0 from its spawn to
    its first draw, where the law gives 28.  And an explosion outlives its
    lifetime until the end of the next frame: the one created at 28810 is
    kept by the frame at 30001 (elapsed 1191) and destroys the bomber in the
    frame at 30017, 1207 ms after its birth. *)
Lemma explosion_radius_law_and_lifetime_fail :
  option_map
    (fun s => map (fun ex => (Explosion.r ex, Qred (radius_at (clock s) ex))) (explosions s))
    (run calm [(0, Frame 0); (10, Click 100 100 0 0)] (init 800 600 0))
  = Some [(0, 28)]
  /\ option_map
       (fun s => (score s,
                  map (fun ex => (Explosion.createdAt ex, Explosion.lifeMs ex,
                                  Explosion.alive ex)) (explosions s)))
       (run calm [(0, Frame 0); (28810, Click (-100) 340 0 0); (30001, Frame 30001)]
          (init 800 600 0))
     = Some (0%Z, [(28810, 1200, true)])
  /\ option_map score
       (run calm [(0, Frame 0); (28810, Click (-100) 340 0 0); (30001, Frame 30001);
                  (30017, Frame 30017)] (init 800 600 0))
     = Some 1%Z
  /\ 1200 < 30017 - 28810.
Proof.
  split; [|split; [|split]]; vm_compute; reflexivity.
Qed.

(** C4, amended.  At the end of every frame each live explosion has the
    radius [maxR * (0.2 + 0.8 * clamp (elapsed / lifeMs, 0, 1))] for the
    time of that frame, and no explosion whose elapsed life exceeds its
    lifetime is left.  The radius a draw sets does not decrease with time,
    and is never below the radius 0 an explosion has before its first
    draw. *)
Theorem explosion_radius_and_cleanup (env : Env) (time now : Q) (s : State) :
  running s = true ->
  let s' := loop env time now s in
  Forall (fun ex => Explosion.alive ex = true -> Explosion.r ex = radius_at now ex)
    (explosions s')
  /\ Forall (fun ex => now - Explosion.createdAt ex <= Explosion.lifeMs ex) (explosions s')
  /\ (forall ex now1 now2,
        0 < Explosion.lifeMs ex -> 0 <= Explosion.maxR ex -> now1 <= now2 ->
        0 <= Explosion.r (drawNuclearExplosion now1 ex)
        /\ Explosion.r (drawNuclearExplosion now1 ex)
           <= Explosion.r (drawNuclearExplosion now2 ex)).
Proof.
  intros R. cbv zeta. rewrite (loop_explosions env time now s R).
  split; [|split].
  - apply Forall_forall. intros ex Hin.
    apply filter_In in Hin as [Hin _]. apply in_map_iff in Hin as [e [<- _]].
    unfold drawn. destruct (Explosion.alive e) eqn:A.
    + intros _. reflexivity.
    + intros A'. congruence.
  - apply Forall_forall. intros ex Hin.
    apply filter_In in Hin as [_ Hs]. apply negb_true_iff in Hs.
    unfold stale in Hs. apply Qgtb_le in Hs. exact Hs.
  - intros ex now1 now2 L M N. rewrite !drawNuclearExplosion_radius. split.
    + unfold radius_at.
      pose proof (clamp_bounds ((now1 - Explosion.createdAt ex) / Explosion.lifeMs ex))
        as [C _].
      set (c := clamp _ 0 1) in *. nra.
    + apply radius_at_monotone; assumption.
Qed.

Lemma explosion_radius_and_cleanup_witness :
  exists s,
    run calm [(0, Frame 0); (10, Click 100 100 0 0)] (init 800 600 0) = Some s
    /\ running s = true
    /\ Forall (fun ex => Explosion.alive ex = true -> Explosion.r ex = radius_at 26 ex)
         (explosions (loop calm 26 26 s))
    /\ Forall (fun ex => 26 - Explosion.createdAt ex <= Explosion.lifeMs ex)
         (explosions (loop calm 26 26 s)).
Proof.
  eexists. split; [vm_compute; reflexivity|].
  split; [reflexivity|].
  match goal with
  | |- Forall _ (explosions (loop _ _ _ ?s)) /\ _ =>
      destruct (explosion_radius_and_cleanup calm 26 26 s) as (A & B & _);
      [reflexivity|]
  end.
  split; [exact A|exact B].
Defined.




(** * The claims about the Runner *)

Lemma moveBoy_alive dt a :
  Actor.alive (boy a) = true ->
  let x1 := Actor.x (boy a) + 0.12 * dt in
  Actor.y (boy (moveBoy dt a)) = Actor.y (boy a)
  /\ Actor.h (boy (moveBoy dt a)) = Actor.h (boy a)
  /\ Actor.alive (boy (moveBoy dt a)) = true
  /\ Actor.x (boy (moveBoy dt a))
     = (if Qgtb (x1 - Actor.w (boy a) / 2) (width a + 40) then -80 else x1).
Proof.
  intros A. unfold moveBoy. rewrite A. cbv zeta.
  cbn [boy set_boy width Actor.x Actor.w Actor.set_x].
  destruct (Qgtb _ _); cbn; auto.
Qed.

Lemma actors_inv (a b : State) :
  actors a = actors b ->
  Actor.x (boy a) = Actor.x (boy b) /\ Actor.y (boy a) = Actor.y (boy b)
  /\ Actor.alive (boy a) = Actor.alive (boy b).
Proof. unfold actors. intros E. injection E as E1 E2 E3 E4 E5 E6. auto. Qed.

Section RunnerClaims.

Variable env : Env.

(** The Runner after [update], from the Runner the movement code saw. *)
Lemma update_runner dt now s :
  let b := boy (spawnActors now (missileFollow s)) in
  let s' := update env dt now s in
  let x1 := Actor.x b + 0.12 * dt in
  Actor.alive b = true ->
  Actor.y (boy s') = Actor.y b
  /\ Actor.x (boy s')
     = (if Qgtb (x1 - Actor.w b / 2) (width s + 40) then -80 else x1)
  /\ (Actor.alive (boy s') = true \/ struck s').
Proof.
  cbv zeta. intros A.
  destruct (prelude_boy dt now s) as (P1 & _ & Pw).
  destruct (moveBoy_alive dt (spawnActors now (missileFollow s)) A) as (My & Mh & Ma & Mx).
  rewrite Pw in Mx. rewrite <- P1 in My, Mh, Ma, Mx.
  rewrite update_prelude.
  destruct (collisions_runner_kept env now 0 (prelude dt now s)) as (_ & X & Y & H & K).
  rewrite X, Y, Mx, My. split; [reflexivity|]. split; [reflexivity|].
  destruct (Actor.alive (boy (collisions env now 0 (prelude dt now s)))) eqn:B; [auto|].
  right. apply K; auto.
Qed.

End RunnerClaims.

(** C7, as stated, fails.  On an 800 px wide surface the Runner stands at
    x = 841 = width + 41 after the frame at 37676; the next frame moves it on
    to 842.92 and does not send it back to -80. *)
Lemma runner_past_the_edge_is_not_reset :
  option_map (fun s => (width s, Actor.alive (boy s), Qred (Actor.x (boy s))))
    (run calm [(0, Frame 0); (30001, Frame 30001); (37676, Frame 37676)] (init 800 600 0))
  = Some (800, true, 800 + 41)
  /\ option_map (fun s => (Actor.alive (boy s), Qred (Actor.x (boy s))))
       (run calm [(0, Frame 0); (30001, Frame 30001); (37676, Frame 37676);
                  (37692, Frame 37692)] (init 800 600 0))
     = Some (true, Qred 842.92).
Proof.
  split; vm_compute; reflexivity.
Qed.

(** C7, amended.  A frame moves an alive Runner by [0.12 * dt] to the right
    and never vertically; when its left edge [x - w / 2] is then past
    [width + 40] (for the Runner's width 28: when [x] is past [width + 54]),
    it is put back at [x = -80]. *)
Theorem runner_advances_and_wraps (env : Env) (time now : Q) (s : State) :
  running s = true ->
  Actor.alive (boy s) = true ->
  let dt := time - lastTime s in
  let s' := loop env time now s in
  let x1 := Actor.x (boy s) + 0.12 * dt in
  Actor.y (boy s') = Actor.y (boy s)
  /\ Actor.x (boy s')
     = (if Qgtb (x1 - Actor.w (boy s) / 2) (width s + 40) then -80 else x1)
  /\ (Actor.w (boy s) = 28 ->
      (width s + 54 < x1 -> Actor.x (boy s') = -80)
      /\ (x1 <= width s + 54 -> Actor.x (boy s') = x1)).
Proof.
  intros R A. cbv zeta.
  rewrite loop_updated by exact R.
  destruct (finish_scene env (time - lastTime s) now (updated env time now s)) as [E _].
  apply scene_inv in E as (_ & E & _).
  apply actors_inv in E as (Ex & Ey & _).
  rewrite Ex, Ey. clear Ex Ey.
  set (s0 := drawBackground (set_lastTime time s)).
  assert (B0 : boy (spawnActors now (missileFollow s0)) = boy s).
  { destruct (prelude_boy 0 now s0) as (_ & Sb & _). rewrite Sb.
    change (boy s0) with (boy s). rewrite A, andb_false_r. reflexivity. }
  pose proof (update_runner env (time - lastTime s) now s0) as U.
  cbv zeta in U. rewrite B0 in U. specialize (U A).
  destruct U as (Uy & Ux & _).
  change (update env (time - lastTime s) now s0) with (updated env time now s) in Ux, Uy.
  change (width s0) with (width s) in Ux.
  split; [exact Uy|]. split; [exact Ux|].
  intros W. rewrite Ux, W.
  assert (Hh : 28 / 2 == 14) by reflexivity.
  split; intros H.
  - assert (G : Qgtb (Actor.x (boy s) + 0.12 * (time - lastTime s) - 28 / 2)
                  (width s + 40) = true) by (apply Qgtb_gt; lra).
    rewrite G. reflexivity.
  - assert (G : Qgtb (Actor.x (boy s) + 0.12 * (time - lastTime s) - 28 / 2)
                  (width s + 40) = false) by (apply Qgtb_le; lra).
    rewrite G. reflexivity.
Qed.

Lemma runner_advances_and_wraps_witness :
  exists s,
    run calm [(0, Frame 0); (30001, Frame 30001)] (init 800 600 0) = Some s
    /\ running s = true
    /\ Actor.alive (boy s) = true
    /\ Actor.w (boy s) = 28
    /\ Actor.y (boy (loop calm 30017 30017 s)) = Actor.y (boy s)
    /\ Actor.x (boy (loop calm 30017 30017 s))
       = Actor.x (boy s) + 0.12 * (30017 - lastTime s).
Proof.
  eexists. split; [vm_compute; reflexivity|].
  split; [reflexivity|]. split; [reflexivity|]. split; [reflexivity|].
  match goal with
  | |- Actor.y (boy (loop _ _ _ ?s)) = _ /\ _ =>
      destruct (runner_advances_and_wraps calm 30017 30017 s) as (Y & _ & W);
      [reflexivity|reflexivity|]
  end.
  split; [exact Y|].
  destruct (W eq_refl) as [_ W2]. apply W2. vm_compute. discriminate.
Defined.

(** C9.  When the Runner is down and more than 30 s have passed since the
    start, the spawn block of the next [update] marks it alive at
    [(-80, groundY - 8)], whatever else the state holds.  When that [update]
    ends the Runner is on the spawn height, one movement step from the spawn
    column, and alive, unless an explosion struck it again in the collision
    loop of this same [update]. *)
Theorem runner_respawns_at_next_update (env : Env) (dt now : Q) (s : State) :
  Actor.alive (boy s) = false ->
  30000 < now - startTime s ->
  let s' := update env dt now s in
  let x1 := -80 + 0.12 * dt in
  boy (spawnActors now (missileFollow s))
  = Actor.mk (-80) (groundY s - 8) (Actor.w (boy s)) (Actor.h (boy s)) true
      (Actor.animTime (boy s))
  /\ Actor.y (boy s') = groundY s - 8
  /\ Actor.x (boy s')
     = (if Qgtb (x1 - Actor.w (boy s) / 2) (width s + 40) then -80 else x1)
  /\ (Actor.alive (boy s') = true \/ struck s').
Proof.
  intros A T. cbv zeta.
  destruct (prelude_boy dt now s) as (_ & Sb & _).
  apply Qgtb_gt in T. rewrite T, A in Sb. cbn [andb negb] in Sb.
  split; [exact Sb|].
  pose proof (update_runner env dt now s) as U. cbv zeta in U. rewrite Sb in U.
  apply U. reflexivity.
Qed.

Lemma runner_respawns_at_next_update_witness :
  exists s,
    run calm [(0, Frame 0); (30001, Frame 30001); (30002, Click (-78) 509 0 0);
              (30017, Frame 30017)] (init 800 600 0) = Some s
    /\ Actor.alive (boy s) = false
    /\ 30000 < 30033 - startTime s
    /\ Actor.alive (boy (spawnActors 30033 (missileFollow s))) = true
    /\ Actor.y (boy (update calm 16 30033 s)) = groundY s - 8.
Proof.
  eexists. split; [vm_compute; reflexivity|].
  split; [reflexivity|]. split; [vm_compute; reflexivity|].
  match goal with
  | |- Actor.alive (boy (spawnActors _ (missileFollow ?s))) = _ /\ _ =>
      destruct (runner_respawns_at_next_update calm 16 30033 s) as (B & Y & _);
      [reflexivity|vm_compute; reflexivity|]
  end.
  split; [rewrite B; reflexivity|exact Y].
Defined.

(** The frame after a crash: the earthquake is running, and the Runner is
    back, alive, one step from the spawn column. *)
Example runner_is_back_after_the_crash :
  option_map (fun s => (Actor.alive (boy s), quakeActive s))
    (run calm [(0, Frame 0); (30001, Frame 30001); (30002, Click (-78) 509 0 0);
               (30017, Frame 30017)] (init 800 600 0))
  = Some (false, true)
  /\ option_map
       (fun s => (Actor.alive (boy s), Qred (Actor.x (boy s)), Qred (Actor.y (boy s))))
       (run calm [(0, Frame 0); (30001, Frame 30001); (30002, Click (-78) 509 0 0);
                  (30017, Frame 30017); (30033, Frame 30033)] (init 800 600 0))
     = Some (true, Qred (-80 + 0.12 * 16), Qred (540 - 8)).
Proof.
  split; vm_compute; reflexivity.
Qed.

(** * The whole state across a callback *)

(** Opens a state into its fields, under names that hide no projection. *)
Ltac open_state s :=
  destruct s as
    [s_width s_height s_mouse s_lastMouse s_firstClick s_stopTimer s_missile s_explosions
     s_particles s_boy s_bomber s_score s_scorePulse s_popups s_startTime s_lastTime
     s_quakeActive s_quakeStart s_buildings s_reloadQueued s_raf s_running s_listening
     s_timers s_nextTimerId s_clock s_randomCalls s_reloads s_canvas].

Section Forms.

Variable env : Env.

Lemma bomberDestruction_form now ex s :
  bomberDestruction now ex s =
  if bomberHit ex s then (Explosion.set_hitBomber (Some true) ex, scoreHit now s)
  else (ex, s).
Proof. reflexivity. Qed.

Lemma pushBuilding_form i cols base s :
  pushBuilding env i cols base s =
  set_buildings (buildings s ++ [building env (width s) base cols (randomCalls s) i])
    (set_randomCalls (7 + randomCalls s) s).
Proof. destruct s. reflexivity. Qed.

Lemma pushBuildings_form n i cols base rc s :
  randomCalls s = (rc + 7 * i)%nat ->
  pushBuildings env n i cols base s =
  set_buildings
    (buildings s
       ++ map (fun j => building env (width s) base cols (rc + 7 * j) j) (seq i n))
    (set_randomCalls (rc + 7 * (i + n)) s).
Proof.
  revert i s. induction n as [|n IH]; intros i s H.
  - cbn [seq map]. rewrite app_nil_r, Nat.add_0_r, <- H.
    unfold pushBuildings. destruct s; reflexivity.
  - change (pushBuildings env (S n) i cols base s)
      with (pushBuildings env n (S i) cols base (pushBuilding env i cols base s)).
    rewrite (pushBuilding_form i cols base s).
    rewrite (IH (S i)).
    + cbn [seq map]. replace (S i + n)%nat with (i + S n)%nat by lia.
      rewrite H.
      generalize (rc + 7 * (i + S n))%nat (rc + 7 * i)%nat. intros a b.
      open_state s. cbn [buildings width set_buildings set_randomCalls].
      rewrite <- app_assoc. reflexivity.
    + open_state s. cbn [randomCalls set_buildings set_randomCalls] in *. lia.
Qed.

(** [triggerEarthquake], in closed form. *)
Lemma triggerEarthquake_skyline now s :
  triggerEarthquake env now s =
  quaked now (skyline env s) (randomCalls s + 7 * Z.to_nat (columns s)) s.
Proof.
  unfold triggerEarthquake. cbv zeta.
  rewrite (pushBuildings_form _ 0 _ _ (randomCalls s))
    by (cbn [randomCalls set_buildings set_quakeStart set_quakeActive]; lia).
  unfold quaked, skyline, columns.
  open_state s. cbn -[Nat.mul Z.to_nat Z.max Qceiling].
  destruct s_reloadQueued; reflexivity.
Qed.

Lemma skyline_length s : length (skyline env s) = Z.to_nat (columns s).
Proof. unfold skyline. rewrite length_map, length_seq. reflexivity. Qed.

Lemma columns_ge s : (6 <= Z.to_nat (columns s))%nat.
Proof. unfold columns. lia. Qed.

End Forms.

(** ** A property kept by every callback

    The callbacks are compositions of a few state changes.  A property of
    the state that every one of them keeps holds in every reachable state. *)

Lemma control_fields a b :
  control a = control b ->
  clock a = clock b /\ running a = running b /\ firstClickHandled a = firstClickHandled b
  /\ quakeActive a = quakeActive b /\ startTime a = startTime b.
Proof.
  intros E.
  pose proof (f_equal c_clock E) as E1. pose proof (f_equal c_running E) as E2.
  pose proof (f_equal c_firstClickHandled E) as E3.
  pose proof (f_equal c_quakeActive E) as E4.
  pose proof (f_equal c_startTime E) as E5.
  auto.
Qed.

Lemma scoreHit_explosions now s :
  explosions (scoreHit now s) =
  explosions s ++
    [Explosion.mk (Actor.x (bomber s)) (Actor.y (bomber s)) 0 140 true now nuclear 1200
       None None].
Proof. reflexivity. Qed.

Lemma scoreHit_boy now s : boy (scoreHit now s) = boy s.
Proof. reflexivity. Qed.

Lemma scoreHit_clock now s :
  clock (scoreHit now s) = clock s /\ running (scoreHit now s) = running s.
Proof. split; reflexivity. Qed.

Lemma triggerEarthquake_clock env now s :
  clock (triggerEarthquake env now s) = clock s
  /\ running (triggerEarthquake env now s) = running s.
Proof.
  rewrite triggerEarthquake_skyline. unfold quaked. cbv zeta.
  case_if; split; reflexivity.
Qed.

Section KeepsTimed.

Variable env : Env.
Variable I : State -> Prop.

(** The frame intervals [dt] that are taken into account. *)
Variable D : Q -> Prop.

Hypothesis I_clock : forall now s, I s -> clock s <= now -> I (set_clock now s).
Hypothesis I_canvas : forall l s, I s -> I (set_canvas l s).
Hypothesis I_lastTime : forall t s, I s -> I (set_lastTime t s).
Hypothesis I_raf_none : forall s, I s -> I (set_raf RafNone s).
Hypothesis I_raf_loop : forall s, I s -> running s = true -> I (set_raf RafLoop s).

Hypothesis I_follow : forall s, I s -> running s = true -> I (missileFollow s).
Hypothesis I_spawn : forall s, I s -> I (spawnActors (clock s) s).
Hypothesis I_move : forall dt s, D dt -> I s -> I (moveBoy dt s).
Hypothesis I_chase : forall dt s, D dt -> I s -> I (bomberBehavior dt s).
Hypothesis I_decay : forall dt s, D dt -> I s -> I (decayFeedback dt s).
Hypothesis I_flag :
  forall i e e' s,
    I s -> nth_error (explosions s) i = Some e -> reflagged e e' ->
    I (set_explosions (set_nth i e' (explosions s)) s).
Hypothesis I_score :
  forall s, I s -> explosions s <> [] -> Actor.alive (bomber s) = true ->
    I (scoreHit (clock s) s).
Hypothesis I_crash :
  forall s, I s -> explosions s <> [] -> Actor.alive (boy s) = true ->
    I (triggerEarthquake env (clock s) (set_boy (Actor.set_alive false (boy s)) s)).

Hypothesis I_drawn :
  forall s, I s -> I (set_explosions (map (drawn (clock s)) (explosions s)) s).
Hypothesis I_exhaust :
  forall angle s, I s -> firstClickHandled s = true -> I (pushParticle env angle s).
Hypothesis I_particles :
  forall dt s, D dt -> I s -> I (set_particles (fst (drawParticles_loop dt (particles s))) s).
Hypothesis I_anim_boy :
  forall dt s, D dt -> I s -> I (set_boy (Actor.set_animTime (Actor.animTime (boy s) + dt) (boy s)) s).
Hypothesis I_anim_bomber :
  forall dt s,
    D dt -> I s ->
    I (set_bomber (Actor.set_animTime (Actor.animTime (bomber s) + dt) (bomber s)) s).
Hypothesis I_sweep : forall s, I s -> I (cleanupExplosions (clock s) s).
Hypothesis I_topple :
  forall dt s, D dt -> I s -> quakeActive s = true -> I (drawEarthquake env dt s).

Hypothesis I_pointer :
  forall cx cy l t s, I s -> listening s = true -> I (onMouseMove (clock s) cx cy l t s).
Hypothesis I_click :
  forall cx cy l t s, I s -> listening s = true -> I (onClick (clock s) cx cy l t s).
Hypothesis I_resize : forall w h s, I s -> I (resize w h s).
Hypothesis I_unmount : forall s, I s -> listening s = true -> I (cleanup s).
Hypothesis I_timer :
  forall id t s,
    I s -> find_timer id s = Some t -> Timer.fireAt t <= clock s ->
    I (runTimer (clock s) (Timer.action t) (clearTimeout (Some id) s)).

Lemma keeps_same now s s' :
  during I now s -> control s' = control s -> I s' -> during I now s'.
Proof.
  intros (_ & C & R) E H. apply control_fields in E as (E1 & E2 & _).
  split; [exact H|]. split; congruence.
Qed.

Lemma collide_keeps now i ex s :
  nth_error (explosions s) i = Some ex -> during I now s -> during I now (collide env now i ex s).
Proof.
  intros Hn HK. unfold collide. destruct (Explosion.alive ex); cbn [negb]; [|exact HK].
  rewrite bomberDestruction_form.
  assert (S1 : exists e1 s1,
             (if bomberHit ex s
              then (Explosion.set_hitBomber (Some true) ex, scoreHit now s)
              else (ex, s)) = (e1, s1)
             /\ during I now s1 /\ nth_error (explosions s1) i = Some ex
             /\ (exists b1 : bool,
                   e1 = (if b1 then Explosion.set_hitBomber (Some true) else fun x => x) ex)).
  { destruct (bomberHit ex s) eqn:B.
    - do 2 eexists. split; [reflexivity|].
      destruct HK as (HI & C & R).
      split; [|split].
      + split; [|split].
        * rewrite <- C. apply I_score; [exact HI|intros X; rewrite X in Hn; destruct i; discriminate|].
          unfold bomberHit in B. destruct (Actor.alive (bomber s)); [reflexivity|discriminate].
        * exact C.
        * exact R.
      + rewrite scoreHit_explosions. rewrite nth_error_app1; [exact Hn|].
        apply nth_error_Some. congruence.
      + exists true. reflexivity.
    - do 2 eexists. split; [reflexivity|]. split; [exact HK|]. split; [exact Hn|].
      exists false. reflexivity. }
  destruct S1 as (e1 & s1 & -> & HK1 & Hn1 & b1 & E1).
  unfold boyCrash.
  destruct (boyHit e1 s1) eqn:B.
  - destruct HK1 as (HI & C & R).
    assert (A : Actor.alive (boy s1) = true).
    { unfold boyHit in B. destruct (Actor.alive (boy s1)); [reflexivity|discriminate]. }
    assert (NE : explosions s1 <> [])
      by (intros X; rewrite X in Hn1; destruct i; discriminate).
    pose proof (I_crash s1 HI NE A) as HI2. rewrite C in HI2.
    set (s2 := triggerEarthquake env now _) in *.
    assert (X : explosions s2 = explosions s1)
      by apply (triggerEarthquake_explosions env now
                  (set_boy (Actor.set_alive false (boy s1)) s1)).
    destruct (triggerEarthquake_clock env now (set_boy (Actor.set_alive false (boy s1)) s1))
      as [C2 R2].
    fold s2 in C2, R2. clearbody s2.
    split; [|split].
    + apply I_flag with (e := ex); [exact HI2|rewrite X; exact Hn1|].
      exists b1, true. rewrite E1. reflexivity.
    + exact (eq_trans C2 C).
    + exact (eq_trans R2 R).
  - destruct HK1 as (HI & C & R). split; [|split; assumption].
    apply I_flag with (e := ex); [exact HI|exact Hn1|].
    exists b1, false. rewrite E1. reflexivity.
Qed.

Lemma collisions_keeps now i s : during I now s -> during I now (collisions env now i s).
Proof.
  funelim (collisions env now i s); intros HK.
  - match goal with
    | IH : during I _ (collide _ _ _ _ _) -> _ |- _ => apply IH
    end.
    apply collide_keeps; assumption.
  - assumption.
Qed.

Lemma update_keeps dt now s : D dt -> during I now s -> during I now (update env dt now s).
Proof.
  intros HD HK. rewrite update_prelude. apply collisions_keeps. unfold prelude.
  assert (K1 : during I now (missileFollow s)).
  { apply (keeps_same now s); [exact HK|apply missileFollow_control|].
    apply I_follow; apply HK. }
  assert (K2 : during I now (spawnActors now (missileFollow s))).
  { apply (keeps_same now _ _ K1); [apply spawnActors_control|].
    destruct K1 as (H & C & _). rewrite <- C. apply I_spawn, H. }
  assert (K3 : during I now (moveBoy dt (spawnActors now (missileFollow s)))).
  { apply (keeps_same now _ _ K2); [apply moveBoy_control|]. apply I_move; [exact HD|apply K2]. }
  assert (K4 : during I now (bomberBehavior dt (moveBoy dt (spawnActors now (missileFollow s))))).
  { apply (keeps_same now _ _ K3); [apply bomberBehavior_control|]. apply I_chase; [exact HD|apply K3]. }
  apply (keeps_same now _ _ K4); [apply decayFeedback_control|]. apply I_decay; [exact HD|apply K4].
Qed.

Lemma finish_keeps dt now s : D dt -> during I now s -> I (finish env dt now s).
Proof.
  intros HD HK. unfold finish. cbv zeta.
  assert (K1 : during I now (drawExplosions now s)).
  { apply (keeps_same now s); [exact HK|reflexivity|].
    unfold drawExplosions. cbv zeta. apply I_canvas.
    destruct HK as (H & C & _). rewrite <- C. apply I_drawn, H. }
  set (s1 := drawExplosions now s) in *. clearbody s1.
  assert (K2 : during I now (drawMissile env s1)).
  { apply (keeps_same now s1); [exact K1|apply drawMissile_control|].
    unfold drawMissile. destruct (firstClickHandled s1) eqn:F; cbn [negb]; [|apply K1].
    cbv zeta. apply I_canvas.
    apply I_exhaust; [apply I_exhaust; [apply K1|exact F]|].
    exact F. }
  set (s2 := drawMissile env s1) in *. clearbody s2.
  assert (K3 : during I now (drawParticles dt s2)).
  { apply (keeps_same now s2); [exact K2|apply drawParticles_control|].
    unfold drawParticles.
    pose proof (I_particles dt s2 HD (proj1 K2)) as H.
    destruct (drawParticles_loop dt (particles s2)) as [ps paints]. cbn [fst] in H.
    apply I_canvas, H. }
  set (s3 := drawParticles dt s2) in *. clearbody s3.
  assert (K4 : during I now (drawBoy dt s3)).
  { apply (keeps_same now s3); [exact K3|apply drawBoy_control|].
    unfold drawBoy. destruct (Actor.alive (boy s3)); cbn [negb]; [|apply K3].
    cbv zeta. apply I_canvas, I_anim_boy; [exact HD|apply K3]. }
  set (s4 := drawBoy dt s3) in *. clearbody s4.
  assert (K5 : during I now (drawBomber dt s4)).
  { apply (keeps_same now s4); [exact K4|apply drawBomber_control|].
    unfold drawBomber. destruct (Actor.alive (bomber s4)); cbn [negb]; [|apply K4].
    cbv zeta. apply I_canvas, I_anim_bomber; [exact HD|apply K4]. }
  set (s5 := drawBomber dt s4) in *. clearbody s5.
  assert (K6 : during I now (cleanupExplosions now (drawScore (drawPopups s5)))).
  { assert (K6 : during I now (drawScore (drawPopups s5))).
    { apply (keeps_same now s5); [exact K5|reflexivity|].
      apply I_canvas, I_canvas, K5. }
    apply (keeps_same now _ _ K6); [reflexivity|].
    destruct K6 as (H & C & _). rewrite <- C. apply I_sweep, H. }
  set (s6 := cleanupExplosions now _) in *. clearbody s6.
  assert (K7 : during I now (if quakeActive s6 then drawEarthquake env dt s6 else s6)).
  { destruct (quakeActive s6) eqn:Q; [|exact K6].
    apply (keeps_same now s6); [exact K6|apply drawEarthquake_control|].
    apply I_topple; [exact HD|apply K6|exact Q]. }
  set (s7 := if quakeActive s6 then _ else _) in *. clearbody s7.
  apply I_raf_loop.
  - destruct (firstClickHandled s7); cbn [negb]; [apply K7|apply I_canvas, K7].
  - destruct (firstClickHandled s7); cbn [negb]; apply K7.
Qed.

Lemma loop_keeps time now s :
  D (time - lastTime s) -> I s -> clock s = now -> I (loop env time now s).
Proof.
  intros HD H C. destruct (running s) eqn:R.
  - rewrite loop_running by exact R.
    apply finish_keeps; [exact HD|]. apply update_keeps; [exact HD|].
    split; [|split; assumption]. apply I_canvas, I_lastTime, H.
  - rewrite loop_stopped by exact R. exact H.
Qed.

Lemma handle_keeps now e s s' :
  handle env now e s = Some s' -> timely D e s -> I s -> I s'.
Proof.
  unfold handle. destruct (Qle_bool (clock s) now) eqn:C; cbn [negb]; [|discriminate].
  apply Qle_bool_iff in C. intros H HD HI.
  pose proof (I_clock now s HI C) as H1.
  assert (C1 : clock (set_clock now s) = now) by reflexivity.
  assert (R1 : raf (set_clock now s) = raf s) by reflexivity.
  assert (L1 : lastTime (set_clock now s) = lastTime s) by reflexivity.
  set (s1 := set_clock now s) in *. clearbody s1.
  destruct e.
  - destruct (listening s1) eqn:L; [|discriminate]. injection H as <-.
    rewrite <- C1. apply I_pointer; assumption.
  - destruct (listening s1) eqn:L; [|discriminate]. injection H as <-.
    rewrite <- C1. apply I_click; assumption.
  - unfold timely, frame_dt in HD. rewrite <- R1, <- L1 in HD.
    destruct (raf s1); try discriminate; injection H as <-.
    + apply loop_keeps; [exact HD|apply I_lastTime, I_raf_none, H1|exact C1].
    + apply loop_keeps; [exact HD|apply I_raf_none, H1|exact C1].
  - destruct (find_timer id s1) as [t|] eqn:F; [|discriminate].
    destruct (Qle_bool (Timer.fireAt t) now) eqn:Due; [|discriminate].
    injection H as <-. apply Qle_bool_iff in Due.
    rewrite <- C1. apply I_timer; [exact H1|exact F|rewrite C1; exact Due].
  - destruct (listening s1) eqn:L; [|discriminate]. injection H as <-.
    apply I_resize, H1.
  - destruct (listening s1) eqn:L; [|discriminate]. injection H as <-.
    apply I_unmount; assumption.
Qed.

Lemma run_keeps es s s' : run env es s = Some s' -> timed env D es s -> I s -> I s'.
Proof.
  revert s. induction es as [|[now e] es IH]; intros s H HD HI.
  - injection H as <-. exact HI.
  - cbn [run] in H. cbn [timed] in HD.
    destruct (handle env now e s) as [s1|] eqn:E; [|discriminate].
    destruct HD as [HD1 HD2].
    apply (IH s1 H HD2). exact (handle_keeps now e s s1 E HD1 HI).
Qed.

End KeepsTimed.

Lemma timed_always env es s : timed env (fun _ => True) es s.
Proof.
  revert s. induction es as [|[now e] es IH]; intros s; cbn [timed]; [exact Logic.I|].
  destruct (handle env now e s); [|exact Logic.I].
  split; [|apply IH]. destruct e; exact Logic.I.
Qed.

(** The same, for a property that does not depend on the frame intervals. *)
Section Keeps.

Variable env : Env.
Variable I : State -> Prop.

Hypothesis I_clock : forall now s, I s -> clock s <= now -> I (set_clock now s).
Hypothesis I_canvas : forall l s, I s -> I (set_canvas l s).
Hypothesis I_lastTime : forall t s, I s -> I (set_lastTime t s).
Hypothesis I_raf_none : forall s, I s -> I (set_raf RafNone s).
Hypothesis I_raf_loop : forall s, I s -> running s = true -> I (set_raf RafLoop s).

Hypothesis I_follow : forall s, I s -> running s = true -> I (missileFollow s).
Hypothesis I_spawn : forall s, I s -> I (spawnActors (clock s) s).
Hypothesis I_move : forall dt s, I s -> I (moveBoy dt s).
Hypothesis I_chase : forall dt s, I s -> I (bomberBehavior dt s).
Hypothesis I_decay : forall dt s, I s -> I (decayFeedback dt s).
Hypothesis I_flag :
  forall i e e' s,
    I s -> nth_error (explosions s) i = Some e -> reflagged e e' ->
    I (set_explosions (set_nth i e' (explosions s)) s).
Hypothesis I_score :
  forall s, I s -> explosions s <> [] -> Actor.alive (bomber s) = true ->
    I (scoreHit (clock s) s).
Hypothesis I_crash :
  forall s, I s -> explosions s <> [] -> Actor.alive (boy s) = true ->
    I (triggerEarthquake env (clock s) (set_boy (Actor.set_alive false (boy s)) s)).

Hypothesis I_drawn :
  forall s, I s -> I (set_explosions (map (drawn (clock s)) (explosions s)) s).
Hypothesis I_exhaust :
  forall angle s, I s -> firstClickHandled s = true -> I (pushParticle env angle s).
Hypothesis I_particles :
  forall dt s, I s -> I (set_particles (fst (drawParticles_loop dt (particles s))) s).
Hypothesis I_anim_boy :
  forall v s, I s -> I (set_boy (Actor.set_animTime v (boy s)) s).
Hypothesis I_anim_bomber :
  forall v s, I s -> I (set_bomber (Actor.set_animTime v (bomber s)) s).
Hypothesis I_sweep : forall s, I s -> I (cleanupExplosions (clock s) s).
Hypothesis I_topple :
  forall dt s, I s -> quakeActive s = true -> I (drawEarthquake env dt s).

Hypothesis I_pointer :
  forall cx cy l t s, I s -> listening s = true -> I (onMouseMove (clock s) cx cy l t s).
Hypothesis I_click :
  forall cx cy l t s, I s -> listening s = true -> I (onClick (clock s) cx cy l t s).
Hypothesis I_resize : forall w h s, I s -> I (resize w h s).
Hypothesis I_unmount : forall s, I s -> listening s = true -> I (cleanup s).
Hypothesis I_timer :
  forall id t s,
    I s -> find_timer id s = Some t -> Timer.fireAt t <= clock s ->
    I (runTimer (clock s) (Timer.action t) (clearTimeout (Some id) s)).

Lemma run_keeps_always es s s' : run env es s = Some s' -> I s -> I s'.
Proof.
  intros R. apply (run_keeps env I (fun _ => True)) with (es := es); auto.
  apply timed_always.
Qed.

Lemma reachable_keeps :
  (forall w h t0, I (init w h t0)) -> forall s, reachable env s -> I s.
Proof.
  intros H0 s (w & h & t0 & es & R). exact (run_keeps_always es _ _ R (H0 w h t0)).
Qed.

End Keeps.

(** ** The first thirty seconds *)

Ltac kept_by H s := open_state s; exact H.

Section Timing.

Variable env : Env.

Lemma timing_not_early s : timing_inv s -> Actor.alive (boy s) = true \/ Actor.alive (bomber s) = true ->
  30000 < clock s - startTime s.
Proof.
  intros (H & _) A. apply Qnot_le_lt. intros E.
  destruct (H E) as (A1 & A2 & _). destruct A; congruence.
Qed.

Lemma Forall_filter {A : Type} (P : A -> Prop) (f : A -> bool) (l : list A) :
  Forall P l -> Forall P (filter f l).
Proof.
  intros H. apply Forall_forall. intros x Hx. apply filter_In in Hx as [Hx _].
  revert x Hx. apply Forall_forall. exact H.
Qed.

Lemma timing_keeps_timers (ts : list Timer.t) s :
  timing_inv s ->
  (early s -> Forall (fun t => Timer.action t = SettleDetonation) ts) ->
  Forall (fun t => Timer.action t = ReloadPage -> startTime s + 32500 < Timer.fireAt t) ts ->
  timing_inv (set_timers ts s).
Proof.
  intros (H1 & H2 & H3) F1 F2. split; [|split].
  - intros E. destruct (H1 E) as (A1 & A2 & A3 & A4 & A5 & A6 & A7 & A8 & A9).
    repeat split; try assumption. exact (F1 E).
  - exact F2.
  - exact H3.
Qed.

Lemma timing_clearTimeout h s : timing_inv s -> timing_inv (clearTimeout h s).
Proof.
  intros H. destruct h as [id|]; [|exact H]. unfold clearTimeout.
  apply timing_keeps_timers; [exact H| |].
  - intros E. apply Forall_filter. apply H, E.
  - apply Forall_filter. apply H.
Qed.

Lemma timing_setTimeout a delay now s :
  timing_inv s -> a = SettleDetonation -> timing_inv (snd (setTimeout a delay now s)).
Proof.
  intros H ->. unfold setTimeout. cbn [snd].
  assert (X : timing_inv (set_timers (timers s ++ [Timer.mk (nextTimerId s) (now + delay) SettleDetonation]) s)).
  { apply timing_keeps_timers; [exact H| |].
    - intros E. apply Forall_app. split; [apply H, E|]. constructor; [reflexivity|constructor].
    - apply Forall_app. split; [apply H|]. constructor; [discriminate|constructor]. }
  revert X. generalize (timers s ++ [Timer.mk (nextTimerId s) (now + delay) SettleDetonation]).
  intros l X. kept_by X s.
Qed.

Lemma timing_inv_holds : forall s, reachable env s -> timing_inv s.
Proof.
  apply (reachable_keeps env timing_inv).
  - (* clock *)
    intros now s (H1 & H2 & H3) C. split; [|split].
    + intros E. assert (E0 : early s).
      { unfold early in *. cbn [clock startTime set_clock] in E. lra. }
      specialize (H1 E0). kept_by H1 s.
    + kept_by H2 s.
    + intros R. specialize (H3 R). cbn [clock startTime set_clock]. lra.
  - intros l s H. kept_by H s.
  - intros t s H. kept_by H s.
  - intros s H. kept_by H s.
  - intros s H _. kept_by H s.
  - (* missileFollow *)
    intros s H _. unfold missileFollow. case_if; [|exact H]. kept_by H s.
  - (* spawnActors *)
    intros s H. unfold spawnActors. cbv zeta.
    destruct (Qgtb (clock s - startTime s) 30000) eqn:G; [|exact H].
    apply Qgtb_gt in G.
    assert (X : forall s', clock s' = clock s -> startTime s' = startTime s ->
                timers s' = timers s -> reloads s' = reloads s -> timing_inv s').
    { intros s' E1 E2 E3 E4. destruct H as (H1 & H2 & H3). split; [|split].
      - intros E. unfold early in E. rewrite E1, E2 in E. lra.
      - rewrite E2, E3. exact H2.
      - rewrite E1, E2, E4. exact H3. }
    unfold spawnBomber. repeat case_if; apply X; reflexivity.
  - (* moveBoy *)
    intros dt s H. unfold moveBoy. repeat case_if; try exact H; kept_by H s.
  - (* bomberBehavior *)
    intros dt s H. unfold bomberBehavior. repeat case_if; try exact H; kept_by H s.
  - (* decayFeedback *)
    intros dt s (H1 & H2 & H3). unfold decayFeedback. split; [|split].
    + intros E. assert (E0 : early s) by exact E.
      destruct (H1 E0) as (A1 & A2 & A3 & A4 & A5 & A6 & A7 & A8 & A9).
      repeat split; try assumption.
      cbn [popups set_popups set_scorePulse]. rewrite A7. reflexivity.
    + exact H2.
    + exact H3.
  - (* flags *)
    intros i e e' s H _ _. kept_by H s.
  - (* the bomber is hit *)
    intros s H _ A.
    pose proof (timing_not_early s H (or_intror A)) as L.
    destruct H as (H1 & H2 & H3). split; [|split].
    + intros E. unfold early in E. cbn in E. lra.
    + unfold scoreHit, setTimeout, spawnExplosion. cbn [timers snd set_timers set_nextTimerId
        set_bomber set_explosions set_popups set_scorePulse set_score startTime].
      apply Forall_app. split; [exact H2|]. constructor; [discriminate|constructor].
    + exact H3.
  - (* the runner is hit *)
    intros s H _ A.
    pose proof (timing_not_early s H (or_introl A)) as L.
    destruct H as (H1 & H2 & H3).
    rewrite triggerEarthquake_skyline. unfold quaked. cbv zeta.
    generalize (skyline env (set_boy (Actor.set_alive false (boy s)) s)).
    generalize (randomCalls (set_boy (Actor.set_alive false (boy s)) s)
                + 7 * Z.to_nat (columns (set_boy (Actor.set_alive false (boy s)) s)))%nat.
    intros n bs.
    cbn [reloadQueued set_buildings set_randomCalls set_quakeStart set_quakeActive set_boy].
    destruct (reloadQueued s) eqn:RQ.
    * split; [|split].
      -- intros E. unfold early in E. cbn in E. lra.
      -- exact H2.
      -- exact H3.
    * split; [|split].
      -- intros E. unfold early in E. cbn in E. lra.
      -- unfold setTimeout. cbn [timers snd set_timers set_nextTimerId set_reloadQueued
           set_buildings set_randomCalls set_quakeStart set_quakeActive set_boy startTime].
         apply Forall_app. split; [exact H2|]. constructor; [|constructor].
         intros _. cbn [Timer.fireAt]. unfold quakeDuration. lra.
      -- exact H3.
  - intros s H. kept_by H s.
  - intros angle s H _. unfold pushParticle, Math_random. kept_by H s.
  - intros dt s H. kept_by H s.
  - intros v s H. kept_by H s.
  - intros v s H. kept_by H s.
  - intros s H. kept_by H s.
  - intros dt s H Q.
    destruct H as (H1 & H2 & H3). split; [|split]; [|exact H2|exact H3].
    intros E. assert (E0 : early s) by exact E.
    destruct (H1 E0) as (_ & _ & _ & A4 & _). congruence.
  - (* pointer move *)
    intros cx cy l t s H _. unfold onMouseMove. cbv zeta.
    set (s1 := set_mouse _ s).
    assert (H1 : timing_inv s1) by (subst s1; kept_by H s).
    clearbody s1.
    set (s2 := if handle_truthy (stopTimer s1) then _ else _).
    assert (H2 : timing_inv s2).
    { subst s2. case_if; [apply timing_clearTimeout|]; exact H1. }
    clearbody s2.
    case_if; [|exact H2].
    pose proof (timing_setTimeout SettleDetonation 240 (clock s) s2 H2 eq_refl) as H3.
    destruct (setTimeout SettleDetonation 240 (clock s) s2) as [id s3]. cbn [snd] in H3.
    kept_by H3 s3.
  - (* click *)
    intros cx cy l t s H _. unfold onClick, spawnExplosion. cbv zeta.
    case_if; kept_by H s.
  - intros w h s H. kept_by H s.
  - (* unmount *)
    intros s H _. unfold cleanup. cbv zeta.
    set (s1 := set_raf RafNone (set_running false s)).
    assert (H1 : timing_inv s1) by (subst s1; kept_by H s).
    clearbody s1.
    set (s2 := if handle_truthy (stopTimer s1) then _ else _).
    assert (H2 : timing_inv s2).
    { subst s2. case_if; [apply timing_clearTimeout|]; exact H1. }
    clearbody s2. kept_by H2 s2.
  - (* a timer fires *)
    intros id t s H F D.
    assert (Ht : In t (timers s)).
    { unfold find_timer in F. apply find_some in F. apply F. }
    pose proof (timing_clearTimeout (Some id) s H) as H1.
    assert (C : clock (clearTimeout (Some id) s) = clock s) by reflexivity.
    assert (ST : startTime (clearTimeout (Some id) s) = startTime s) by reflexivity.
    set (s1 := clearTimeout (Some id) s) in *. clearbody s1.
    destruct (Timer.action t) eqn:A; cbn [runTimer].
    + unfold spawnExplosion. kept_by H1 s1.
    + assert (L : 30000 < clock s - startTime s).
      { apply Qnot_le_lt. intros E. destruct H as (H & _).
        destruct (H E) as (_ & _ & _ & _ & _ & _ & _ & _ & F9).
        rewrite Forall_forall in F9. specialize (F9 t Ht). congruence. }
      case_if; [|exact H1]. unfold spawnBomber.
      destruct H1 as (X1 & X2 & X3). split; [|split].
      * intros E. unfold early in E. cbn in E. rewrite C, ST in E. lra.
      * exact X2.
      * exact X3.
    + assert (L : startTime s + 32500 < clock s).
      { destruct H as (_ & H & _). rewrite Forall_forall in H.
        specialize (H t Ht A). lra. }
      destruct H1 as (X1 & X2 & X3). split; [|split].
      * intros E. unfold early in E. cbn in E. rewrite C, ST in E. lra.
      * exact X2.
      * intros _. cbn. rewrite C, ST. exact L.
  - (* the initial state *)
    intros w h t0. unfold init. cbv zeta. split; [|split].
    + intros _. repeat split; constructor.
    + constructor.
    + intros X. exfalso. apply X. reflexivity.
Qed.

End Timing.

(** ** Invariants of the reachable states *)

(** Computes the projections of a state that was built by setters. *)
Ltac state_simpl :=
  cbn [
    width height mouse lastMouse firstClickHandled stopTimer missile explosions particles
    boy bomber score scorePulse popups startTime lastTime quakeActive quakeStart buildings
    reloadQueued raf running listening timers nextTimerId clock randomCalls reloads canvas
    set_width set_height set_mouse set_lastMouse set_firstClickHandled set_stopTimer
    set_missile set_explosions set_particles set_boy set_bomber set_score set_scorePulse
    set_popups set_lastTime set_quakeActive set_quakeStart set_buildings set_reloadQueued
    set_raf set_running set_listening set_timers set_nextTimerId set_clock set_randomCalls
    set_reloads set_canvas fst snd].

Ltac state_simpl_in H :=
  cbn [
    width height mouse lastMouse firstClickHandled stopTimer missile explosions particles
    boy bomber score scorePulse popups startTime lastTime quakeActive quakeStart buildings
    reloadQueued raf running listening timers nextTimerId clock randomCalls reloads canvas
    set_width set_height set_mouse set_lastMouse set_firstClickHandled set_stopTimer
    set_missile set_explosions set_particles set_boy set_bomber set_score set_scorePulse
    set_popups set_lastTime set_quakeActive set_quakeStart set_buildings set_reloadQueued
    set_raf set_running set_listening set_timers set_nextTimerId set_clock set_randomCalls
    set_reloads set_canvas fst snd] in H.

Ltac state_simpl_all :=
  cbn [
    width height mouse lastMouse firstClickHandled stopTimer missile explosions particles
    boy bomber score scorePulse popups startTime lastTime quakeActive quakeStart buildings
    reloadQueued raf running listening timers nextTimerId clock randomCalls reloads canvas
    set_width set_height set_mouse set_lastMouse set_firstClickHandled set_stopTimer
    set_missile set_explosions set_particles set_boy set_bomber set_score set_scorePulse
    set_popups set_lastTime set_quakeActive set_quakeStart set_buildings set_reloadQueued
    set_raf set_running set_listening set_timers set_nextTimerId set_clock set_randomCalls
    set_reloads set_canvas fst snd] in *.

(** Solves a goal [P (f s)] from [H : P s] when [f] writes no field that
    [P] reads. *)
Ltac kept :=
  intros;
  match goal with
  | H : ?P ?s |- ?P _ =>
      try exact H;
      rewrite ?triggerEarthquake_skyline; unfold quaked;
      open_state s;
      unfold onMouseMove, onClick, cleanup, runTimer, resize, scoreHit, pushParticle,
        drawEarthquake, cleanupExplosions, missileFollow, spawnActors, moveBoy,
        bomberBehavior, decayFeedback;
      unfold spawnBomber, spawnExplosion, setTimeout, clearTimeout, Math_random, paint;
      cbv beta iota zeta; state_simpl;
      repeat (match goal with
              | |- context [match ?x with _ => _ end] => destruct x eqn:?
              end; cbv beta iota zeta; state_simpl);
      exact H
  end.

Section Invariants.

Variable env : Env.

Lemma raf_inv_holds : forall s, reachable env s -> raf_inv s.
Proof.
  apply (reachable_keeps env raf_inv); try (kept; fail).
  - intros s _ X. exfalso. apply X. reflexivity.
  - intros s _ R _. exact R.
  - intros s H _ X. exfalso. apply X. open_state s. unfold cleanup, clearTimeout.
    cbv zeta. state_simpl. destruct (handle_truthy s_stopTimer); [|reflexivity].
    destruct s_stopTimer; reflexivity.
  - intros w h t0 _. reflexivity.
Qed.

Lemma missile_inv_holds : forall s, reachable env s -> missile_inv s.
Proof.
  apply (reachable_keeps env missile_inv); try (kept; fail).
  - intros s (H1 & H2) _. unfold missileFollow. case_if; [|split; assumption].
    split; [reflexivity|exact H2].
  - intros w h t0. split; reflexivity.
Qed.

Lemma startTime_holds t0 s :
  (exists w h es, run env es (init w h t0) = Some s) -> startTime s = t0.
Proof.
  intros (w & h & es & R).
  apply (run_keeps_always env (started t0)) with (es := es) (s := init w h t0);
    try (kept; fail); try exact R; reflexivity.
Qed.

Lemma quake_inv_holds : forall s, reachable env s -> quake_inv s.
Proof.
  apply (reachable_keeps env quake_inv); try (kept; fail).
  - intros s (H1 & H2 & H3) _ _.
    rewrite triggerEarthquake_skyline.
    pose proof (skyline_length env (set_boy (Actor.set_alive false (boy s)) s)) as L.
    pose proof (columns_ge (set_boy (Actor.set_alive false (boy s)) s)) as G.
    revert L. generalize (skyline env (set_boy (Actor.set_alive false (boy s)) s)).
    intros bs L. unfold quaked. cbv zeta.
    cbn [reloadQueued set_buildings set_randomCalls set_quakeStart set_quakeActive set_boy].
    destruct (reloadQueued s) eqn:RQ.
    + split; [|split].
      * cbn. congruence.
      * cbn. discriminate.
      * intros _. cbn. lia.
    + split; [|split].
      * reflexivity.
      * cbn. discriminate.
      * intros _. cbn. lia.
  - intros dt s (H1 & H2 & H3) Q. unfold drawEarthquake, Math_random, paint. cbv zeta.
    split; [|split].
    + exact H1.
    + intros X. cbn in X. congruence.
    + intros _. cbn. rewrite length_map. apply H3, Q.
  - intros w h t0. split; [reflexivity|]. split; [reflexivity|discriminate].
Qed.

End Invariants.

(** ** The arrays *)

Lemma Forall_set_nth {A : Type} (P : A -> Prop) (i : nat) (v : A) (l : list A) :
  Forall P l -> P v -> Forall P (set_nth i v l).
Proof.
  intros H Hv. revert i. induction H as [|a l Ha Hl IH]; intros [|i]; cbn [set_nth].
  - constructor.
  - constructor.
  - constructor; assumption.
  - constructor; [assumption|apply IH].
Qed.

Lemma explosion_ok_later c c' e : c <= c' -> explosion_ok c e -> explosion_ok c' e.
Proof.
  intros L (A1 & A2 & A3 & A4 & A5 & A6).
  repeat split; try assumption. lra.
Qed.

Lemma explosion_ok_reflagged c e e' : reflagged e e' -> explosion_ok c e -> explosion_ok c e'.
Proof.
  intros (b1 & b2 & ->) H. destruct b1, b2; exact H.
Qed.

Lemma explosion_ok_fresh c x y : explosion_ok c (Explosion.mk x y 0 140 true c nuclear 1200 None None).
Proof.
  unfold explosion_ok. cbn. repeat split; lra.
Qed.

Lemma explosion_ok_drawn now c e : explosion_ok c e -> explosion_ok c (drawn now e).
Proof.
  intros (A1 & A2 & A3 & A4 & A5 & A6). unfold drawn. rewrite A1.
  unfold drawNuclearExplosion. cbv zeta. unfold explosion_ok.
  cbn [Explosion.alive Explosion.maxR Explosion.lifeMs Explosion.r Explosion.createdAt
       Explosion.set_r].
  rewrite A2.
  destruct (clamp_bounds ((now - Explosion.createdAt e) / Explosion.lifeMs e)) as [B1 B2].
  set (t := clamp _ 0 1) in *.
  repeat split; try assumption; lra.
Qed.

Lemma agePopups_ok dt ps : Forall popup_ok ps -> Forall popup_ok (agePopups dt ps).
Proof.
  induction 1 as [|p ps Hp Hps IH]; cbn [agePopups]; [constructor|].
  destruct (Qgeb (Popup.life (agePopup dt p)) (Popup.maxLife (agePopup dt p))) eqn:G;
    [exact IH|].
  constructor; [|exact IH].
  destruct Hp as (T & M & _). split; [exact T|]. split; [exact M|].
  unfold Qgeb in G. apply Qnot_le_lt. intros X. apply Qle_bool_iff in X. congruence.
Qed.

Lemma agePopups_length dt ps : (length (agePopups dt ps) <= length ps)%nat.
Proof.
  induction ps as [|p ps IH]; cbn [agePopups length]; [lia|].
  case_if; cbn [length]; lia.
Qed.

Section Arrays.

Variable env : Env.

Lemma explosions_inv_holds : forall s, reachable env s -> explosions_inv s.
Proof.
  apply (reachable_keeps env explosions_inv); try (kept; fail).
  - intros now s H C. unfold explosions_inv in *. cbn [clock explosions set_clock].
    revert H. apply Forall_impl. intros e. apply explosion_ok_later, C.
  - intros i e e' s H Hn R. unfold explosions_inv in *.
    cbn [clock explosions set_explosions].
    apply Forall_set_nth; [exact H|].
    apply (explosion_ok_reflagged _ e e' R).
    rewrite Forall_forall in H. apply H. eapply nth_error_In, Hn.
  - intros s H _ _. unfold explosions_inv in *.
    change (clock (scoreHit (clock s) s)) with (clock s).
    rewrite scoreHit_explosions. apply Forall_app. split; [exact H|].
    constructor; [apply explosion_ok_fresh|constructor].
  - intros s H. unfold explosions_inv in *. cbn [clock explosions set_explosions].
    apply Forall_forall. intros e He. apply in_map_iff in He as (e0 & <- & He).
    apply explosion_ok_drawn. rewrite Forall_forall in H. apply H, He.
  - intros s H. unfold explosions_inv, cleanupExplosions in *.
    cbn [clock explosions set_explosions]. apply Forall_filter, H.
  - intros cx cy l t s H _. unfold explosions_inv, onClick, spawnExplosion in *. cbv zeta.
    assert (X : forall s', clock s' = clock s -> explosions s' = explosions s ->
                Forall (explosion_ok (clock s'))
                  (explosions s' ++ [Explosion.mk (cx - l) (cy - t) 0 140 true (clock s)
                                       nuclear 1200 None None])).
    { intros s' E1 E2. rewrite E1, E2. apply Forall_app. split; [exact H|].
      constructor; [apply explosion_ok_fresh|constructor]. }
    case_if; cbn [clock explosions set_explosions]; apply X; reflexivity.
  - intros id t s H _ _. unfold explosions_inv in *.
    destruct (Timer.action t); cbn [runTimer].
    + unfold spawnExplosion, clearTimeout. cbn [clock explosions set_explosions set_timers].
      apply Forall_app. split; [exact H|].
      constructor; [apply explosion_ok_fresh|constructor].
    + unfold spawnBomber, clearTimeout. case_if; exact H.
    + exact H.
  - intros w h t0. constructor.
Qed.

Lemma feedback_inv_holds : forall s, reachable env s -> feedback_inv s.
Proof.
  apply (reachable_keeps env feedback_inv); try (kept; fail).
  - intros dt s (H1 & H2 & H3). unfold decayFeedback. split; [|split].
    + cbn [scorePulse set_popups set_scorePulse]. apply Q.le_max_l.
    + cbn [popups set_popups]. apply agePopups_ok, H2.
    + cbn [popups score set_popups set_scorePulse].
      pose proof (agePopups_length dt (popups s)). lia.
  - intros s (H1 & H2 & H3) _ _. unfold scoreHit, setTimeout, spawnExplosion. cbv zeta.
    split; [|split].
    + cbn. lra.
    + cbn [popups snd set_nextTimerId set_timers set_bomber set_explosions set_popups].
      apply Forall_app. split; [exact H2|]. constructor; [|constructor].
      split; [reflexivity|]. split; [reflexivity|]. cbn. lra.
    + cbn [popups score snd set_nextTimerId set_timers set_bomber set_explosions set_popups
           set_scorePulse set_score].
      rewrite length_app. cbn [length]. lia.
  - intros w h t0. split; [cbn; lra|]. split; [constructor|]. cbn. lia.
Qed.

End Arrays.

(** ** Before the first click, and the exhaust *)

Lemma drawParticles_loop_ok dt ps :
  Forall particle_ok ps -> Forall particle_ok (fst (drawParticles_loop dt ps)).
Proof.
  induction 1 as [|p ps Hp Hps IH]; cbn [drawParticles_loop]; [constructor|].
  destruct (drawParticles_loop dt ps) as [rest paints]. cbn [fst] in *.
  destruct (Qgeb (Particle.life (ageParticle dt p)) (Particle.maxLife (ageParticle dt p)))
    eqn:G; [exact IH|].
  constructor; [|exact IH].
  destruct Hp as (_ & M1 & M2 & S1 & S2).
  split; [|repeat split; assumption].
  unfold Qgeb in G. apply Qnot_le_lt. intros X. apply Qle_bool_iff in X. congruence.
Qed.

Ltac preclick :=
  intros;
  match goal with
  | H : preclick_inv _ ?s |- _ =>
      rewrite ?triggerEarthquake_skyline; unfold quaked;
      open_state s; unfold preclick_inv in *;
      unfold onMouseMove, onClick, cleanup, runTimer, resize, scoreHit, pushParticle,
        drawEarthquake, cleanupExplosions, missileFollow, spawnActors, moveBoy,
        bomberBehavior, decayFeedback;
      unfold spawnBomber, spawnExplosion, setTimeout, clearTimeout, Math_random, paint;
      cbv beta iota zeta; state_simpl; state_simpl_in H;
      repeat (match goal with
              | |- context [match ?x with _ => _ end] => destruct x eqn:?
              end; cbv beta iota zeta; state_simpl);
      try exact H;
      let F := fresh "F" in
      intros F;
      first [discriminate F
            |destruct (H F) as (? & ? & ? & ? & ? & ? & ? & ? & ? & ? & ? & ? & ?); subst;
             state_simpl_all; cbn [handle_truthy agePopups map filter fst drawParticles_loop] in *;
             first [discriminate | congruence | repeat split; reflexivity]]
  end.

Section Preclick.

Variable env : Env.

Lemma preclick_inv_holds w h t0 :
  forall s, (exists es, run env es (init w h t0) = Some s) ->
  preclick_inv (missile (init w h t0)) s.
Proof.
  intros s (es & R).
  apply (run_keeps_always env (preclick_inv (missile (init w h t0))))
    with (es := es) (s := init w h t0); try exact R; try (preclick; fail).
  - intros i e e' s0 H Hn _ F.
    destruct (H F) as (X & _). rewrite X in Hn. destruct i; discriminate.
  - intros _. repeat split; reflexivity.
Qed.

Section Exhaust.

Hypothesis random_unit : forall n, 0 <= random env n /\ random env n < 1.

Lemma particles_inv_holds : forall s, reachable env s -> particles_inv s.
Proof.
  apply (reachable_keeps env particles_inv); try (kept; fail).
  - intros angle s H _. unfold particles_inv, pushParticle, Math_random in *. cbv zeta.
    state_simpl. apply Forall_app. split; [exact H|]. constructor; [|constructor].
    unfold particle_ok. cbn [Particle.life Particle.maxLife Particle.size].
    pose proof (random_unit (S (S (randomCalls s)))) as [A1 A2].
    pose proof (random_unit (S (S (S (randomCalls s))))) as [B1 B2].
    repeat split; lra.
  - intros dt s H. unfold particles_inv in *. cbn [particles set_particles].
    apply drawParticles_loop_ok, H.
  - intros w h t0. constructor.
Qed.

End Exhaust.

End Preclick.

(** ** The missile across a callback *)

Section Guidance.

Variable env : Env.

Lemma guided_inv g s :
  guided g s ->
  mouse s = fst (fst (fst g)) /\ lastMouse s = snd (fst (fst g))
  /\ missile s = snd (fst g) /\ firstClickHandled s = snd g.
Proof. intros <-. repeat split. Qed.

(** After [missileFollow], nothing in the frame touches the missile. *)
Lemma loop_guidance time now s :
  running s = true -> clock s = now ->
  guidance (loop env time now s) = guidance (missileFollow s).
Proof.
  intros R C. rewrite loop_running by exact R.
  set (dt := time - lastTime s).
  set (g := guidance (missileFollow s)).
  change (guided g (finish env dt now (update env dt now (drawBackground (set_lastTime time s))))).
  apply (finish_keeps env (guided g) (fun _ => True));
    try (kept; fail); try exact Logic.I.
  rewrite update_prelude.
  apply (collisions_keeps env (guided g)); try (kept; fail).
  unfold prelude.
  set (s0 := drawBackground (set_lastTime time s)).
  assert (G0 : guided g (missileFollow s0)).
  { subst g s0. unfold guided, guidance, missileFollow, drawBackground.
    state_simpl. case_if; reflexivity. }
  assert (C0 : control (missileFollow s0) = control s).
  { rewrite missileFollow_control. reflexivity. }
  clearbody s0. set (s1 := missileFollow s0) in *. clearbody s1.
  assert (G1 : guided g (spawnActors now s1)) by (revert G0; kept).
  assert (C1 : control (spawnActors now s1) = control s)
    by (rewrite spawnActors_control; exact C0).
  set (s2 := spawnActors now s1) in *. clearbody s2.
  assert (G2 : guided g (moveBoy dt s2)) by (revert G1; kept).
  assert (C2 : control (moveBoy dt s2) = control s)
    by (rewrite moveBoy_control; exact C1).
  set (s3 := moveBoy dt s2) in *. clearbody s3.
  assert (G3 : guided g (bomberBehavior dt s3)) by (revert G2; kept).
  assert (C3 : control (bomberBehavior dt s3) = control s)
    by (rewrite bomberBehavior_control; exact C2).
  set (s4 := bomberBehavior dt s3) in *. clearbody s4.
  assert (G4 : guided g (decayFeedback dt s4)) by (revert G3; kept).
  assert (C4 : control (decayFeedback dt s4) = control s)
    by (rewrite decayFeedback_control; exact C3).
  apply control_fields in C4 as (E1 & E2 & _).
  split; [exact G4|]. split; congruence.
Qed.

(** What one callback does to the steering fields. *)
Lemma handle_guidance now e s s' :
  raf_inv s -> handle env now e s = Some s' ->
  match e with
  | PointerMove cx cy l t =>
      mouse s' = Vec.mk (cx - l) (cy - t) /\ lastMouse s' = lastMouse s
      /\ missile s' = missile s /\ firstClickHandled s' = firstClickHandled s
  | Click _ _ _ _ =>
      mouse s' = mouse s /\ lastMouse s' = lastMouse s /\ missile s' = missile s
      /\ firstClickHandled s' = true
  | Frame _ => guidance s' = guidance (missileFollow s)
  | _ => guidance s' = guidance s
  end.
Proof.
  intros RI. unfold handle.
  destruct (Qle_bool (clock s) now) eqn:C; cbn [negb]; [|discriminate].
  assert (G : guidance (set_clock now s) = guidance s) by reflexivity.
  assert (C1 : clock (set_clock now s) = now) by reflexivity.
  assert (R1 : raf (set_clock now s) <> RafNone -> running (set_clock now s) = true)
    by exact RI.
  assert (F1 : guidance (missileFollow (set_clock now s)) = guidance (missileFollow s)).
  { unfold missileFollow, guidance. state_simpl. case_if; reflexivity. }
  set (s1 := set_clock now s) in *. clearbody s1. intros H.
  destruct e.
  - destruct (listening s1); [|discriminate]. injection H as <-.
    apply (f_equal (fun g => (snd (fst (fst g)), snd (fst g), snd g))) in G.
    cbn [guidance fst snd] in G. injection G as G1 G2 G3. rewrite <- G1, <- G2, <- G3.
    clear. open_state s1. unfold onMouseMove, setTimeout, clearTimeout.
    cbv beta iota zeta. state_simpl.
    destruct (handle_truthy s_stopTimer); [destruct s_stopTimer|];
      state_simpl; destruct s_firstClick; repeat split; reflexivity.
  - destruct (listening s1); [|discriminate]. injection H as <-.
    apply (f_equal (fun g => (fst (fst (fst g)), snd (fst (fst g)), snd (fst g)))) in G.
    cbn [guidance fst snd] in G. injection G as G1 G2 G3. rewrite <- G1, <- G2, <- G3.
    clear. open_state s1. unfold onClick, spawnExplosion. cbv beta iota zeta. state_simpl.
    destruct s_firstClick; repeat split; reflexivity.
  - rewrite <- F1.
    destruct (raf s1) eqn:RF; try discriminate; injection H as <-.
    + rewrite loop_guidance.
      * unfold missileFollow, guidance. state_simpl. case_if; reflexivity.
      * apply R1. discriminate.
      * exact C1.
    + rewrite loop_guidance.
      * unfold missileFollow, guidance. state_simpl. case_if; reflexivity.
      * apply R1. discriminate.
      * exact C1.
  - destruct (find_timer id s1) as [t|]; [|discriminate].
    destruct (Qle_bool (Timer.fireAt t) now); [|discriminate].
    injection H as <-. rewrite <- G. clear.
    open_state s1. unfold runTimer, clearTimeout, spawnExplosion, spawnBomber.
    destruct (Timer.action t); state_simpl; [reflexivity| |reflexivity].
    destruct s_running; reflexivity.
  - destruct (listening s1); [|discriminate]. injection H as <-. rewrite <- G. reflexivity.
  - destruct (listening s1); [|discriminate]. injection H as <-. rewrite <- G. clear.
    open_state s1. unfold cleanup, clearTimeout. cbv beta iota zeta. state_simpl.
    destruct (handle_truthy s_stopTimer); [destruct s_stopTimer|]; reflexivity.
Qed.

Lemma reachable_step now e s s' :
  reachable env s -> handle env now e s = Some s' -> reachable env s'.
Proof.
  intros (w & h & t0 & es & R) H. exists w, h, t0, (es ++ [(now, e)]).
  revert R. generalize (init w h t0). induction es as [|[n1 e1] es IH]; intros s0 R.
  - injection R as ->. cbn [app run]. rewrite H. reflexivity.
  - cbn [app run] in *. destruct (handle env n1 e1 s0); [|discriminate].
    apply IH, R.
Qed.

Lemma reachable_run es s s' :
  reachable env s -> run env es s = Some s' -> reachable env s'.
Proof.
  revert s. induction es as [|[now e] es IH]; intros s R H.
  - injection H as <-. exact R.
  - cbn [run] in H. destruct (handle env now e s) as [s1|] eqn:E; [|discriminate].
    apply (IH s1); [|exact H]. exact (reachable_step now e s s1 R E).
Qed.

Lemma frames_cons now e es :
  frames ((now, e) :: es) = if is_frame e then S (frames es) else frames es.
Proof. unfold frames. cbn [filter snd]. destruct (is_frame e); reflexivity. Qed.

Lemma Qpower_step (q : Q) (n : nat) :
  ~ q == 0 -> q ^ Z.of_nat (S n) == q ^ Z.of_nat n * q.
Proof.
  intros N. rewrite Nat2Z.inj_succ. unfold Z.succ.
  rewrite Qpower_plus by exact N. reflexivity.
Qed.

(** The missile closes in on the pointer: every frame leaves 85 % of its
    distance, in each coordinate. *)
Lemma run_guidance es : forall s s',
  reachable env s -> firstClickHandled s = true ->
  run env es s = Some s' -> no_pointer_move es = true ->
  mouse s' = mouse s /\ firstClickHandled s' = true
  /\ Vec.x (Missile.pos (missile s')) - Vec.x (mouse s)
     == (Vec.x (Missile.pos (missile s)) - Vec.x (mouse s)) * 0.85 ^ Z.of_nat (frames es)
  /\ Vec.y (Missile.pos (missile s')) - Vec.y (mouse s)
     == (Vec.y (Missile.pos (missile s)) - Vec.y (mouse s)) * 0.85 ^ Z.of_nat (frames es).
Proof.
  induction es as [|[now e] es IH]; intros s s' R F H N.
  - injection H as <-. split; [reflexivity|]. split; [exact F|].
    change (0.85 ^ Z.of_nat (frames [])) with 1. split; ring.
  - cbn [run] in H. destruct (handle env now e s) as [s1|] eqn:E; [|discriminate].
    cbn [no_pointer_move forallb snd] in N. apply andb_true_iff in N as [N1 N2].
    pose proof (reachable_step now e s s1 R E) as R1.
    pose proof (handle_guidance now e s s1 (raf_inv_holds env s R) E) as G.
    pose proof (missile_inv_holds env s R) as [_ SP].
    assert (X : mouse s1 = mouse s /\ firstClickHandled s1 = true
                /\ Vec.x (Missile.pos (missile s1)) - Vec.x (mouse s)
                   == (Vec.x (Missile.pos (missile s)) - Vec.x (mouse s))
                      * (if is_frame e then 0.85 else 1)
                /\ Vec.y (Missile.pos (missile s1)) - Vec.y (mouse s)
                   == (Vec.y (Missile.pos (missile s)) - Vec.y (mouse s))
                      * (if is_frame e then 0.85 else 1)).
    { destruct e; cbn [is_pointer_move negb] in N1; try discriminate; cbn [is_frame].
      - destruct G as (G1 & _ & G3 & G4). rewrite G1, G3.
        split; [reflexivity|]. split; [exact G4|]. split; ring.
      - apply (f_equal (fun g => (fst (fst (fst g)), snd (fst g), snd g))) in G.
        unfold guidance, missileFollow in G. rewrite F in G. cbv zeta in G.
        state_simpl_in G. cbn [fst snd] in G. injection G as G1 G3 G4.
        rewrite G1, G3. split; [reflexivity|]. split; [congruence|].
        cbn [Missile.pos Vec.x Vec.y]. rewrite SP. split; ring.
      - apply (f_equal (fun g => (fst (fst (fst g)), snd (fst g), snd g))) in G.
        cbn [guidance fst snd] in G. injection G as G1 G3 G4.
        rewrite G1, G3, G4. split; [reflexivity|]. split; [exact F|]. split; ring.
      - apply (f_equal (fun g => (fst (fst (fst g)), snd (fst g), snd g))) in G.
        cbn [guidance fst snd] in G. injection G as G1 G3 G4.
        rewrite G1, G3, G4. split; [reflexivity|]. split; [exact F|]. split; ring.
      - apply (f_equal (fun g => (fst (fst (fst g)), snd (fst g), snd g))) in G.
        cbn [guidance fst snd] in G. injection G as G1 G3 G4.
        rewrite G1, G3, G4. split; [reflexivity|]. split; [exact F|]. split; ring. }
    destruct X as (M1 & F1 & PX & PY).
    destruct (IH s1 s' R1 F1 H N2) as (M2 & F2 & QX & QY).
    rewrite M1 in M2, QX, QY.
    split; [exact M2|]. split; [exact F2|].
    rewrite frames_cons.
    destruct (is_frame e).
    + rewrite (Qpower_step 0.85) by (intros X; discriminate X).
      set (p := 0.85 ^ Z.of_nat (frames es)) in *. clearbody p.
      split.
      * rewrite QX, PX. ring.
      * rewrite QY, PY. ring.
    + set (p := 0.85 ^ Z.of_nat (frames es)) in *. clearbody p.
      split.
      * rewrite QX, PX. ring.
      * rewrite QY, PY. ring.
Qed.

End Guidance.

(** ** After the unmount *)

Lemma frozen_refl s : frozen s s.
Proof. reflexivity. Qed.

Lemma frozen_trans a b c : frozen a b -> frozen b c -> frozen a c.
Proof. unfold frozen. congruence. Qed.

Lemma pending_drop_sub a id ts :
  pending a ts = [] -> pending a (drop_timer id ts) = [].
Proof.
  intros H. apply pending_none. intros t Ht A.
  apply drop_timer_In in Ht as [Ht _].
  assert (X : In t (pending a ts)) by (apply pending_In; auto).
  rewrite H in X. exact X.
Qed.

Section Unmounted.

Variable env : Env.

Lemma reachable_state_inv s : reachable env s -> state_inv s.
Proof.
  intros (w & h & t0 & es & R). exact (run_inv env es _ _ R (init_inv w h t0)).
Qed.

Lemma state_inv_tick now s : state_inv s -> state_inv (set_clock now s).
Proof. apply control_inv_ext; reflexivity. Qed.

Lemma unmount_inv now s s' :
  handle env now Unmount s = Some s' ->
  clock s <= now /\ listening s = true /\ s' = cleanup (set_clock now s).
Proof.
  unfold handle. destruct (Qle_bool (clock s) now) eqn:C; cbn [negb]; [|discriminate].
  apply Qle_bool_iff in C.
  change (listening (set_clock now s)) with (listening s).
  destruct (listening s); [|discriminate]. intros [= <-]. auto.
Qed.

Lemma cleanup_unmounted s : state_inv s -> unmounted (cleanup s).
Proof.
  intros [T _].
  destruct (clear_stop_spec (control s) T) as (_ & NoS & _).
  pose proof (cleanup_control s) as E.
  split; [|split; [|split]].
  - exact (f_equal c_running E).
  - exact (f_equal c_listening E).
  - open_state s. unfold cleanup, clearTimeout. cbv beta iota zeta. state_simpl.
    destruct (handle_truthy s_stopTimer); [destruct s_stopTimer|]; reflexivity.
  - apply (f_equal c_timers) in E. cbn [control c_timers] in E. rewrite E.
    exact NoS.
Qed.

(** Once unmounted, only timer callbacks run, and they change nothing but
    the timer table and the count of reloads. *)
Lemma unmounted_step now e s s' :
  unmounted s -> handle env now e s = Some s' ->
  unmounted s' /\ frozen s s' /\ exists id, e = TimerFires id.
Proof.
  intros (R & L & F & P). unfold handle.
  destruct (Qle_bool (clock s) now); cbn [negb]; [|discriminate].
  change (listening (set_clock now s)) with (listening s).
  change (raf (set_clock now s)) with (raf s).
  change (find_timer ?i (set_clock now s)) with (find_timer i s).
  rewrite L, F. destruct e; try discriminate.
  destruct (find_timer id s) as [t|] eqn:Ft; [|discriminate].
  destruct (Qle_bool (Timer.fireAt t) now); [|discriminate].
  intros [= <-].
  assert (A : Timer.action t <> SettleDetonation).
  { intros A. unfold find_timer in Ft. apply find_some in Ft as [Ft _].
    assert (X : In t (pending SettleDetonation (timers s))) by (apply pending_In; auto).
    rewrite P in X. exact X. }
  assert (P' : pending SettleDetonation (drop_timer id (timers s)) = [])
    by (apply pending_drop_sub, P).
  split; [|split; [|exists id; reflexivity]].
  - revert P'. clear - R L F A. open_state s. cbn [running listening raf timers] in *.
    unfold unmounted, runTimer, clearTimeout, drop_timer. state_simpl.
    destruct (Timer.action t); [congruence| |]; state_simpl.
    + rewrite R. state_simpl. auto.
    + auto.
  - clear - R A. open_state s. cbn [running] in R. subst.
    unfold frozen, game, runTimer, clearTimeout. state_simpl.
    destruct (Timer.action t); [congruence| |]; reflexivity.
Qed.

Lemma unmounted_run es s s' :
  unmounted s -> run env es s = Some s' ->
  unmounted s' /\ frozen s s'
  /\ Forall (fun ne => exists id, snd ne = TimerFires id) es.
Proof.
  revert s. induction es as [|[now e] es IH]; intros s U H.
  - injection H as <-. split; [exact U|]. split; [apply frozen_refl|constructor].
  - cbn [run] in H. destruct (handle env now e s) as [s1|] eqn:E; [|discriminate].
    destruct (unmounted_step now e s s1 U E) as (U1 & F1 & X).
    destruct (IH s1 U1 H) as (U2 & F2 & Y).
    split; [exact U2|]. split; [exact (frozen_trans _ _ _ F1 F2)|].
    constructor; [exact X|exact Y].
Qed.

(** The unmount leaves the reload callback in the timer table. *)
Lemma cleanup_keeps_reload s t :
  state_inv s -> In t (timers s) -> Timer.action t = ReloadPage -> In t (timers (cleanup s)).
Proof.
  intros [T _] Ht A.
  destruct (clear_stop_spec (control s) T) as (_ & _ & Oth & _).
  pose proof (f_equal c_timers (cleanup_control s)) as E.
  cbn [control c_timers] in E. rewrite E.
  change (c_timers (c_cleanup (control s))) with (c_timers (c_clear_stop (control s))).
  apply (pending_In ReloadPage). rewrite Oth by discriminate.
  apply pending_In. auto.
Qed.

End Unmounted.

(** ** Frame timestamps *)

Lemma agePopups_aged dt ps :
  0 <= dt -> Forall (fun p => 0 <= Popup.life p) ps ->
  Forall (fun p => 0 <= Popup.life p) (agePopups dt ps).
Proof.
  intros D. induction 1 as [|p ps Hp Hps IH]; cbn [agePopups]; [constructor|].
  case_if; [exact IH|]. constructor; [|exact IH].
  cbn [agePopup Popup.life]. lra.
Qed.

Section Steady.

Variable env : Env.

Lemma loop_lastTime time now s :
  running s = true -> clock s = now -> lastTime (loop env time now s) = time.
Proof.
  intros R C. rewrite loop_running by exact R.
  set (dt := time - lastTime s).
  change (lasted time (finish env dt now (update env dt now (drawBackground (set_lastTime time s))))).
  apply (finish_keeps env (lasted time) (fun _ => True));
    try (kept; fail); try exact Logic.I.
  apply (update_keeps env (lasted time) (fun _ => True));
    try (kept; fail); try exact Logic.I.
  split; [reflexivity|]. split; assumption.
Qed.

(** What a callback does to [lastTime] and to the registered frame
    callback. *)
Lemma handle_lastTime now e s s' :
  raf_inv s -> handle env now e s = Some s' ->
  match e with
  | Frame time => raf s <> RafNone /\ lastTime s' = time
  | _ => lastTime s' = lastTime s /\ (raf s' = raf s \/ raf s' = RafNone)
  end.
Proof.
  intros RI. unfold handle.
  destruct (Qle_bool (clock s) now) eqn:C; cbn [negb]; [|discriminate].
  assert (L1 : lastTime (set_clock now s) = lastTime s) by reflexivity.
  assert (F1 : raf (set_clock now s) = raf s) by reflexivity.
  assert (C1 : clock (set_clock now s) = now) by reflexivity.
  assert (R1 : running (set_clock now s) = running s) by reflexivity.
  set (s1 := set_clock now s) in *. clearbody s1. intros H.
  destruct e.
  - destruct (listening s1); [|discriminate]. injection H as <-.
    rewrite <- L1, <- F1. clear. open_state s1. unfold onMouseMove, setTimeout, clearTimeout.
    cbv beta iota zeta. state_simpl.
    destruct (handle_truthy s_stopTimer); [destruct s_stopTimer|];
      state_simpl; destruct s_firstClick; auto.
  - destruct (listening s1); [|discriminate]. injection H as <-.
    rewrite <- L1, <- F1. clear. open_state s1. unfold onClick, spawnExplosion.
    cbv beta iota zeta. state_simpl. destruct s_firstClick; auto.
  - rewrite <- F1.
    destruct (raf s1) eqn:RF; try discriminate; injection H as <-.
    + split; [discriminate|]. apply loop_lastTime; [|exact C1].
      change (running s1 = true). rewrite R1. apply RI. rewrite <- F1. discriminate.
    + split; [discriminate|]. apply loop_lastTime; [|exact C1].
      change (running s1 = true). rewrite R1. apply RI. rewrite <- F1. discriminate.
  - destruct (find_timer id s1) as [t|]; [|discriminate].
    destruct (Qle_bool (Timer.fireAt t) now); [|discriminate].
    injection H as <-. rewrite <- L1, <- F1. clear.
    open_state s1. unfold runTimer, clearTimeout, spawnExplosion, spawnBomber.
    destruct (Timer.action t); state_simpl; auto.
    destruct s_running; auto.
  - destruct (listening s1); [|discriminate]. injection H as <-.
    rewrite <- L1, <- F1. auto.
  - destruct (listening s1); [|discriminate]. injection H as <-.
    rewrite <- L1. clear. open_state s1. unfold cleanup, clearTimeout.
    cbv beta iota zeta. state_simpl.
    destruct (handle_truthy s_stopTimer); [destruct s_stopTimer|]; auto.
Qed.

(** Timestamps that never go back give non-negative intervals. *)
Lemma sorted_steady es : forall s,
  reachable env s ->
  (raf s = RafLoop -> Forall (Qle (lastTime s)) (frame_times es)) ->
  StronglySorted Qle (frame_times es) ->
  steady env es s.
Proof.
  unfold steady.
  induction es as [|[now e] es IH]; intros s R L S; cbn [timed]; [exact Logic.I|].
  destruct (handle env now e s) as [s1|] eqn:E; [|exact Logic.I].
  pose proof (handle_lastTime now e s s1 (raf_inv_holds env s R) E) as HL.
  pose proof (reachable_step env now e s s1 R E) as R1.
  assert (X : timely (fun dt => 0 <= dt) e s
              /\ (raf s1 = RafLoop -> Forall (Qle (lastTime s1)) (frame_times es))
              /\ StronglySorted Qle (frame_times es)).
  { assert (NF : forall t1 t2,
               lastTime s1 = lastTime s /\ (raf s1 = raf s \/ raf s1 = RafNone) ->
               (raf s = RafLoop -> Forall (Qle (lastTime s)) t1) ->
               StronglySorted Qle t2 ->
               True /\ (raf s1 = RafLoop -> Forall (Qle (lastTime s1)) t1)
               /\ StronglySorted Qle t2).
    { intros t1 t2 [HL1 HL2] L0 S0. split; [exact Logic.I|]. split; [|exact S0].
      intros X. rewrite HL1. apply L0. destruct HL2; congruence. }
    destruct e; cbn [frame_times timely] in *; try (apply NF; assumption).
    destruct HL as [HL1 HL2].
    apply StronglySorted_inv in S as [S1 S2].
    split; [|split; [|exact S1]].
    - unfold frame_dt. destruct (raf s) eqn:RF; cbv beta iota; try congruence.
      + clear. lra.
      + specialize (L eq_refl). apply Forall_inv in L. lra.
    - intros _. rewrite HL2. exact S2. }
  destruct X as (X1 & X2 & X3). split; [exact X1|]. apply IH; assumption.
Qed.

Lemma pulse_inv_run es s s' :
  run env es s = Some s' -> steady env es s -> pulse_inv s -> pulse_inv s'.
Proof.
  intros R S. apply (run_keeps env pulse_inv (fun dt => 0 <= dt)) with (es := es);
    try (kept; fail); try exact R; try exact S.
  - intros dt s0 D (H1 & H2). unfold decayFeedback. split.
    + cbn [scorePulse set_popups set_scorePulse].
      assert (X : 0 <= dt / 400) by (apply Qle_shift_div_l; [reflexivity|lra]).
      apply Q.max_lub; lra.
    + cbn [popups set_popups]. apply agePopups_aged; assumption.
  - intros s0 (H1 & H2) _ _. unfold scoreHit, setTimeout, spawnExplosion. cbv zeta. split.
    + cbn. lra.
    + cbn [popups snd set_nextTimerId set_timers set_bomber set_explosions set_popups].
      apply Forall_app. split; [exact H2|]. constructor; [cbn; lra|constructor].
Qed.

End Steady.

(** ** The frame, unfolded *)

Section Unfolded.

Variable env : Env.

(** A frame that the browser runs moves the actors, checks the collisions
    and paints, in this order. *)
Lemma frame_unfolded now time s s' :
  raf_inv s -> handle env now (Frame time) s = Some s' ->
  exists s0 dt,
    s' = finish env dt now
           (collisions env now 0
              (decayFeedback dt
                 (bomberBehavior dt (moveBoy dt (spawnActors now (missileFollow s0))))))
    /\ boy s0 = boy s /\ bomber s0 = bomber s /\ startTime s0 = startTime s
    /\ width s0 = width s /\ height s0 = height s
    /\ dt = frame_dt time s.
Proof.
  intros RI. unfold handle.
  destruct (Qle_bool (clock s) now) eqn:C; cbn [negb]; [|discriminate].
  change (raf (set_clock now s)) with (raf s).
  destruct (raf s) eqn:RF; try discriminate; intros [= <-].
  - exists (entered time (set_lastTime time (set_raf RafNone (set_clock now s)))), (time - time).
    split; [|unfold frame_dt; rewrite RF; repeat split; reflexivity].
    rewrite loop_running by (apply RI; congruence). reflexivity.
  - exists (entered time (set_raf RafNone (set_clock now s))), (time - lastTime s).
    split; [|unfold frame_dt; rewrite RF; repeat split; reflexivity].
    rewrite loop_running by (apply RI; congruence). reflexivity.
Qed.

End Unfolded.

(** ** The earthquake *)

Section Quake.

Variable env : Env.

Lemma quaking_run es s s' : run env es s = Some s' -> quaking s -> quaking s'.
Proof.
  intros R. apply (run_keeps_always env quaking) with (es := es);
    try (kept; fail); try exact R.
  intros s0 _ _ _. rewrite triggerEarthquake_skyline. unfold quaked, quaking. cbv zeta.
  case_if; reflexivity.
Qed.

Lemma skyline_nth s i b :
  nth_error (skyline env s) i = Some b ->
  (i < Z.to_nat (columns s))%nat
  /\ b = building env (width s) (groundY s) (columns s) (randomCalls s + 7 * i) i.
Proof.
  unfold skyline. intros H.
  assert (L : (i < Z.to_nat (columns s))%nat).
  { rewrite <- (skyline_length env s). apply nth_error_Some. unfold skyline. congruence. }
  split; [exact L|].
  rewrite nth_error_map in H.
  rewrite nth_error_seq in H.
  apply Nat.ltb_lt in L. rewrite L in H. cbn [option_map] in H.
  rewrite Nat.add_0_l in H. congruence.
Qed.

End Quake.

(** ** The canvas *)

Lemma drawParticles_loop_paints dt ps :
  ~ In PIntro (snd (drawParticles_loop dt ps)).
Proof.
  induction ps as [|p ps IH]; cbn [drawParticles_loop]; [intros []|].
  destruct (drawParticles_loop dt ps) as [rest paints]. cbn [snd] in *.
  intros H. apply in_app_or in H as [H|[H|[]]]; [exact (IH H)|discriminate].
Qed.

Lemma no_intro_paint p s : p <> PIntro -> no_intro s -> no_intro (paint p s).
Proof.
  intros N H X. unfold paint in X. cbn [canvas set_canvas] in X.
  apply in_app_or in X as [X|[X|[]]]; [exact (H X)|congruence].
Qed.

Section Canvas.

Variable env : Env.

(** [update] paints nothing. *)
Lemma update_canvas dt now s :
  running s = true -> clock s = now -> canvas (update env dt now s) = canvas s.
Proof.
  intros R C.
  change (painted (canvas s) (update env dt now s)).
  apply (update_keeps env (painted (canvas s)) (fun _ => True));
    try (kept; fail); try exact Logic.I.
  split; [reflexivity|]. split; assumption.
Qed.

(** The paint calls of a frame hold the intro text exactly when no click
    was handled. *)
Lemma finish_intro dt now u :
  no_intro u ->
  (In PIntro (canvas (finish env dt now u)) <-> firstClickHandled u = false).
Proof.
  intros N0. unfold finish. cbv zeta.
  assert (N1 : no_intro (drawExplosions now u)).
  { intros X. unfold drawExplosions in X. cbv zeta in X. cbn [canvas set_canvas] in X.
    apply in_app_or in X as [X|X]; [exact (N0 X)|].
    apply in_map_iff in X as (e & E & _). discriminate. }
  assert (C1 : control (drawExplosions now u) = control u) by apply drawExplosions_control.
  set (s1 := drawExplosions now u) in *. clearbody s1.
  assert (N2 : no_intro (drawMissile env s1)).
  { unfold drawMissile. case_if; [exact N1|]. cbv zeta.
    apply no_intro_paint; [discriminate|]. exact N1. }
  assert (C2 : control (drawMissile env s1) = control u)
    by (rewrite drawMissile_control; exact C1).
  set (s2 := drawMissile env s1) in *. clearbody s2.
  assert (N3 : no_intro (drawParticles dt s2)).
  { unfold drawParticles.
    pose proof (drawParticles_loop_paints dt (particles s2)) as P.
    destruct (drawParticles_loop dt (particles s2)) as [ps paints]. cbn [snd] in P.
    intros X. cbn [canvas set_canvas set_particles] in X.
    apply in_app_or in X as [X|X]; [exact (N2 X)|exact (P X)]. }
  assert (C3 : control (drawParticles dt s2) = control u)
    by (rewrite drawParticles_control; exact C2).
  set (s3 := drawParticles dt s2) in *. clearbody s3.
  assert (N4 : no_intro (drawBoy dt s3)).
  { unfold drawBoy. case_if; [exact N3|]. cbv zeta.
    apply no_intro_paint; [discriminate|]. exact N3. }
  assert (C4 : control (drawBoy dt s3) = control u)
    by (rewrite drawBoy_control; exact C3).
  set (s4 := drawBoy dt s3) in *. clearbody s4.
  assert (N5 : no_intro (drawBomber dt s4)).
  { unfold drawBomber. case_if; [exact N4|]. cbv zeta.
    apply no_intro_paint; [discriminate|]. exact N4. }
  assert (C5 : control (drawBomber dt s4) = control u)
    by (rewrite drawBomber_control; exact C4).
  set (s5 := drawBomber dt s4) in *. clearbody s5.
  assert (N6 : no_intro (cleanupExplosions now (drawScore (drawPopups s5)))).
  { unfold cleanupExplosions.
    assert (X : no_intro (drawScore (drawPopups s5))).
    { apply no_intro_paint; [discriminate|]. apply no_intro_paint; [discriminate|exact N5]. }
    exact X. }
  assert (C6 : control (cleanupExplosions now (drawScore (drawPopups s5))) = control u)
    by exact C5.
  set (s6 := cleanupExplosions now _) in *. clearbody s6.
  assert (N7 : no_intro (if quakeActive s6 then drawEarthquake env dt s6 else s6)).
  { case_if; [|exact N6]. unfold drawEarthquake, Math_random. cbv zeta.
    apply no_intro_paint; [discriminate|]. exact N6. }
  assert (C7 : control (if quakeActive s6 then drawEarthquake env dt s6 else s6) = control u).
  { case_if; [rewrite drawEarthquake_control|]; exact C6. }
  set (s7 := if quakeActive s6 then _ else _) in *. clearbody s7.
  apply control_fields in C7 as (_ & _ & F & _). rewrite <- F.
  destruct (firstClickHandled s7); cbn [negb canvas set_raf].
  - split; [intros X; exfalso; exact (N7 X)|discriminate].
  - split; [reflexivity|]. intros _. unfold paint. cbn [canvas set_canvas].
    apply in_or_app. right. left. reflexivity.
Qed.

Lemma loop_intro time now s :
  running s = true -> clock s = now ->
  (In PIntro (canvas (loop env time now s)) <-> firstClickHandled s = false).
Proof.
  intros R C. rewrite loop_running by exact R.
  set (dt := time - lastTime s).
  assert (U : canvas (update env dt now (drawBackground (set_lastTime time s)))
              = [PBackground]).
  { rewrite update_canvas; [reflexivity|exact R|exact C]. }
  assert (F : firstClickHandled (update env dt now (drawBackground (set_lastTime time s)))
              = firstClickHandled s).
  { change (clicked (firstClickHandled s)
              (update env dt now (drawBackground (set_lastTime time s)))).
    apply (update_keeps env (clicked (firstClickHandled s)) (fun _ => True));
      try (kept; fail); try exact Logic.I.
    split; [reflexivity|]. split; assumption. }
  rewrite <- F. apply finish_intro.
  unfold no_intro. rewrite U. intros [X|[]]. discriminate.
Qed.

End Canvas.

(** * Further properties of the program *)

(** ** Before the first click and before the actors appear *)

(** X1.  Until the first click nothing happens: in every state a run
    reaches with [firstClickHandled] still false there is no explosion, no
    exhaust particle and no pending timer, the score is 0, no popup is
    shown, no earthquake runs, the page was not reloaded, [Math.random ()]
    was never called, and the missile is where the effect put it (pointer
    moves do not steer it yet, and arm no settle detonation). *)
Theorem nothing_before_first_click
  (env : Env) (w h t0 : Q) (es : list (Q * Event)) (s : State) :
  run env es (init w h t0) = Some s ->
  firstClickHandled s = false ->
  explosions s = [] /\ particles s = [] /\ timers s = [] /\ stopTimer s = None
  /\ score s = 0%Z /\ popups s = [] /\ quakeActive s = false /\ reloads s = 0%nat
  /\ randomCalls s = 0%nat /\ missile s = missile (init w h t0).
Proof.
  intros R F.
  destruct (preclick_inv_holds env w h t0 s (ex_intro _ es R) F)
    as (A1 & A2 & A3 & A4 & A5 & A6 & A7 & _ & _ & A10 & A11 & A12 & _).
  repeat split; assumption.
Qed.

Lemma nothing_before_first_click_witness :
  exists s,
    run calm idle_run (init 800 600 0) = Some s
    /\ explosions s = [] /\ particles s = [] /\ timers s = [] /\ stopTimer s = None
    /\ score s = 0%Z /\ popups s = [] /\ quakeActive s = false /\ reloads s = 0%nat
    /\ randomCalls s = 0%nat /\ missile s = missile (init 800 600 0).
Proof.
  eexists. split.
  - vm_compute. reflexivity.
  - apply (nothing_before_first_click calm 800 600 0 idle_run).
    + vm_compute. reflexivity.
    + reflexivity.
Defined.

(** X2.  During the first 30 s of a session (measured by
    [performance.now ()] against [startTime]) the Runner and the bomber are
    not alive, so the score is 0, no popup and no building exists, no
    earthquake runs, the page was not reloaded, and the only timers that can
    be pending are settle detonations. *)
Theorem first_thirty_seconds_are_quiet
  (env : Env) (w h t0 : Q) (es : list (Q * Event)) (s : State) :
  run env es (init w h t0) = Some s ->
  clock s - t0 <= 30000 ->
  Actor.alive (boy s) = false /\ Actor.alive (bomber s) = false
  /\ score s = 0%Z /\ popups s = [] /\ quakeActive s = false /\ buildings s = []
  /\ reloads s = 0%nat
  /\ Forall (fun t => Timer.action t = SettleDetonation) (timers s).
Proof.
  intros R C.
  assert (RS : reachable env s) by (exists w, h, t0, es; exact R).
  pose proof (startTime_holds env t0 s (ex_intro _ w (ex_intro _ h (ex_intro _ es R)))) as ST.
  destruct (timing_inv_holds env s RS) as (H & _).
  destruct H as (A1 & A2 & A3 & A4 & A5 & A6 & A7 & A8 & A9).
  - unfold early. rewrite ST. exact C.
  - repeat split; assumption.
Qed.

Lemma first_thirty_seconds_are_quiet_witness :
  exists s,
    run calm armed_run (init 800 600 0) = Some s
    /\ Actor.alive (boy s) = false /\ Actor.alive (bomber s) = false
    /\ score s = 0%Z /\ popups s = [] /\ quakeActive s = false /\ buildings s = []
    /\ reloads s = 0%nat
    /\ Forall (fun t => Timer.action t = SettleDetonation) (timers s).
Proof.
  eexists. split.
  - vm_compute. reflexivity.
  - apply (first_thirty_seconds_are_quiet calm 800 600 0 armed_run).
    + vm_compute. reflexivity.
    + vm_compute. discriminate.
Defined.

(** X3.  The page is never reloaded during the first 32.5 s of a session:
    a reload callback is scheduled only by a hit on the Runner, who is not
    there before 30 s, and runs 2500 ms later at the earliest. *)
Theorem no_reload_in_the_first_32500_ms
  (env : Env) (w h t0 : Q) (es : list (Q * Event)) (s : State) :
  run env es (init w h t0) = Some s ->
  (reloads s <> 0%nat -> t0 + 32500 < clock s)
  /\ (forall t, In t (timers s) -> Timer.action t = ReloadPage -> t0 + 32500 < Timer.fireAt t).
Proof.
  intros R.
  assert (RS : reachable env s) by (exists w, h, t0, es; exact R).
  pose proof (startTime_holds env t0 s (ex_intro _ w (ex_intro _ h (ex_intro _ es R)))) as ST.
  destruct (timing_inv_holds env s RS) as (_ & H2 & H3). rewrite ST in *.
  split; [exact H3|]. rewrite Forall_forall in H2. exact H2.
Qed.

Lemma no_reload_in_the_first_32500_ms_witness :
  exists s,
    run calm crash_run (init 800 600 0) = Some s
    /\ reloads s = 1%nat /\ 0 + 32500 < clock s.
Proof.
  eexists. split; [vm_compute; reflexivity|]. split; [reflexivity|].
  apply (no_reload_in_the_first_32500_ms calm 800 600 0 crash_run).
  - vm_compute. reflexivity.
  - discriminate.
Defined.

(** ** The explosions and the feedback *)

(** X5.  Every explosion of the array is live (the [if (!ex.alive)
    continue] of the collision loop never skips one), has full radius 140
    and lifetime 1200 ms, a collision radius between 0 and 140, and was
    created no later than the last callback. *)
Theorem explosions_live_and_bounded
  (env : Env) (w h t0 : Q) (es : list (Q * Event)) (s : State) :
  run env es (init w h t0) = Some s ->
  Forall
    (fun e =>
       Explosion.alive e = true /\ Explosion.maxR e = 140 /\ Explosion.lifeMs e = 1200
       /\ 0 <= Explosion.r e /\ Explosion.r e <= 140
       /\ Explosion.createdAt e <= clock s)
    (explosions s).
Proof.
  intros R. apply (explosions_inv_holds env s). exists w, h, t0, es. exact R.
Qed.

Lemma explosions_live_and_bounded_witness :
  exists s,
    run calm flyer_run (init 800 600 0) = Some s
    /\ length (explosions s) = 2%nat
    /\ Forall
         (fun e =>
            Explosion.alive e = true /\ Explosion.maxR e = 140 /\ Explosion.lifeMs e = 1200
            /\ 0 <= Explosion.r e /\ Explosion.r e <= 140
            /\ Explosion.createdAt e <= clock s)
         (explosions s).
Proof.
  eexists. split; [vm_compute; reflexivity|]. split; [reflexivity|].
  apply (explosions_live_and_bounded calm 800 600 0 flyer_run).
  vm_compute. reflexivity.
Defined.

(** X6.  The score pulse is never negative; every popup of the array is a
    [+1] with a life of 900 ms that it has not reached (the popup loop
    removes it in the update where it would); and there are never more
    popups than points scored. *)
Theorem feedback_stays_in_range
  (env : Env) (w h t0 : Q) (es : list (Q * Event)) (s : State) :
  run env es (init w h t0) = Some s ->
  0 <= scorePulse s
  /\ Forall
       (fun p =>
          Popup.text p = "+1"%string /\ Popup.maxLife p = 900
          /\ Popup.life p < Popup.maxLife p)
       (popups s)
  /\ (Z.of_nat (length (popups s)) <= score s)%Z.
Proof.
  intros R. apply (feedback_inv_holds env s). exists w, h, t0, es. exact R.
Qed.

Lemma feedback_stays_in_range_witness :
  exists s,
    run calm flyer_run (init 800 600 0) = Some s
    /\ score s = 1%Z /\ length (popups s) = 1%nat
    /\ 0 <= scorePulse s
    /\ Forall
         (fun p =>
            Popup.text p = "+1"%string /\ Popup.maxLife p = 900
            /\ Popup.life p < Popup.maxLife p)
         (popups s)
    /\ (Z.of_nat (length (popups s)) <= score s)%Z.
Proof.
  eexists. split; [vm_compute; reflexivity|]. split; [reflexivity|]. split; [reflexivity|].
  apply (feedback_stays_in_range calm 800 600 0 flyer_run).
  vm_compute. reflexivity.
Defined.

(** X7.  When the timestamps that the browser passes to the frames never
    go back, the score is painted at a scale between 1 and 1.35 with a
    shadow blur between 0 and 8, and every popup is painted with an opacity
    above 0 and at most 1: no popup is painted invisible. *)
Theorem feedback_is_painted_in_range
  (env : Env) (w h t0 : Q) (es : list (Q * Event)) (s : State) :
  run env es (init w h t0) = Some s ->
  StronglySorted Qle (frame_times es) ->
  scorePulse s <= 1
  /\ 1 <= scoreScale s /\ scoreScale s <= 1.35
  /\ 0 <= scoreBlur s /\ scoreBlur s <= 8
  /\ Forall (fun p => 0 < popupAlpha p /\ popupAlpha p <= 1) (popups s).
Proof.
  intros R S.
  assert (R0 : reachable env (init w h t0)) by (exists w, h, t0, []; reflexivity).
  assert (RS : reachable env s) by (exists w, h, t0, es; exact R).
  assert (ST : steady env es (init w h t0)).
  { apply sorted_steady; [exact R0|discriminate|exact S]. }
  assert (P0 : pulse_inv (init w h t0)).
  { split; [cbn; lra|constructor]. }
  destruct (pulse_inv_run env es _ _ R ST P0) as (P1 & P2).
  destruct (feedback_inv_holds env s RS) as (F1 & F2 & _).
  unfold scoreScale, scoreBlur.
  repeat split; try lra.
  rewrite Forall_forall in *. intros p Hp.
  destruct (F2 p Hp) as (_ & M & L). specialize (P2 p Hp). cbv beta in P2.
  unfold popupAlpha. rewrite M in *.
  assert (X1 : 0 <= Popup.life p / 900) by (apply Qle_shift_div_l; [reflexivity|lra]).
  assert (X2 : Popup.life p / 900 < 1) by (apply Qlt_shift_div_r; [reflexivity|lra]).
  split.
  - apply Q.max_lt_iff. right. lra.
  - apply Q.max_lub; lra.
Qed.

Lemma feedback_is_painted_in_range_witness :
  exists s,
    run calm flyer_run (init 800 600 0) = Some s
    /\ scorePulse s <= 1
    /\ 1 <= scoreScale s /\ scoreScale s <= 1.35
    /\ 0 <= scoreBlur s /\ scoreBlur s <= 8
    /\ Forall (fun p => 0 < popupAlpha p /\ popupAlpha p <= 1) (popups s).
Proof.
  eexists. split; [vm_compute; reflexivity|].
  apply (feedback_is_painted_in_range calm 800 600 0 flyer_run).
  - vm_compute. reflexivity.
  - cbn [flyer_run frame_times].
    repeat (constructor; [|repeat constructor; discriminate]). constructor.
Defined.

(** ** The earthquake and the exhaust *)

(** X8.  The earthquake is on exactly when the reload was queued; until
    then there is no building; once it is on it never ends (no callback
    turns [quakeActive] off), and at least six buildings keep falling. *)
Theorem earthquake_never_ends
  (env : Env) (w h t0 : Q) (es es' : list (Q * Event)) (s s' : State) :
  run env es (init w h t0) = Some s ->
  run env es' s = Some s' ->
  quakeActive s = reloadQueued s
  /\ (quakeActive s = false -> buildings s = [])
  /\ (quakeActive s = true ->
      quakeActive s' = true
      /\ (6 <= length (buildings s))%nat /\ (6 <= length (buildings s'))%nat).
Proof.
  intros R R'.
  assert (RS : reachable env s) by (exists w, h, t0, es; exact R).
  pose proof (reachable_run env es' s s' RS R') as RS'.
  destruct (quake_inv_holds env s RS) as (A1 & A2 & A3).
  destruct (quake_inv_holds env s' RS') as (_ & _ & B3).
  split; [exact A1|]. split; [exact A2|]. intros Q.
  pose proof (quaking_run env es' s s' R' Q) as Q'.
  split; [exact Q'|]. split; [apply A3, Q|apply B3, Q'].
Qed.

Lemma earthquake_never_ends_witness :
  exists s s',
    run calm crash_respawn_run (init 800 600 0) = Some s
    /\ run calm [(30033, Frame 30033); (32600, TimerFires 2); (32616, Frame 32616)] s = Some s'
    /\ quakeActive s = true /\ reloads s' = 1%nat
    /\ quakeActive s' = true
    /\ (6 <= length (buildings s))%nat /\ (6 <= length (buildings s'))%nat.
Proof.
  eexists. eexists.
  match goal with
  | |- ?A /\ ?B /\ _ =>
      assert (HA : A) by (vm_compute; reflexivity);
      assert (HB : B) by (vm_compute; reflexivity)
  end.
  split; [exact HA|]. split; [exact HB|]. split; [reflexivity|]. split; [reflexivity|].
  apply (earthquake_never_ends calm 800 600 0 _ _ _ _ HA HB). reflexivity.
Defined.

(** X9.  [triggerEarthquake] discards the buildings of an earlier crash and
    raises [max (6, ceil (width / 120))] new ones, with seven
    [Math.random ()] calls each: building [i] stands upright on the ground
    line in the middle of column [i] of the viewport, so inside it
    horizontally, and the columns are at most 120 px wide; with
    [Math.random ()] in [0, 1) it is 60 to 120 px wide, 80 to 220 px high
    and starts moving upwards. *)
Theorem earthquake_skyline (env : Env) (now : Q) (s : State) :
  let s' := triggerEarthquake env now s in
  let cols := Z.max 6 (Qceiling (width s / 120)) in
  length (buildings s') = Z.to_nat cols
  /\ randomCalls s' = (randomCalls s + 7 * Z.to_nat cols)%nat
  /\ quakeActive s' = true /\ quakeStart s' = now
  /\ (0 <= width s -> width s / inject_Z cols <= 120)
  /\ forall i b,
      nth_error (buildings s') i = Some b ->
      Building.x b = (inject_Z (Z.of_nat i) + 0.5) * (width s / inject_Z cols)
      /\ Building.y b = groundY s /\ Building.angle b = 0
      /\ (0 < width s -> 0 < Building.x b /\ Building.x b < width s)
      /\ ((forall n, 0 <= random env n /\ random env n < 1) ->
          60 <= Building.w b /\ Building.w b < 120
          /\ 80 <= Building.h b /\ Building.h b < 220
          /\ Building.vy b < 0).
Proof.
  cbv zeta. rewrite triggerEarthquake_skyline.
  fold (columns s).
  assert (E : buildings (quaked now (skyline env s)
                           (randomCalls s + 7 * Z.to_nat (columns s)) s) = skyline env s
              /\ randomCalls (quaked now (skyline env s)
                                (randomCalls s + 7 * Z.to_nat (columns s)) s)
                 = (randomCalls s + 7 * Z.to_nat (columns s))%nat
              /\ quakeActive (quaked now (skyline env s)
                                (randomCalls s + 7 * Z.to_nat (columns s)) s) = true
              /\ quakeStart (quaked now (skyline env s)
                               (randomCalls s + 7 * Z.to_nat (columns s)) s) = now).
  { unfold quaked. cbv zeta. case_if; repeat split; reflexivity. }
  destruct E as (E1 & E2 & E3 & E4). rewrite E1, E2, E3, E4.
  assert (C6 : 6 <= inject_Z (columns s)).
  { change 6 with (inject_Z 6). rewrite <- Zle_Qle. unfold columns. lia. }
  split; [apply skyline_length|]. split; [reflexivity|]. split; [reflexivity|].
  split; [reflexivity|]. split.
  - intros W. apply Qle_shift_div_r; [lra|].
    assert (X : width s / 120 <= inject_Z (columns s)).
    { eapply Qle_trans; [apply Qle_ceiling|]. rewrite <- Zle_Qle. unfold columns. lia. }
    assert (Y : width s == width s / 120 * 120) by (field).
    lra.
  - intros i b Hn. apply skyline_nth in Hn as [Li ->].
    unfold building.
    cbn [Building.x Building.y Building.angle Building.w Building.h Building.vy].
    split; [reflexivity|]. split; [reflexivity|]. split; [reflexivity|]. split.
    + intros W.
      assert (K0 : 0 <= inject_Z (Z.of_nat i)).
      { change 0 with (inject_Z 0). rewrite <- Zle_Qle. lia. }
      assert (K1 : inject_Z (Z.of_nat i) + 1 <= inject_Z (columns s)).
      { change 1 with (inject_Z 1). rewrite <- inject_Z_plus, <- Zle_Qle. lia. }
      assert (U : 0 < width s / inject_Z (columns s)).
      { apply Qlt_shift_div_l; lra. }
      assert (V : width s / inject_Z (columns s) * inject_Z (columns s) == width s).
      { field. lra. }
      set (u := width s / inject_Z (columns s)) in *.
      set (k := inject_Z (Z.of_nat i)) in *. set (c := inject_Z (columns s)) in *.
      split; nra.
    + intros RU.
      destruct (RU (randomCalls s + 7 * i)%nat) as [A1 A2].
      destruct (RU (S (randomCalls s + 7 * i))%nat) as [B1 B2].
      destruct (RU (S (S (S (S (randomCalls s + 7 * i)))))%nat) as [D1 D2].
      repeat split; lra.
Qed.

Lemma earthquake_skyline_witness :
  length (buildings (triggerEarthquake calm 0 (init 800 600 0))) = 7%nat
  /\ randomCalls (triggerEarthquake calm 0 (init 800 600 0)) = 49%nat.
Proof.
  destruct (earthquake_skyline calm 0 (init 800 600 0)) as (A & B & _).
  split; [exact A|exact B].
Defined.

(** X10.  With [Math.random ()] in [0, 1), every exhaust particle of the
    array has a life between 600 and 1000 ms that it has not reached
    ([drawParticles] removes it in the frame where it would) and a size
    between 2 and 4. *)
Theorem exhaust_particles_bounded
  (env : Env) (w h t0 : Q) (es : list (Q * Event)) (s : State) :
  (forall n, 0 <= random env n /\ random env n < 1) ->
  run env es (init w h t0) = Some s ->
  Forall
    (fun p =>
       Particle.life p < Particle.maxLife p
       /\ 600 <= Particle.maxLife p /\ Particle.maxLife p < 1000
       /\ 2 <= Particle.size p /\ Particle.size p < 4)
    (particles s).
Proof.
  intros RU R. apply (particles_inv_holds env RU s). exists w, h, t0, es. exact R.
Qed.

Lemma exhaust_particles_bounded_witness :
  exists s,
    run calm exhaust_run (init 800 600 0) = Some s
    /\ length (particles s) = 2%nat
    /\ Forall
         (fun p =>
            Particle.life p < Particle.maxLife p
            /\ 600 <= Particle.maxLife p /\ Particle.maxLife p < 1000
            /\ 2 <= Particle.size p /\ Particle.size p < 4)
         (particles s).
Proof.
  eexists. split; [vm_compute; reflexivity|]. split; [reflexivity|].
  apply (exhaust_particles_bounded calm 800 600 0 exhaust_run).
  - intros n. change (random calm n) with 0.5. split; lra.
  - vm_compute. reflexivity.
Defined.

(** ** The missile *)

(** X11.  Once the first click was handled the missile closes in on the
    pointer by 15 % of the remaining distance per frame, whatever the frame
    interval: over a run without pointer moves (clicks, timers and resizes
    do not retarget it) the offset to the pointer is, in each coordinate,
    the initial offset times [0.85 ^ n] after [n] frames. *)
Theorem missile_closes_in
  (env : Env) (w h t0 : Q) (es0 es : list (Q * Event)) (s s' : State) :
  run env es0 (init w h t0) = Some s ->
  firstClickHandled s = true ->
  run env es s = Some s' ->
  no_pointer_move es = true ->
  mouse s' = mouse s
  /\ Vec.x (Missile.pos (missile s')) - Vec.x (mouse s)
     == (Vec.x (Missile.pos (missile s)) - Vec.x (mouse s)) * 0.85 ^ Z.of_nat (frames es)
  /\ Vec.y (Missile.pos (missile s')) - Vec.y (mouse s)
     == (Vec.y (Missile.pos (missile s)) - Vec.y (mouse s)) * 0.85 ^ Z.of_nat (frames es).
Proof.
  intros R F R' N.
  assert (RS : reachable env s) by (exists w, h, t0, es0; exact R).
  destruct (run_guidance env es s s' RS F R' N) as (A & _ & B & C). auto.
Qed.

Lemma missile_closes_in_witness :
  exists s s',
    run calm armed_run (init 800 600 0) = Some s
    /\ run calm glide_run s = Some s'
    /\ mouse s' = mouse s
    /\ Vec.x (Missile.pos (missile s')) - Vec.x (mouse s)
       == (Vec.x (Missile.pos (missile s)) - Vec.x (mouse s)) * 0.85 ^ 2.
Proof.
  eexists. eexists.
  match goal with
  | |- ?A /\ ?B /\ _ =>
      assert (HA : A) by (vm_compute; reflexivity);
      assert (HB : B) by (vm_compute; reflexivity)
  end.
  split; [exact HA|]. split; [exact HB|].
  destruct (missile_closes_in calm 800 600 0 _ _ _ _ HA eq_refl HB eq_refl) as (M & X & _).
  split; [exact M|exact X].
Defined.

(** X12.  [lastMouse] always holds the position of the missile, not of the
    pointer; so after every frame with the first click handled,
    [missile.vel] is the step the missile made in that frame, which is 15 %
    of its offset to the pointer. *)
Theorem missile_velocity_is_its_last_step
  (env : Env) (w h t0 : Q) (es : list (Q * Event)) (s : State)
  (now time : Q) (s' : State) :
  run env es (init w h t0) = Some s ->
  handle env now (Frame time) s = Some s' ->
  firstClickHandled s = true ->
  lastMouse s = Missile.pos (missile s)
  /\ lastMouse s' = Missile.pos (missile s')
  /\ Vec.x (Missile.vel (missile s'))
     == Vec.x (Missile.pos (missile s')) - Vec.x (Missile.pos (missile s))
  /\ Vec.y (Missile.vel (missile s'))
     == Vec.y (Missile.pos (missile s')) - Vec.y (Missile.pos (missile s))
  /\ Vec.x (Missile.vel (missile s'))
     == (Vec.x (mouse s) - Vec.x (Missile.pos (missile s))) * 0.15
  /\ Vec.y (Missile.vel (missile s'))
     == (Vec.y (mouse s) - Vec.y (Missile.pos (missile s))) * 0.15.
Proof.
  intros R H F.
  assert (RS : reachable env s) by (exists w, h, t0, es; exact R).
  destruct (missile_inv_holds env s RS) as (L & SP).
  pose proof (handle_guidance env now (Frame time) s s' (raf_inv_holds env s RS) H) as G.
  cbv beta iota in G.
  apply (f_equal (fun g => (snd (fst (fst g)), snd (fst g)))) in G.
  unfold guidance, missileFollow in G. rewrite F in G. cbv zeta in G.
  state_simpl_in G. cbn [fst snd] in G. injection G as G1 G2.
  rewrite G1, G2, L, SP. cbn [Missile.pos Missile.vel Vec.x Vec.y].
  split; [reflexivity|]. split; [reflexivity|]. repeat split; ring.
Qed.

Lemma missile_velocity_is_its_last_step_witness :
  exists s s',
    run calm armed_run (init 800 600 0) = Some s
    /\ handle calm 1116 (Frame 1116) s = Some s'
    /\ lastMouse s' = Missile.pos (missile s')
    /\ Vec.x (Missile.vel (missile s'))
       == (Vec.x (mouse s) - Vec.x (Missile.pos (missile s))) * 0.15.
Proof.
  eexists. eexists.
  match goal with
  | |- ?A /\ ?B /\ _ =>
      assert (HA : A) by (vm_compute; reflexivity);
      assert (HB : B) by (vm_compute; reflexivity)
  end.
  split; [exact HA|]. split; [exact HB|].
  destruct (missile_velocity_is_its_last_step calm 800 600 0 _ _ 1116 1116 _ HA HB eq_refl)
    as (_ & L & _ & _ & X & _).
  split; [exact L|exact X].
Defined.

(** ** The unmount *)

(** X13.  After the unmount the game is frozen: the browser can run nothing
    but timer callbacks, no settle detonation is pending, and whatever runs
    changes only the timer table and the count of reloads; explosions,
    actors, score, missile and canvas stay as the unmount left them. *)
Theorem unmount_freezes_the_game
  (env : Env) (w h t0 now : Q) (es es' : list (Q * Event)) (s s1 s2 : State) :
  run env es (init w h t0) = Some s ->
  handle env now Unmount s = Some s1 ->
  run env es' s1 = Some s2 ->
  Forall (fun ne => exists id, snd ne = TimerFires id) es'
  /\ running s2 = false /\ raf s2 = RafNone
  /\ pending SettleDetonation (timers s2) = []
  /\ set_reloads 0 (set_clock 0 (set_timers [] s2))
     = set_reloads 0 (set_clock 0 (set_timers [] s1))
  /\ explosions s2 = explosions s1 /\ score s2 = score s1
  /\ boy s2 = boy s1 /\ bomber s2 = bomber s1 /\ missile s2 = missile s1
  /\ canvas s2 = canvas s1.
Proof.
  intros R H R'.
  assert (RS : reachable env s) by (exists w, h, t0, es; exact R).
  destruct (unmount_inv env now s s1 H) as (C & L & ->).
  assert (SI : state_inv (set_clock now s))
    by exact (state_inv_tick now s (reachable_state_inv env s RS)).
  pose proof (cleanup_unmounted (set_clock now s) SI) as U.
  destruct (unmounted_run env es' _ s2 U R') as ((U1 & _ & U3 & U4) & Fz & Ev).
  split; [exact Ev|]. split; [exact U1|]. split; [exact U3|]. split; [exact U4|].
  split; [exact Fz|].
  unfold frozen, game in Fz.
  repeat split.
  - exact (f_equal explosions Fz).
  - exact (f_equal score Fz).
  - exact (f_equal boy Fz).
  - exact (f_equal bomber Fz).
  - exact (f_equal missile Fz).
  - exact (f_equal canvas Fz).
Qed.

Lemma unmount_freezes_the_game_witness :
  exists s s1 s2,
    run calm crash_respawn_run (init 800 600 0) = Some s
    /\ handle calm 30020 Unmount s = Some s1
    /\ run calm [(31300, TimerFires 1); (32600, TimerFires 2)] s1 = Some s2
    /\ running s2 = false
    /\ explosions s2 = explosions s1 /\ score s2 = score s1 /\ canvas s2 = canvas s1.
Proof.
  eexists. eexists. eexists.
  match goal with
  | |- ?A /\ ?B /\ ?C /\ _ =>
      assert (HA : A) by (vm_compute; reflexivity);
      assert (HB : B) by (vm_compute; reflexivity);
      assert (HC : C) by (vm_compute; reflexivity)
  end.
  split; [exact HA|]. split; [exact HB|]. split; [exact HC|].
  destruct (unmount_freezes_the_game calm 800 600 0 30020 _ _ _ _ _ HA HB HC)
    as (_ & X1 & _ & _ & _ & X2 & X3 & _ & _ & _ & X4).
  auto.
Defined.

(** X14.  The unmount does not cancel a queued reload (it clears the
    settle timer only): a reload callback that is pending at the unmount is
    still pending after it, and when it is due the browser runs it and the
    page reloads although the effect was torn down. *)
Theorem reload_survives_unmount
  (env : Env) (w h t0 now now' : Q) (es : list (Q * Event)) (s s1 : State) (t : Timer.t) :
  run env es (init w h t0) = Some s ->
  In t (timers s) -> Timer.action t = ReloadPage ->
  handle env now Unmount s = Some s1 ->
  now <= now' -> Timer.fireAt t <= now' ->
  In t (timers s1)
  /\ exists s2,
      handle env now' (TimerFires (Timer.id t)) s1 = Some s2
      /\ reloads s2 = S (reloads s1).
Proof.
  intros R Ht A H C D.
  assert (RS : reachable env s) by (exists w, h, t0, es; exact R).
  pose proof (reachable_step env now Unmount s s1 RS H) as RS1.
  destruct (unmount_inv env now s s1 H) as (_ & _ & E).
  assert (SI : state_inv (set_clock now s))
    by exact (state_inv_tick now s (reachable_state_inv env s RS)).
  assert (Ht1 : In t (timers s1)).
  { rewrite E. apply cleanup_keeps_reload; [exact SI|exact Ht|exact A]. }
  split; [exact Ht1|].
  assert (K : clock s1 <= now').
  { rewrite E. pose proof (f_equal c_clock (cleanup_control (set_clock now s))) as X.
    cbn [control c_clock c_cleanup] in X. rewrite X. exact C. }
  eexists. split.
  - apply timer_fires_enabled; [exact (reachable_state_inv env s1 RS1)|exact Ht1|exact K|exact D].
  - rewrite A. reflexivity.
Qed.

Lemma reload_survives_unmount_witness :
  exists s s1,
    run calm crashing_run (init 800 600 0) = Some s
    /\ handle calm 30020 Unmount s = Some s1
    /\ reloads s1 = 0%nat
    /\ exists s2,
         handle calm 32517 (TimerFires 1) s1 = Some s2 /\ reloads s2 = 1%nat.
Proof.
  eexists. eexists.
  match goal with
  | |- ?A /\ ?B /\ _ =>
      assert (HA : A) by (vm_compute; reflexivity);
      assert (HB : B) by (vm_compute; reflexivity)
  end.
  split; [exact HA|]. split; [exact HB|]. split; [reflexivity|].
  match type of HB with
  | handle _ _ _ ?a = Some ?b =>
      destruct (reload_survives_unmount calm 800 600 0 30020 32517 crashing_run a b
                  (Timer.mk 1 (30017 + (quakeDuration + 300)) ReloadPage) HA)
        as (_ & s2 & H2 & X); try exact HB
  end.
  - vm_compute. left. reflexivity.
  - reflexivity.
  - vm_compute. discriminate.
  - vm_compute. discriminate.
  - exists s2. split; [exact H2|]. rewrite X. reflexivity.
Defined.

(** ** The intro text *)

(** X17.  A frame paints the intro text exactly when no click was handled
    yet: from the first click on it is never painted again. *)
Theorem intro_text_until_first_click
  (env : Env) (w h t0 : Q) (es : list (Q * Event)) (s : State)
  (now time : Q) (s' : State) :
  run env es (init w h t0) = Some s ->
  handle env now (Frame time) s = Some s' ->
  (In PIntro (canvas s') <-> firstClickHandled s = false).
Proof.
  intros R H.
  assert (RS : reachable env s) by (exists w, h, t0, es; exact R).
  pose proof (raf_inv_holds env s RS) as RI.
  unfold handle in H. destruct (Qle_bool (clock s) now); cbn [negb] in H; [|discriminate].
  change (raf (set_clock now s)) with (raf s) in H.
  destruct (raf s) eqn:RF; try discriminate; injection H as <-.
  - apply (loop_intro env time now (set_lastTime time (set_raf RafNone (set_clock now s)))).
    + apply RI. congruence.
    + reflexivity.
  - apply (loop_intro env time now (set_raf RafNone (set_clock now s))).
    + apply RI. congruence.
    + reflexivity.
Qed.

Lemma intro_text_until_first_click_witness :
  exists s s',
    run calm idle_run (init 800 600 0) = Some s
    /\ handle calm 48 (Frame 48) s = Some s'
    /\ firstClickHandled s = false
    /\ In PIntro (canvas s').
Proof.
  eexists. eexists.
  match goal with
  | |- ?A /\ ?B /\ _ =>
      assert (HA : A) by (vm_compute; reflexivity);
      assert (HB : B) by (vm_compute; reflexivity)
  end.
  split; [exact HA|]. split; [exact HB|]. split; [reflexivity|].
  apply (intro_text_until_first_click calm 800 600 0 _ _ 48 48 _ HA HB). reflexivity.
Defined.

(** ** The paint log of a frame *)

Section Shown.

Variable env : Env.

Lemma hd_error_app {A : Type} (a : A) (l k : list A) :
  hd_error l = Some a -> hd_error (l ++ k) = Some a.
Proof. destruct l; [discriminate|]. exact (fun H => H). Qed.

(** From the actors on, the paint code writes what the state holds. *)
Lemma closing_shown dt now v :
  hd_error (canvas v) = Some PBackground ->
  shown
    (set_raf RafLoop
       ((fun s => if negb (firstClickHandled s) then paint PIntro s else s)
          ((fun s => if quakeActive s then drawEarthquake env dt s else s)
             (cleanupExplosions now (drawScore (drawPopups (drawBomber dt (drawBoy dt v)))))))).
Proof.
  intros B.
  assert (S4 : hd_error (canvas (drawBoy dt v)) = Some PBackground
               /\ (Actor.alive (boy (drawBoy dt v)) = true ->
                   In (PBoy (boy (drawBoy dt v))) (canvas (drawBoy dt v)))
               /\ bomber (drawBoy dt v) = bomber v).
  { unfold drawBoy. destruct (Actor.alive (boy v)) eqn:A; cbn [negb].
    - cbv zeta. unfold paint. state_simpl. split; [apply hd_error_app, B|].
      split; [|reflexivity]. intros _. apply in_or_app. right. left. reflexivity.
    - split; [exact B|]. split; [congruence|reflexivity]. }
  destruct S4 as (B4 & Y4 & _). set (s4 := drawBoy dt v) in *. clearbody s4. clear B v.
  assert (S5 : hd_error (canvas (drawBomber dt s4)) = Some PBackground
               /\ (Actor.alive (boy (drawBomber dt s4)) = true ->
                   In (PBoy (boy (drawBomber dt s4))) (canvas (drawBomber dt s4)))
               /\ (Actor.alive (bomber (drawBomber dt s4)) = true ->
                   In (PBomber (bomber (drawBomber dt s4))) (canvas (drawBomber dt s4)))).
  { unfold drawBomber. destruct (Actor.alive (bomber s4)) eqn:A; cbn [negb].
    - cbv zeta. unfold paint. state_simpl. split; [apply hd_error_app, B4|]. split.
      + intros X. apply in_or_app. left. apply Y4, X.
      + intros _. apply in_or_app. right. left. reflexivity.
    - split; [exact B4|]. split; [exact Y4|congruence]. }
  destruct S5 as (B5 & Y5 & Z5). set (s5 := drawBomber dt s4) in *. clearbody s5.
  clear B4 Y4 s4.
  set (s6 := cleanupExplosions now (drawScore (drawPopups s5))).
  assert (E6 : score s6 = score s5 /\ scorePulse s6 = scorePulse s5 /\ popups s6 = popups s5
               /\ boy s6 = boy s5 /\ bomber s6 = bomber s5
               /\ canvas s6
                  = canvas s5 ++ [PPopups (popups s5); PScore (score s5) (scorePulse s5)]).
  { subst s6. unfold cleanupExplosions, drawScore, drawPopups, paint. state_simpl.
    rewrite <- app_assoc. repeat split; reflexivity. }
  clearbody s6.
  set (s7 := (fun s => if quakeActive s then drawEarthquake env dt s else s) s6).
  assert (E7 : score s7 = score s6 /\ scorePulse s7 = scorePulse s6 /\ popups s7 = popups s6
               /\ boy s7 = boy s6 /\ bomber s7 = bomber s6
               /\ exists extra, canvas s7 = canvas s6 ++ extra).
  { subst s7. cbv beta. destruct (quakeActive s6).
    - unfold drawEarthquake, Math_random, paint. cbv zeta. state_simpl.
      repeat split; try reflexivity. eexists. reflexivity.
    - repeat split; try reflexivity. exists []. rewrite app_nil_r. reflexivity. }
  clearbody s7.
  set (s8 := set_raf RafLoop
               ((fun s => if negb (firstClickHandled s) then paint PIntro s else s) s7)).
  assert (E8 : score s8 = score s7 /\ scorePulse s8 = scorePulse s7 /\ popups s8 = popups s7
               /\ boy s8 = boy s7 /\ bomber s8 = bomber s7
               /\ exists extra, canvas s8 = canvas s7 ++ extra).
  { subst s8. cbv beta. destruct (firstClickHandled s7); cbn [negb].
    - repeat split; try reflexivity. exists []. rewrite app_nil_r. reflexivity.
    - unfold paint. state_simpl. repeat split; try reflexivity. eexists. reflexivity. }
  clearbody s8.
  destruct E6 as (A1 & A2 & A3 & A4 & A5 & A6).
  destruct E7 as (C1 & C2 & C3 & C4 & C5 & x7 & C6).
  destruct E8 as (D1 & D2 & D3 & D4 & D5 & x8 & D6).
  unfold shown. rewrite D1, D2, D3, D4, D5, D6, C1, C2, C3, C4, C5, C6, A1, A2, A3, A4, A5, A6.
  split; [|split; [|split; [|split]]].
  - rewrite !in_app_iff. cbn [In]. left. left. right. right. left. reflexivity.
  - rewrite !in_app_iff. cbn [In]. left. left. right. left. reflexivity.
  - intros X. rewrite !in_app_iff. left. left. left. apply Y5, X.
  - intros X. rewrite !in_app_iff. left. left. left. apply Z5, X.
  - rewrite <- !app_assoc. apply hd_error_app, B5.
Qed.

Lemma finish_shown dt now u :
  hd_error (canvas u) = Some PBackground -> shown (finish env dt now u).
Proof.
  intros B. unfold finish. cbv zeta.
  apply (closing_shown dt now (drawParticles dt (drawMissile env (drawExplosions now u)))).
  destruct (drawExplosions_scene now u) as [_ C1].
  destruct (drawMissile_scene env (drawExplosions now u)) as [_ [x2 C2]].
  destruct (drawParticles_scene dt (drawMissile env (drawExplosions now u))) as [_ [x3 C3]].
  rewrite C3, C2, C1, <- !app_assoc. apply hd_error_app, B.
Qed.

Lemma frame_shown now time s s' :
  raf_inv s -> handle env now (Frame time) s = Some s' -> shown s'.
Proof.
  intros RI. unfold handle.
  destruct (Qle_bool (clock s) now) eqn:C; cbn [negb]; [|discriminate].
  change (raf (set_clock now s)) with (raf s).
  destruct (raf s) eqn:RF; try discriminate; intros [= <-].
  - rewrite loop_running by (apply RI; congruence). apply finish_shown.
    rewrite update_canvas; [reflexivity|apply RI; congruence|reflexivity].
  - rewrite loop_running by (apply RI; congruence). apply finish_shown.
    rewrite update_canvas; [reflexivity|apply RI; congruence|reflexivity].
Qed.

End Shown.

(** ** The actors and the buildings *)

(** The pending callbacks of one kind have different handles when all
    callbacks have. *)
Lemma pending_ids_NoDup (a : TimerAction) (ts : list Timer.t) :
  NoDup (map Timer.id ts) -> NoDup (map Timer.id (pending a ts)).
Proof.
  unfold pending. induction ts as [|t ts IH]; intros H; [constructor|].
  cbn [map] in H. apply NoDup_cons_iff in H as [N H].
  cbn [filter]. destruct (is_action a t); [|exact (IH H)].
  cbn [map]. apply NoDup_cons_iff. split; [|exact (IH H)].
  intros X. apply N. apply in_map_iff in X as (u & E & Hu).
  apply filter_In in Hu as [Hu _]. rewrite <- E. apply in_map, Hu.
Qed.

Section Actors.

Variable env : Env.

Lemma sizes_inv_holds : forall s, reachable env s -> sizes_inv s.
Proof.
  apply (reachable_keeps env sizes_inv); try (kept; fail).
  intros w h t0. repeat split; reflexivity.
Qed.

Lemma track_inv_run es s s' :
  run env es s = Some s' -> steady env es s -> track_inv s -> track_inv s'.
Proof.
  intros R S. apply (run_keeps env track_inv (fun dt => 0 <= dt)) with (es := es);
    try (kept; fail); try exact R; try exact S.
  - intros s0 H. unfold spawnActors, spawnBomber. cbv zeta.
    destruct (Qgtb (clock s0 - startTime s0) 30000); [|exact H].
    destruct (Actor.alive (boy s0)) eqn:A; cbn [negb].
    + case_if; [|exact H]. intros _. apply H, A.
    + case_if; intros _; cbn; lra.
  - intros dt s0 D H. unfold moveBoy.
    destruct (Actor.alive (boy s0)) eqn:A; [|intros X; apply H; congruence]. cbv zeta. state_simpl.
    specialize (H A).
    case_if; intros _; cbn [boy set_boy Actor.x Actor.set_x]; lra.
  - intros s0 H _ _. rewrite triggerEarthquake_skyline. unfold quaked. cbv zeta.
    case_if; intros X; cbn in X; discriminate.
Qed.

Lemma loop_track time now s :
  running s = true -> clock s = now -> sizes_inv s -> 0 <= width s ->
  on_track (loop env time now s).
Proof.
  intros R C Z W. rewrite loop_running by exact R.
  set (dt := time - lastTime s). clearbody dt.
  rewrite update_prelude. unfold prelude.
  set (s2 := spawnActors now (missileFollow (drawBackground (set_lastTime time s)))).
  assert (Z2 : sizes_inv s2).
  { subst s2. unfold drawBackground, paint.
    assert (K1 : forall u, sizes_inv u -> sizes_inv (spawnActors now u)) by kept.
    assert (K2 : forall u, sizes_inv u -> sizes_inv (missileFollow u)) by kept.
    apply K1, K2. exact Z. }
  assert (W2 : roomy s2).
  { subst s2. unfold drawBackground, paint.
    assert (K1 : forall u, roomy u -> roomy (spawnActors now u)) by kept.
    assert (K2 : forall u, roomy u -> roomy (missileFollow u)) by kept.
    apply K1, K2. exact W. }
  assert (C2 : control s2 = control s).
  { subst s2. rewrite spawnActors_control, missileFollow_control. reflexivity. }
  clearbody s2.
  assert (T3 : on_track (moveBoy dt s2)).
  { destruct Z2 as (Z2 & _). unfold roomy in W2. clear C2. revert Z2 W2.
    open_state s2. unfold moveBoy, on_track. state_simpl. intros Z2 W2.
    destruct (Actor.alive s_boy) eqn:A; state_simpl; [|intros X; congruence].
    cbv zeta. state_simpl. destruct s_boy as [bx by_ bw bh ba bt]. cbn in *. subst bw.
    match goal with
    | |- context [if ?c then _ else _] => destruct c eqn:G
    end; cbn; intros _.
    - lra.
    - apply Qgtb_le in G.
      assert (E : 28 / 2 == 14) by reflexivity. rewrite E in G. lra. }
  apply (finish_keeps env on_track (fun _ => True)); try (kept; fail); try exact Logic.I.
  apply (collisions_keeps env on_track); try (kept; fail).
  - intros u H _ _. rewrite triggerEarthquake_skyline. unfold quaked, on_track.
    cbv zeta. case_if; intros X; cbn in X; discriminate.
  - assert (K1 : forall u, on_track u -> on_track (decayFeedback dt u)) by kept.
    assert (K2 : forall u, on_track u -> on_track (bomberBehavior dt u)) by kept.
    split; [apply K1, K2, T3|].
    assert (CC : control (decayFeedback dt (bomberBehavior dt (moveBoy dt s2))) = control s).
    { rewrite decayFeedback_control, bomberBehavior_control, moveBoy_control. exact C2. }
    apply control_fields in CC as (E1 & E2 & _). split; congruence.
Qed.

Lemma frame_track now time s s' :
  raf_inv s -> handle env now (Frame time) s = Some s' ->
  sizes_inv s -> 0 <= width s -> on_track s'.
Proof.
  intros RI. unfold handle.
  destruct (Qle_bool (clock s) now) eqn:C; cbn [negb]; [|discriminate].
  change (raf (set_clock now s)) with (raf s).
  destruct (raf s) eqn:RF; try discriminate; intros [= <-] Z W.
  - apply loop_track; try reflexivity; try exact Z; try exact W.
    apply RI. congruence.
  - apply loop_track; try reflexivity; try exact Z; try exact W.
    apply RI. congruence.
Qed.

Section Sizes.

Hypothesis random_unit : forall n, 0 <= random env n /\ random env n < 1.

Lemma skyline_ok s : Forall building_ok (skyline env s).
Proof.
  apply Forall_forall. intros b Hb. apply In_nth_error in Hb as [i Hi].
  apply skyline_nth in Hi as [_ ->]. unfold building, building_ok.
  cbn [Building.w Building.h].
  destruct (random_unit (randomCalls s + 7 * i)%nat) as [A1 A2].
  destruct (random_unit (S (randomCalls s + 7 * i))%nat) as [B1 B2].
  repeat split; lra.
Qed.

Lemma buildings_inv_holds : forall s, reachable env s -> buildings_inv s.
Proof.
  apply (reachable_keeps env buildings_inv); try (kept; fail).
  - intros s H _ _. rewrite triggerEarthquake_skyline.
    pose proof (skyline_ok (set_boy (Actor.set_alive false (boy s)) s)) as X.
    revert X. generalize (skyline env (set_boy (Actor.set_alive false (boy s)) s)).
    intros bs X. unfold quaked, buildings_inv. cbv zeta. case_if; exact X.
  - intros dt s H _. unfold buildings_inv, drawEarthquake, Math_random, paint in *.
    cbv zeta. state_simpl. apply Forall_forall. intros b Hb.
    apply in_map_iff in Hb as (b0 & <- & Hb). rewrite Forall_forall in H.
    exact (H b0 Hb).
  - intros w h t0. constructor.
Qed.

End Sizes.

End Actors.

(** ** Buildings: the fall and the windows *)

Lemma toppled_cons dt dts b : toppled (dt :: dts) b = toppled dts (toppleBuilding dt b).
Proof. reflexivity. Qed.

(** The fall in closed form; [y] also depends on the sum of the squares of
    the frame intervals. *)
Lemma toppled_form dts : forall b,
  Building.w (toppled dts b) = Building.w b
  /\ Building.h (toppled dts b) = Building.h b
  /\ Building.vx (toppled dts b) = Building.vx b
  /\ Building.angVel (toppled dts b) = Building.angVel b
  /\ Building.x (toppled dts b) == Building.x b + Building.vx b * elapsed dts
  /\ Building.angle (toppled dts b) == Building.angle b + Building.angVel b * elapsed dts
  /\ Building.vy (toppled dts b) == Building.vy b + 0.0004 * elapsed dts
  /\ Building.y (toppled dts b)
     == Building.y b + Building.vy b * elapsed dts
        + 0.0002 * (elapsed dts * elapsed dts + elapsed (map (fun dt => dt * dt) dts)).
Proof.
  induction dts as [|dt dts IH]; intros b.
  - cbn. repeat split; try reflexivity; ring.
  - rewrite toppled_cons.
    destruct (IH (toppleBuilding dt b)) as (I1 & I2 & I3 & I4 & I5 & I6 & I7 & I8).
    rewrite I1, I2, I3, I4, I5, I6, I7, I8.
    destruct b as [bx by_ bw bh ba bav bvx bvy bhue bl].
    cbn [toppleBuilding Building.x Building.y Building.w Building.h Building.angle
         Building.angVel Building.vx Building.vy elapsed fold_right map].
    fold (elapsed dts). fold (elapsed (map (fun dt0 => dt0 * dt0) dts)).
    generalize (elapsed dts) (elapsed (map (fun dt0 => dt0 * dt0) dts)). intros T S2.
    repeat split; try reflexivity; ring.
Qed.

Lemma squares_nonneg dts : 0 <= elapsed (map (fun dt => dt * dt) dts).
Proof.
  induction dts as [|dt dts IH]; cbn [elapsed map fold_right]; [lra|].
  fold (elapsed (map (fun dt => dt * dt) dts)). nra.
Qed.

Lemma quakeFrames_buildings env dts : forall s,
  buildings (quakeFrames env dts s) = map (toppled dts) (buildings s).
Proof.
  induction dts as [|dt dts IH]; intros s.
  - cbn. symmetry. apply map_id.
  - change (quakeFrames env (dt :: dts) s) with (quakeFrames env dts (drawEarthquake env dt s)).
    rewrite IH.
    assert (E : buildings (drawEarthquake env dt s) = map (toppleBuilding dt) (buildings s)).
    { unfold drawEarthquake, Math_random, paint. reflexivity. }
    rewrite E, map_map. reflexivity.
Qed.

Section Windows.

Variable b : Building.t.

Hypothesis sized : building_ok b.

Lemma windowCols_range :
  3 <= inject_Z (windowCols b) /\ inject_Z (windowCols b) <= Building.w b / 16.
Proof.
  destruct sized as (W1 & W2 & _). unfold windowCols.
  assert (F : (3 <= Qfloor (Building.w b / 16))%Z).
  { change 3%Z with (Qfloor 3). apply Qfloor_resp_le.
    apply Qle_shift_div_l; [reflexivity|]. lra. }
  rewrite Z.max_r by lia. split.
  - change 3 with (inject_Z 3). rewrite <- Zle_Qle. exact F.
  - apply Qfloor_le.
Qed.

Lemma windowRows_range :
  4 <= inject_Z (windowRows b) /\ inject_Z (windowRows b) <= Building.h b / 20.
Proof.
  destruct sized as (_ & _ & H1 & H2). unfold windowRows.
  assert (F : (4 <= Qfloor (Building.h b / 20))%Z).
  { change 4%Z with (Qfloor 4). apply Qfloor_resp_le.
    apply Qle_shift_div_l; [reflexivity|]. lra. }
  rewrite Z.max_r by lia. split.
  - change 4 with (inject_Z 4). rewrite <- Zle_Qle. exact F.
  - apply Qfloor_le.
Qed.

(** The distance between two columns of windows, and between two rows. *)
Lemma column_pitch :
  12 <= (Building.w b - 12) / inject_Z (windowCols b).
Proof.
  destruct windowCols_range as (C1 & C2). destruct sized as (W1 & W2 & _).
  apply Qle_shift_div_l; [lra|].
  assert (X : Building.w b / 16 == Building.w b * (1 # 16)) by (unfold Qdiv; reflexivity).
  rewrite X in C2. lra.
Qed.

Lemma row_pitch :
  16 <= (Building.h b - 16) / inject_Z (windowRows b).
Proof.
  destruct windowRows_range as (C1 & C2). destruct sized as (_ & _ & H1 & H2).
  apply Qle_shift_div_l; [lra|].
  assert (X : Building.h b / 20 == Building.h b * (1 # 20)) by (unfold Qdiv; reflexivity).
  rewrite X in C2. lra.
Qed.

Lemma window_x r c :
  fst (window b r c)
  == - Building.w b / 2 + 6
     + inject_Z (Z.of_nat c) * ((Building.w b - 12) / inject_Z (windowCols b)).
Proof.
  destruct windowCols_range as (C1 & _). unfold window. cbn [fst]. field. lra.
Qed.

Lemma window_y r c :
  snd (window b r c)
  == - Building.h b + 8
     + inject_Z (Z.of_nat r) * ((Building.h b - 16) / inject_Z (windowRows b)).
Proof.
  destruct windowRows_range as (C1 & _). unfold window. cbn [snd]. field. lra.
Qed.

Lemma window_inside r c :
  (Z.of_nat r < windowRows b)%Z -> (Z.of_nat c < windowCols b)%Z ->
  - Building.w b / 2 + 6 <= fst (window b r c)
  /\ fst (window b r c) + 6 <= Building.w b / 2 - 12
  /\ - Building.h b + 8 <= snd (window b r c)
  /\ snd (window b r c) + 8 <= - 16.
Proof.
  intros R C. rewrite window_x, window_y.
  pose proof column_pitch as PC. pose proof row_pitch as PR.
  destruct windowCols_range as (C1 & _). destruct windowRows_range as (R1 & _).
  assert (EC : (Building.w b - 12) / inject_Z (windowCols b) * inject_Z (windowCols b)
               == Building.w b - 12) by (field; lra).
  assert (ER : (Building.h b - 16) / inject_Z (windowRows b) * inject_Z (windowRows b)
               == Building.h b - 16) by (field; lra).
  set (pc := (Building.w b - 12) / inject_Z (windowCols b)) in *.
  set (pr := (Building.h b - 16) / inject_Z (windowRows b)) in *.
  assert (Cc : 0 <= inject_Z (Z.of_nat c) /\ inject_Z (Z.of_nat c) + 1 <= inject_Z (windowCols b)).
  { split.
    - change 0 with (inject_Z 0). rewrite <- Zle_Qle. lia.
    - change 1 with (inject_Z 1). rewrite <- inject_Z_plus, <- Zle_Qle. lia. }
  assert (Rr : 0 <= inject_Z (Z.of_nat r) /\ inject_Z (Z.of_nat r) + 1 <= inject_Z (windowRows b)).
  { split.
    - change 0 with (inject_Z 0). rewrite <- Zle_Qle. lia.
    - change 1 with (inject_Z 1). rewrite <- inject_Z_plus, <- Zle_Qle. lia. }
  set (qc := inject_Z (Z.of_nat c)) in *. set (qr := inject_Z (Z.of_nat r)) in *.
  set (nc := inject_Z (windowCols b)) in *. set (nr := inject_Z (windowRows b)) in *.
  clearbody pc pr qc qr nc nr.
  assert (Hw : - Building.w b / 2 == - (Building.w b / 2)) by (field).
  assert (Hw2 : Building.w b / 2 == Building.w b * (1 # 2)) by (unfold Qdiv; reflexivity).
  rewrite Hw, Hw2.
  repeat split; nra.
Qed.

Lemma window_apart_x r c r' c' :
  (c < c')%nat -> fst (window b r c) + 6 + 6 <= fst (window b r' c').
Proof.
  intros L. rewrite !window_x. pose proof column_pitch as PC.
  set (pc := (Building.w b - 12) / inject_Z (windowCols b)) in *. clearbody pc.
  assert (X : inject_Z (Z.of_nat c) + 1 <= inject_Z (Z.of_nat c')).
  { change 1 with (inject_Z 1). rewrite <- inject_Z_plus, <- Zle_Qle. lia. }
  nra.
Qed.

Lemma window_apart_y r c r' c' :
  (r < r')%nat -> snd (window b r c) + 8 + 8 <= snd (window b r' c').
Proof.
  intros L. rewrite !window_y. pose proof row_pitch as PR.
  set (pr := (Building.h b - 16) / inject_Z (windowRows b)) in *. clearbody pr.
  assert (X : inject_Z (Z.of_nat r) + 1 <= inject_Z (Z.of_nat r')).
  { change 1 with (inject_Z 1). rewrite <- inject_Z_plus, <- Zle_Qle. lia. }
  nra.
Qed.

Lemma windows_length :
  length (windows b) = (Z.to_nat (windowRows b) * Z.to_nat (windowCols b))%nat.
Proof.
  unfold windows.
  assert (G : forall (f : nat -> list (Q * Q)) n l, (forall r, length (f r) = n) ->
              length (flat_map f l) = (length l * n)%nat).
  { intros f n l Hf. induction l as [|a l IH]; [reflexivity|].
    cbn [flat_map]. rewrite length_app, IH, Hf. reflexivity. }
  rewrite (G _ (Z.to_nat (windowCols b))).
  - rewrite length_seq. reflexivity.
  - intros r. rewrite length_map, length_seq. reflexivity.
Qed.

Lemma windows_in p :
  In p (windows b) <->
  exists r c, (Z.of_nat r < windowRows b)%Z /\ (Z.of_nat c < windowCols b)%Z
              /\ p = window b r c.
Proof.
  unfold windows. rewrite in_flat_map. split.
  - intros (r & Hr & Hp). apply in_map_iff in Hp as (c & <- & Hc).
    apply in_seq in Hr. apply in_seq in Hc. exists r, c. repeat split; lia.
  - intros (r & c & Hr & Hc & ->). exists r. split.
    + apply in_seq. lia.
    + apply in_map_iff. exists c. split; [reflexivity|]. apply in_seq. lia.
Qed.

End Windows.

(** ** The settle callback *)

Section Settle.

Variable env : Env.

Lemma settle_single s :
  reachable env s ->
  (length (pending SettleDetonation (timers s)) <= 1)%nat
  /\ (forall t, In t (timers s) -> Timer.action t = SettleDetonation ->
                stopTimer s = Some (Timer.id t)).
Proof.
  intros R. destruct (reachable_state_inv env s R) as (T & _).
  pose proof (settle_is_stop _ T) as SS. pose proof (ids_nodup _ T) as ND.
  change (c_timers (control s)) with (timers s) in *.
  change (c_stopTimer (control s)) with (stopTimer s) in *.
  split; [|exact SS].
  apply (pending_ids_NoDup SettleDetonation) in ND.
  assert (A : forall t, In t (pending SettleDetonation (timers s)) ->
                        stopTimer s = Some (Timer.id t)).
  { intros t Ht. apply filter_In in Ht as (Ht & Ha). apply SS; [exact Ht|].
    unfold is_action in Ha. destruct (Timer.action t); try discriminate. reflexivity. }
  destruct (pending SettleDetonation (timers s)) as [|a [|a' l]]; cbn [length]; try lia.
  exfalso. pose proof (A a (or_introl eq_refl)) as E1.
  pose proof (A a' (or_intror (or_introl eq_refl))) as E2.
  cbn [map] in ND. inversion ND as [|? ? N _]; subst. apply N. left. congruence.
Qed.

End Settle.

(** ** What a frame paints *)

(** X18.  A frame that the browser runs paints the state it leaves: the
    paint log starts with the background, and holds the score with the
    pulse and the popups of the new state, and the Runner and the bomber as
    they are in the new state whenever they are alive in it.  (The frame
    moves the actors before it paints them, so nothing on the canvas is one
    frame old.) *)
Theorem frame_paints_the_current_state
  (env : Env) (w h t0 : Q) (es : list (Q * Event)) (s : State) (now time : Q) (s' : State) :
  run env es (init w h t0) = Some s ->
  handle env now (Frame time) s = Some s' ->
  hd_error (canvas s') = Some PBackground
  /\ In (PScore (score s') (scorePulse s')) (canvas s')
  /\ In (PPopups (popups s')) (canvas s')
  /\ (Actor.alive (boy s') = true -> In (PBoy (boy s')) (canvas s'))
  /\ (Actor.alive (bomber s') = true -> In (PBomber (bomber s')) (canvas s')).
Proof.
  intros R F.
  assert (RS : reachable env s) by (exists w, h, t0, es; exact R).
  destruct (frame_shown env now time s s' (raf_inv_holds env s RS) F)
    as (A & B & C & D & E).
  repeat split; assumption.
Qed.

Lemma frame_paints_the_current_state_witness :
  exists s s',
    run calm flyer_run (init 800 600 0) = Some s
    /\ handle calm 30033 (Frame 30033) s = Some s'
    /\ Actor.alive (boy s') = true
    /\ In (PBoy (boy s')) (canvas s')
    /\ In (PScore (score s') (scorePulse s')) (canvas s').
Proof.
  eexists. eexists.
  match goal with
  | |- ?A /\ ?B /\ _ =>
      assert (HA : A) by (vm_compute; reflexivity);
      assert (HB : B) by (vm_compute; reflexivity)
  end.
  split; [exact HA|]. split; [exact HB|].
  destruct (frame_paints_the_current_state calm 800 600 0 flyer_run _ 30033 30033 _ HA HB)
    as (_ & S1 & _ & S2 & _).
  split; [reflexivity|]. split; [apply S2; reflexivity|exact S1].
Defined.

(** ** The Runner *)

(** X19.  The Runner keeps its size of 28 by 46 and the bomber its 110 by
    34.  When the timestamps of the frames never go back, an alive Runner
    is never left of its spawn point [x = -80]; and right after every frame
    that runs with a non-negative canvas width an alive Runner is at most
    54 past the right edge (the wrap test is on [x - w / 2 > width + 40]
    with [w / 2 = 14]). *)
Theorem runner_stays_on_track
  (env : Env) (w h t0 : Q) (es : list (Q * Event)) (s : State) :
  run env es (init w h t0) = Some s ->
  StronglySorted Qle (frame_times es) ->
  (Actor.w (boy s) = 28 /\ Actor.h (boy s) = 46
   /\ Actor.w (bomber s) = 110 /\ Actor.h (bomber s) = 34)
  /\ (Actor.alive (boy s) = true -> -80 <= Actor.x (boy s))
  /\ (forall now time s',
         0 <= width s ->
         handle env now (Frame time) s = Some s' ->
         Actor.alive (boy s') = true ->
         Actor.x (boy s') <= width s' + 54).
Proof.
  intros R S.
  assert (R0 : reachable env (init w h t0)) by (exists w, h, t0, []; reflexivity).
  assert (RS : reachable env s) by (exists w, h, t0, es; exact R).
  assert (ST : steady env es (init w h t0)).
  { apply sorted_steady; [exact R0|discriminate|exact S]. }
  split; [exact (sizes_inv_holds env s RS)|]. split.
  - apply (track_inv_run env es _ _ R ST). intros X. discriminate.
  - intros now time s' W F.
    exact (frame_track env now time s s' (raf_inv_holds env s RS) F
             (sizes_inv_holds env s RS) W).
Qed.

Lemma runner_stays_on_track_witness :
  exists s s',
    run calm flyer_run (init 800 600 0) = Some s
    /\ handle calm 30033 (Frame 30033) s = Some s'
    /\ Actor.alive (boy s) = true
    /\ -80 <= Actor.x (boy s)
    /\ Actor.x (boy s') <= width s' + 54.
Proof.
  eexists. eexists.
  match goal with
  | |- ?A /\ ?B /\ _ =>
      assert (HA : A) by (vm_compute; reflexivity);
      assert (HB : B) by (vm_compute; reflexivity)
  end.
  split; [exact HA|]. split; [exact HB|]. split; [reflexivity|].
  destruct (runner_stays_on_track calm 800 600 0 flyer_run _ HA) as (_ & L & U).
  - vm_compute. repeat constructor; intros X; discriminate.
  - split; [apply L; reflexivity|].
    apply (U 30033 30033 _); [vm_compute; intros X; discriminate|exact HB|reflexivity].
Defined.

(** ** The buildings of the earthquake *)

(** X20.  The fall of the buildings over any number of frames of
    [drawEarthquake], in closed form.  With [T] the sum of the frame
    intervals: the width, the height, the horizontal speed and the spin of
    a building do not change; [x] and the angle grow linearly in [T] and
    [vy] by [0.0004 * T], whatever the frame rate; but [y] (moved with the
    speed already increased in the same frame) is
    [y + vy * T + 0.0002 * (T * T + sum of dt * dt)], which depends on how
    [T] is cut into frames and is never less than
    [y + vy * T + 0.0002 * T * T]. *)
Theorem building_fall_closed_form (env : Env) (dts : list Q) (s : State) :
  buildings (quakeFrames env dts s) = map (toppled dts) (buildings s)
  /\ forall b,
       Building.w (toppled dts b) = Building.w b
       /\ Building.h (toppled dts b) = Building.h b
       /\ Building.vx (toppled dts b) = Building.vx b
       /\ Building.angVel (toppled dts b) = Building.angVel b
       /\ Building.x (toppled dts b) == Building.x b + Building.vx b * elapsed dts
       /\ Building.angle (toppled dts b)
          == Building.angle b + Building.angVel b * elapsed dts
       /\ Building.vy (toppled dts b) == Building.vy b + 0.0004 * elapsed dts
       /\ Building.y (toppled dts b)
          == Building.y b + Building.vy b * elapsed dts
             + 0.0002 * (elapsed dts * elapsed dts
                         + elapsed (map (fun dt => dt * dt) dts))
       /\ Building.y b + Building.vy b * elapsed dts + 0.0002 * (elapsed dts * elapsed dts)
          <= Building.y (toppled dts b).
Proof.
  split; [apply quakeFrames_buildings|]. intros b.
  destruct (toppled_form dts b) as (A1 & A2 & A3 & A4 & A5 & A6 & A7 & A8).
  repeat (split; [assumption|]).
  rewrite A8. pose proof (squares_nonneg dts) as P. lra.
Qed.

(** X21.  With [Math.random ()] in [0, 1), every building of the array is
    between 60 and 120 wide and between 80 and 220 high for as long as it
    falls, and so its windows (6 by 8 each) fit: there are between 12 and
    70 of them; each lies on the facade, at least 6 from its left edge, 12
    from its right edge, 8 below the roof and 16 above the base; and no two
    touch, with at least 6 between the windows of two columns and at least
    8 between the windows of two rows. *)
Theorem windows_fit_the_facade
  (env : Env) (w h t0 : Q) (es : list (Q * Event)) (s : State) (b : Building.t) :
  (forall n, 0 <= random env n /\ random env n < 1) ->
  run env es (init w h t0) = Some s ->
  In b (buildings s) ->
  (60 <= Building.w b /\ Building.w b < 120 /\ 80 <= Building.h b /\ Building.h b < 220)
  /\ (12 <= length (windows b) <= 70)%nat
  /\ (forall p, In p (windows b) ->
        - Building.w b / 2 + 6 <= fst p /\ fst p + 6 <= Building.w b / 2 - 12
        /\ - Building.h b + 8 <= snd p /\ snd p + 8 <= - 16)
  /\ (forall r c r' c', (c < c')%nat ->
        fst (window b r c) + 6 + 6 <= fst (window b r' c'))
  /\ (forall r c r' c', (r < r')%nat ->
        snd (window b r c) + 8 + 8 <= snd (window b r' c')).
Proof.
  intros RU R Hb.
  assert (RS : reachable env s) by (exists w, h, t0, es; exact R).
  pose proof (buildings_inv_holds env RU s RS) as B. unfold buildings_inv in B.
  rewrite Forall_forall in B. specialize (B b Hb).
  split; [exact B|]. split; [|split; [|split]].
  - rewrite (windows_length b).
    destruct (windowCols_range b B) as (C1 & C2).
    destruct (windowRows_range b B) as (R1 & R2).
    destruct B as (W1 & W2 & H1 & H2).
    assert (C3 : inject_Z (windowCols b) < 8).
    { eapply Qle_lt_trans; [exact C2|]. apply Qlt_shift_div_r; [reflexivity|lra]. }
    assert (R3 : inject_Z (windowRows b) < 11).
    { eapply Qle_lt_trans; [exact R2|]. apply Qlt_shift_div_r; [reflexivity|lra]. }
    change 3 with (inject_Z 3) in C1. change 8 with (inject_Z 8) in C3.
    change 4 with (inject_Z 4) in R1. change 11 with (inject_Z 11) in R3.
    rewrite <- Zle_Qle in C1, R1. rewrite <- Zlt_Qlt in C3, R3.
    split; nia.
  - intros p Hp. apply (windows_in b) in Hp as (r & c & Hr & Hc & ->).
    exact (window_inside b B r c Hr Hc).
  - intros r c r' c'. exact (window_apart_x b B r c r' c').
  - intros r c r' c'. exact (window_apart_y b B r c r' c').
Qed.

Lemma windows_fit_the_facade_witness :
  exists s b,
    run calm crashing_run (init 800 600 0) = Some s
    /\ hd_error (buildings s) = Some b
    /\ (12 <= length (windows b) <= 70)%nat.
Proof.
  eexists. eexists.
  match goal with
  | |- ?A /\ ?B /\ _ =>
      assert (HA : A) by (vm_compute; reflexivity);
      assert (HB : B) by (vm_compute; reflexivity)
  end.
  split; [exact HA|]. split; [exact HB|].
  refine (proj1 (proj2 (windows_fit_the_facade calm 800 600 0 crashing_run _ _ _ HA _))).
  - intros n. change (random calm n) with 0.5. split; lra.
  - left. reflexivity.
Defined.

(** ** The settle callback *)

(** X22.  At most one settle callback is pending at any time, and
    [stopTimer] holds its handle: a pointer move always cancels the
    callback of the move before. *)
Theorem one_settle_callback_at_most
  (env : Env) (w h t0 : Q) (es : list (Q * Event)) (s : State) :
  run env es (init w h t0) = Some s ->
  (length (pending SettleDetonation (timers s)) <= 1)%nat
  /\ (forall t, In t (timers s) -> Timer.action t = SettleDetonation ->
                stopTimer s = Some (Timer.id t)).
Proof.
  intros R. apply (settle_single env). exists w, h, t0, es. exact R.
Qed.

Lemma one_settle_callback_at_most_witness :
  exists s,
    run calm armed_run (init 800 600 0) = Some s
    /\ length (pending SettleDetonation (timers s)) = 1%nat
    /\ stopTimer s = Some 2%nat
    /\ (length (pending SettleDetonation (timers s)) <= 1)%nat.
Proof.
  eexists.
  match goal with
  | |- ?A /\ _ => assert (HA : A) by (vm_compute; reflexivity)
  end.
  split; [exact HA|]. split; [reflexivity|]. split; [reflexivity|].
  exact (proj1 (one_settle_callback_at_most calm 800 600 0 armed_run _ HA)).
Defined.

(** ** The points of each explosion *)

Lemma total_app l k : total (l ++ k) = (total l + total k)%Z.
Proof. unfold total. induction l as [|a l IH]; cbn; [reflexivity|]. fold (total l) in *. cbn in IH. lia. Qed.

Lemma points_flagged l pts :
  Forall2 (fun e p => p = point e) l pts -> total pts = Z.of_nat (flagged l).
Proof.
  induction 1 as [|e p l pts E _ IH]; [reflexivity|].
  unfold total in *. cbn [fold_right]. rewrite IH, E. unfold point, flagged.
  cbn [filter]. destruct (truthy (Explosion.hitBomber e)); cbn [length]; lia.
Qed.

(** When the pass clears no flag and pushes only unflagged explosions, the
    counters follow the flags. *)
Lemma credit_points l' : forall l pts,
  Forall2 (fun e p => p = point e) l pts ->
  (forall j e, nth_error l j = Some e ->
     exists e', nth_error l' j = Some e'
                /\ (truthy (Explosion.hitBomber e) = true ->
                    truthy (Explosion.hitBomber e') = true)) ->
  (forall j e', nth_error l' j = Some e' -> (length l <= j)%nat ->
     truthy (Explosion.hitBomber e') = false) ->
  Forall2 (fun e p => p = point e) l' (credit l l' pts).
Proof.
  induction l' as [|e' l' IH]; intros l pts F K N; [constructor|].
  destruct F as [|e p l pts E F].
  - cbn [credit]. constructor.
    + unfold point. rewrite (N 0%nat e' eq_refl); [reflexivity|cbn; lia].
    + apply IH; [constructor| |].
      * intros j e H. destruct j; discriminate.
      * intros j e2 H _. apply (N (S j) e2 H). cbn. lia.
  - cbn [credit]. constructor.
    + destruct (K 0%nat e eq_refl) as (e2 & H2 & M). injection H2 as <-.
      rewrite E. unfold point, newly.
      destruct (truthy (Explosion.hitBomber e)) eqn:B; cbn [negb andb].
      * rewrite M by reflexivity. reflexivity.
      * destruct (truthy (Explosion.hitBomber e')); reflexivity.
    + apply IH; [exact F| |].
      * intros j e2 H. exact (K (S j) e2 H).
      * intros j e2 H L. apply (N (S j) e2 H). cbn. lia.
Qed.

(** The draw loop writes only the radius. *)
Lemma drawn_kept now e :
  point (drawn now e) = point e /\ stale now (drawn now e) = stale now e.
Proof.
  unfold drawn, drawNuclearExplosion. destruct (Explosion.alive e); split; reflexivity.
Qed.

Lemma retire_points now l : forall pts,
  Forall2 (fun e p => p = point e) l pts ->
  Forall2 (fun e p => p = point e)
    (filter (fun ex => negb (stale now ex)) (map (drawn now) l)) (fst (retire now l pts))
  /\ Forall (fun p => p = 0%Z \/ p = 1%Z) (snd (retire now l pts))
  /\ (total (fst (retire now l pts)) + total (snd (retire now l pts)) = total pts)%Z.
Proof.
  induction l as [|e l IH]; intros pts F.
  - inversion F; subst. cbn. repeat split; constructor.
  - inversion F as [|? p ? pts0 E F0]; subst. cbn [retire map filter].
    destruct (IH pts0 F0) as (I1 & I2 & I3).
    destruct (retire now l pts0) as [a b]. cbn [fst snd] in *.
    destruct (drawn_kept now e) as (P & S). rewrite S.
    destruct (stale now e); cbn [negb fst snd].
    + split; [exact I1|]. split.
      * constructor; [|exact I2]. unfold point.
        destruct (truthy (Explosion.hitBomber e)); auto.
      * unfold total in *. cbn [fold_right]. lia.
    + split; [constructor; [congruence|exact I1]|]. split; [exact I2|].
      unfold total in *. cbn [fold_right]. lia.
Qed.

Section Ledgers.

Variable env : Env.

Lemma pushed_unflagged_refl s : pushed_unflagged s s.
Proof.
  split; [lia|]. split.
  - intros j e' H L. exfalso.
    assert (j < length (explosions s))%nat by (apply nth_error_Some; congruence). lia.
  - intros B. split; [exact B|]. intros j e e' H1 H2. congruence.
Qed.

Lemma pushed_unflagged_trans a b c :
  pushed_unflagged a b -> pushed_unflagged b c -> pushed_unflagged a c.
Proof.
  intros (L1 & N1 & D1) (L2 & N2 & D2). split; [lia|]. split.
  - intros j e3 H3 Lj.
    destruct (Nat.lt_ge_cases j (length (explosions b))) as [Lt|Ge].
    + destruct (nth_error (explosions b) j) as [e2|] eqn:H2.
      2:{ apply nth_error_None in H2. lia. }
      destruct (N1 j e2 H2 Lj) as (U & B).
      destruct (D2 B) as (B3 & K). split; [|exact B3].
      rewrite (K j e2 e3 H2 H3). exact U.
    + exact (N2 j e3 H3 Ge).
  - intros B. destruct (D1 B) as (B2 & K1). destruct (D2 B2) as (B3 & K2).
    split; [exact B3|]. intros j e e3 H1 H3.
    destruct (nth_error (explosions b) j) as [e2|] eqn:H2.
    + rewrite (K2 j e2 e3 H2 H3). exact (K1 j e e2 H1 H2).
    + apply nth_error_None in H2.
      assert (j < length (explosions a))%nat by (apply nth_error_Some; congruence). lia.
Qed.

Lemma collide_pushed_unflagged now i ex s :
  nth_error (explosions s) i = Some ex -> pushed_unflagged s (collide env now i ex s).
Proof.
  intros Hn.
  assert (Hi : (i < length (explosions s))%nat) by (apply nth_error_Some; congruence).
  destruct (collide_spec env now i ex s Hn)
    as (_ & _ & _ & (ex' & El & _ & _ & _ & _ & Fb & _) & Ba & _).
  set (hit := Explosion.alive ex && bomberHit ex s) in *.
  split; [|split].
  - rewrite El, length_app, set_nth_length. lia.
  - intros j e' H L. rewrite El in H.
    rewrite nth_error_app2 in H by (rewrite set_nth_length; exact L).
    destruct hit.
    + split; [|rewrite Ba; apply andb_false_r].
      rewrite set_nth_length in H.
      destruct (j - length (explosions s))%nat as [|k]; cbn in H.
      * injection H as <-. reflexivity.
      * destruct k; discriminate.
    + destruct (j - length (set_nth i ex' (explosions s)))%nat; discriminate.
  - intros B.
    assert (H : hit = false).
    { subst hit. unfold bomberHit. rewrite B. cbn. apply andb_false_r. }
    rewrite H in *. rewrite app_nil_r in El. split.
    + rewrite Ba, B. reflexivity.
    + intros j e e' H1 H2. rewrite El in H2.
      destruct (Nat.eq_dec i j) as [<-|N].
      * rewrite set_nth_nth_error in H2 by exact Hi. injection H2 as <-.
        rewrite Hn in H1. injection H1 as <-. exact Fb.
      * rewrite set_nth_other in H2 by exact N. congruence.
Qed.

(** What [update] pushes is not flagged for the bomber. *)
Lemma update_pushed_unflagged dt now s j e' :
  nth_error (explosions (update env dt now s)) j = Some e' ->
  (length (explosions s) <= j)%nat ->
  truthy (Explosion.hitBomber e') = false.
Proof.
  rewrite update_prelude. intros H L.
  assert (P : pushed_unflagged (prelude dt now s) (collisions env now 0 (prelude dt now s))).
  { apply collisions_rel.
    - apply pushed_unflagged_refl.
    - apply pushed_unflagged_trans.
    - intros. apply collide_pushed_unflagged. assumption. }
  destruct P as (_ & N & _). rewrite prelude_explosions in N.
  exact (proj1 (N j e' H L)).
Qed.

(** A frame callback calls [loop] in the state [frame_entry]. *)
Lemma handle_frame now time s s' :
  raf_inv s -> handle env now (Frame time) s = Some s' ->
  s' = loop env time now (frame_entry now time s)
  /\ running (frame_entry now time s) = true
  /\ clock (frame_entry now time s) = now
  /\ time - lastTime (frame_entry now time s) = frame_dt time s.
Proof.
  intros RI. unfold handle, frame_entry, frame_dt.
  destruct (Qle_bool (clock s) now); cbn [negb]; [|discriminate].
  change (raf (set_clock now s)) with (raf s).
  assert (R : raf s <> RafNone -> running s = true) by exact RI.
  destruct (raf s); try discriminate; intros [= <-].
  - split; [reflexivity|]. split; [apply R; discriminate|]. split; reflexivity.
  - split; [reflexivity|]. split; [apply R; discriminate|]. split; reflexivity.
Qed.

(** A callback other than a frame leaves the score, and leaves the
    explosions as they are but for one that it may push. *)
Lemma handle_pushes now e s s' :
  handle env now e s = Some s' ->
  match e with
  | Frame _ => True
  | _ =>
      score s' = score s
      /\ exists fresh,
           explosions s' = explosions s ++ fresh
           /\ Forall (fun x => truthy (Explosion.hitBomber x) = false) fresh
  end.
Proof.
  unfold handle. destruct (Qle_bool (clock s) now); cbn [negb]; [|discriminate].
  destruct e; try exact (fun _ => Logic.I).
  - change (listening (set_clock now s)) with (listening s).
    destruct (listening s); [|discriminate]. intros [= <-]. split.
    + open_state s. unfold onMouseMove, setTimeout, clearTimeout. cbv zeta. state_simpl.
      repeat (match goal with
              | |- context [match ?x with _ => _ end] => destruct x eqn:?
              end; cbv beta iota zeta; state_simpl); reflexivity.
    + exists []. split; [|constructor]. rewrite app_nil_r.
      open_state s. unfold onMouseMove, setTimeout, clearTimeout. cbv zeta. state_simpl.
      repeat (match goal with
              | |- context [match ?x with _ => _ end] => destruct x eqn:?
              end; cbv beta iota zeta; state_simpl); reflexivity.
  - change (listening (set_clock now s)) with (listening s).
    destruct (listening s); [|discriminate]. intros [= <-]. split.
    + unfold onClick. cbv zeta. case_if; reflexivity.
    + eexists. split.
      * unfold onClick. cbv zeta. case_if; reflexivity.
      * repeat constructor.
  - unfold find_timer.
    destruct (find _ (timers (set_clock now s))) as [t|]; [|discriminate].
    destruct (Qle_bool (Timer.fireAt t) now); [|discriminate]. intros [= <-].
    unfold runTimer, clearTimeout, spawnBomber.
    destruct (Timer.action t).
    + split; [reflexivity|]. eexists. split; [reflexivity|repeat constructor].
    + split; [case_if; reflexivity|]. exists []. rewrite app_nil_r.
      split; [case_if; reflexivity|constructor].
    + split; [reflexivity|]. exists []. rewrite app_nil_r. split; [reflexivity|constructor].
  - change (listening (set_clock now s)) with (listening s).
    destruct (listening s); [|discriminate]. intros [= <-].
    split; [reflexivity|]. exists []. rewrite app_nil_r. split; [reflexivity|constructor].
  - change (listening (set_clock now s)) with (listening s).
    destruct (listening s); [|discriminate]. intros [= <-]. split.
    + open_state s. unfold cleanup, clearTimeout. cbv zeta. state_simpl.
      repeat (match goal with
              | |- context [match ?x with _ => _ end] => destruct x eqn:?
              end; cbv beta iota zeta; state_simpl); reflexivity.
    + exists []. rewrite app_nil_r. split; [|constructor].
      open_state s. unfold cleanup, clearTimeout. cbv zeta. state_simpl.
      repeat (match goal with
              | |- context [match ?x with _ => _ end] => destruct x eqn:?
              end; cbv beta iota zeta; state_simpl); reflexivity.
Qed.

Lemma audit_booked now e s s' L :
  raf_inv s -> handle env now e s = Some s' -> booked s L ->
  booked s' (audit env now e s s' L).
Proof.
  intros RI H (B1 & B2 & B3).
  assert (NF : (score s' = score s
                /\ exists fresh,
                     explosions s' = explosions s ++ fresh
                     /\ Forall (fun x => truthy (Explosion.hitBomber x) = false) fresh) ->
               booked s' (mkLedger (credit (explosions s) (explosions s') (live L)) (closed L))).
  { intros (Sc & fresh & El & Fr).
    assert (P : Forall2 (fun e p => p = point e) (explosions s')
                  (credit (explosions s) (explosions s') (live L))).
    { apply credit_points; [exact B1| |].
      - intros j x Hj. exists x. split; [|auto].
        rewrite El, nth_error_app1 by (apply nth_error_Some; congruence). exact Hj.
      - intros j x Hj Lj. rewrite El, nth_error_app2 in Hj by exact Lj.
        rewrite Forall_forall in Fr. apply Fr. eapply nth_error_In. exact Hj. }
    split; [exact P|]. split; [exact B2|]. cbn [live closed].
    rewrite (points_flagged _ _ P), Sc, B3, (points_flagged _ _ B1), El, flagged_app.
    assert (Z0 : flagged fresh = 0%nat).
    { unfold flagged. clear -Fr. induction Fr as [|x l Hx _ IH]; [reflexivity|].
      cbn [filter]. rewrite Hx. exact IH. }
    lia. }
  destruct e; try (apply NF; exact (handle_pushes now _ s s' H)).
  clear NF. destruct (handle_frame now time s s' RI H) as (E & R & _ & _).
  assert (X : explosions (frame_entry now time s) = explosions s
              /\ score (frame_entry now time s) = score s).
  { unfold frame_entry. destruct (raf s); split; reflexivity. }
  destruct X as (X1 & X2).
  cbn [audit]. cbv zeta. rewrite R.
  set (s0 := frame_entry now time s) in *.
  set (u := updated env time now s0).
  destruct (update_accounted env (time - lastTime s0) now (drawBackground (set_lastTime time s0)))
    as (A1 & _ & A2).
  fold (updated env time now s0) in A1, A2. fold u in A1, A2.
  change (explosions (drawBackground (set_lastTime time s0))) with (explosions s0) in A1, A2.
  change (score (drawBackground (set_lastTime time s0))) with (score s0) in A1.
  assert (P : Forall2 (fun e p => p = point e) (explosions u)
                (credit (explosions s0) (explosions u) (live L))).
  { apply credit_points; [rewrite X1; exact B1| |].
    - intros j x Hj. destruct (A2 j x Hj) as (x' & Hx & _ & _ & _ & _ & M & _).
      exists x'. split; [exact Hx|exact M].
    - intros j x Hj Lj.
      apply (update_pushed_unflagged (time - lastTime s0) now
               (drawBackground (set_lastTime time s0)) j x); [exact Hj|exact Lj]. }
  destruct (retire_points now (explosions u) _ P) as (Q1 & Q2 & Q3).
  destruct (retire now (explosions u) (credit (explosions s0) (explosions u) (live L)))
    as [a b] eqn:Rt.
  cbn [fst snd] in Q1, Q2, Q3.
  assert (F : explosions s' = filter (fun ex => negb (stale now ex)) (map (drawn now) (explosions u))
              /\ score s' = score u).
  { rewrite E, (loop_updated env) by exact R.
    destruct (finish_scene env (time - lastTime s0) now u) as [Sn _].
    apply scene_inv in Sn as (S1 & _ & S3). split; [exact S1|exact S3]. }
  destruct F as (F1 & F2).
  split; [|split]; cbn [live closed].
  - rewrite F1. exact Q1.
  - apply Forall_app. split; [exact B2|exact Q2].
  - rewrite F2, total_app.
    rewrite (points_flagged _ _ P) in Q3.
    rewrite X1 in A1. rewrite X2 in A1. rewrite (points_flagged _ _ B1) in B3. lia.
Qed.

Lemma ledger_booked es : forall s L s',
  reachable env s -> run env es s = Some s' -> booked s L ->
  booked s' (ledger env es s L).
Proof.
  induction es as [|[now e] es IH]; intros s L s' R H B; cbn [run ledger] in *.
  - injection H as <-. exact B.
  - destruct (handle env now e s) as [s1|] eqn:E; [|discriminate].
    apply (IH s1); [exact (reachable_step env now e s s1 R E)|exact H|].
    apply audit_booked; [apply (raf_inv_holds env); exact R|exact E|exact B].
Qed.

End Ledgers.

(** * Scoring over a run *)

(** C1.  Over any run the score never goes down.  Give every explosion a
    counter of its points (see [ledger]): in every state a run from the
    start reaches, the counter of an explosion in the array is 1 when its
    [hitBomber] flag is set and 0 otherwise, the counter of every explosion
    that was spliced out is 0 or 1, and the score is the sum of all
    counters; so no explosion scores twice, however many frames it overlaps
    the bomber.  The flag survives every callback: a frame keeps the slots
    through [update] without clearing a flag, what [update] pushes is not
    flagged, and the draw and cleanup loops change no flag; any other
    callback leaves the array as it is but for an unflagged explosion that
    it may push.  A step of [update] adds to the score exactly the number of
    explosions whose bomber flag it sets.  For the explosion examined by one
    pass of the collision loop: when it is live, not yet flagged and
    overlaps the alive bomber, the score grows by exactly 1 and its flag is
    set; once its flag is set, the pass leaves the score as it is and the
    flag set. *)
Theorem score_counts_first_contacts (env : Env) :
  (forall es s s', run env es s = Some s' -> (score s <= score s')%Z)
  /\ (forall w h t0 es s,
        run env es (init w h t0) = Some s ->
        let L := ledger env es (init w h t0) (mkLedger [] []) in
        Forall2
          (fun e p => p = if truthy (Explosion.hitBomber e) then 1%Z else 0%Z)
          (explosions s) (live L)
        /\ Forall (fun p => p = 0%Z \/ p = 1%Z) (closed L)
        /\ score s = (total (live L) + total (closed L))%Z)
  /\ (forall w h t0 es s now e s',
        run env es (init w h t0) = Some s ->
        handle env now e s = Some s' ->
        match e with
        | Frame time =>
            let u := updated env time now (frame_entry now time s) in
            slotwise (explosions s) (explosions u)
            /\ (forall j x, nth_error (explosions u) j = Some x ->
                  (length (explosions s) <= j)%nat ->
                  truthy (Explosion.hitBomber x) = false)
            /\ explosions s'
               = filter (fun ex => negb (stale now ex)) (map (drawn now) (explosions u))
            /\ (forall x, Explosion.hitBomber (drawn now x) = Explosion.hitBomber x)
            /\ score s' = score u
        | _ =>
            score s' = score s
            /\ exists fresh,
                 explosions s' = explosions s ++ fresh
                 /\ Forall (fun x => truthy (Explosion.hitBomber x) = false) fresh
        end)
  /\ (forall dt now s,
        let s' := update env dt now s in
        (score s' - score s
         = Z.of_nat (flagged (explosions s')) - Z.of_nat (flagged (explosions s)))%Z
        /\ slotwise (explosions s) (explosions s'))
  /\ (forall now i ex s,
        nth_error (explosions s) i = Some ex ->
        let s' := collide env now i ex s in
        (Explosion.alive ex = true ->
         Actor.alive (bomber s) = true ->
         truthy (Explosion.hitBomber ex) = false ->
         circleHit ex (Actor.x (bomber s)) (Actor.y (bomber s)) 40 = true ->
         score s' = (score s + 1)%Z
         /\ exists ex', nth_error (explosions s') i = Some ex'
                        /\ Explosion.hitBomber ex' = Some true)
        /\ (truthy (Explosion.hitBomber ex) = true ->
            score s' = score s
            /\ exists ex', nth_error (explosions s') i = Some ex'
                           /\ truthy (Explosion.hitBomber ex') = true)).
Proof.
  split; [|split; [|split; [|split]]].
  - intros es s s'. apply run_score.
  - intros w h t0 es s R.
    assert (R0 : reachable env (init w h t0)) by (exists w, h, t0, []; reflexivity).
    assert (B0 : booked (init w h t0) (mkLedger [] [])).
    { split; [constructor|]. split; [constructor|reflexivity]. }
    exact (ledger_booked env es _ _ _ R0 R B0).
  - intros w h t0 es s now e s' R H.
    assert (RS : reachable env s) by (exists w, h, t0, es; exact R).
    pose proof (handle_pushes env now e s s' H) as P.
    destruct e; try exact P. clear P.
    destruct (handle_frame env now time s s' (raf_inv_holds env s RS) H) as (E & Rn & _ & _).
    assert (X : explosions (frame_entry now time s) = explosions s).
    { unfold frame_entry. destruct (raf s); reflexivity. }
    set (s0 := frame_entry now time s) in *. cbv zeta.
    destruct (update_accounted env (time - lastTime s0) now
                (drawBackground (set_lastTime time s0))) as (_ & _ & A2).
    fold (updated env time now s0) in A2.
    change (explosions (drawBackground (set_lastTime time s0))) with (explosions s0) in A2.
    rewrite X in A2. split; [exact A2|]. split.
    + intros j x Hj Lj.
      apply (update_pushed_unflagged env (time - lastTime s0) now
               (drawBackground (set_lastTime time s0)) j x); [exact Hj|].
      change (explosions (drawBackground (set_lastTime time s0))) with (explosions s0).
      rewrite X. exact Lj.
    + rewrite E, (loop_updated env) by exact Rn.
      destruct (finish_scene env (time - lastTime s0) now (updated env time now s0)) as [Sn _].
      apply scene_inv in Sn as (S1 & _ & S3).
      split; [exact S1|]. split; [|exact S3].
      intros x. unfold drawn, drawNuclearExplosion. destruct (Explosion.alive x); reflexivity.
  - intros dt now s. destruct (update_accounted env dt now s) as (E & _ & S). auto.
  - intros now i ex s Hn.
    assert (Hi : (i < length (explosions s))%nat) by (apply nth_error_Some; congruence).
    destruct (collide_spec env now i ex s Hn)
      as (Sc & _ & _ & (ex' & El & _ & _ & _ & _ & Fb & _) & _).
    cbv zeta. rewrite Sc.
    assert (Hex : nth_error (explosions (collide env now i ex s)) i = Some ex').
    { rewrite El, nth_error_app1 by (rewrite set_nth_length; exact Hi).
      apply set_nth_nth_error. exact Hi. }
    split.
    + intros A B F C.
      assert (H : Explosion.alive ex && bomberHit ex s = true).
      { unfold bomberHit. rewrite A, B, F, C. reflexivity. }
      rewrite H in *. split; [reflexivity|]. exists ex'. auto.
    + intros F.
      assert (H : Explosion.alive ex && bomberHit ex s = false).
      { unfold bomberHit. rewrite F. cbn. rewrite andb_false_r, andb_false_r. reflexivity. }
      rewrite H in *. split; [lia|]. exists ex'. split; [exact Hex|]. rewrite Fb. exact F.
Qed.

Lemma score_counts_first_contacts_witness :
  exists s',
    run calm second_hit_run (init 800 600 0) = Some s'
    /\ score s' = 2%Z
    /\ map Explosion.hitBomber (explosions s') = [Some true; Some true; None]
    /\ live (ledger calm second_hit_run (init 800 600 0) (mkLedger [] [])) = [1%Z; 1%Z; 0%Z]
    /\ score s'
       = (total (live (ledger calm second_hit_run (init 800 600 0) (mkLedger [] [])))
          + total (closed (ledger calm second_hit_run (init 800 600 0) (mkLedger [] []))))%Z.
Proof.
  eexists.
  match goal with
  | |- ?A /\ _ => assert (HA : A) by (vm_compute; reflexivity)
  end.
  split; [exact HA|]. split; [reflexivity|]. split; [reflexivity|].
  split; [vm_compute; reflexivity|].
  exact (proj2 (proj2 (proj1 (proj2 (score_counts_first_contacts calm))
                         800 600 0 second_hit_run _ HA))).
Defined.

(** In the last frame of the witness the bomber is alive again when the
    collision loop starts, and the first explosion, flagged in the frame
    before, overlaps it once more: the point of that frame comes from the
    second explosion. *)
Example flagged_explosion_overlaps_again :
  option_map
    (fun s =>
       let m := bomberBehavior (frame_dt 30033 s) (chase_entry 30033 30033 s) in
       (Actor.alive (bomber m),
        map (fun e =>
               (Explosion.hitBomber e,
                circleHit e (Actor.x (bomber m)) (Actor.y (bomber m)) 40))
          (explosions m)))
    (run calm flyer_run (init 800 600 0))
  = Some (true, [(Some true, true); (None, true)]).
Proof. vm_compute. reflexivity. Qed.

(** The run of the witness, one frame later: the third explosion scores
    1267 ms after its birth and is spliced out by the same frame, with its
    point. *)
Example ledger_of_a_run :
  ledger calm (second_hit_run ++ [(31300, Frame 31300)]) (init 800 600 0) (mkLedger [] [])
  = mkLedger [0%Z] [1%Z; 1%Z; 1%Z]
  /\ option_map score (run calm (second_hit_run ++ [(31300, Frame 31300)]) (init 800 600 0))
     = Some 3%Z.
Proof. split; vm_compute; reflexivity. Qed.

(** * The bomber *)

Section Chase.

Variable env : Env.

(** The frame, cut where [update] reaches the bomber behaviour. *)
Lemma frame_at_chase now time s s' :
  raf_inv s -> handle env now (Frame time) s = Some s' ->
  s' = finish env (frame_dt time s) now
         (collisions env now 0
            (decayFeedback (frame_dt time s)
               (bomberBehavior (frame_dt time s) (chase_entry now time s))))
  /\ clock s <= now.
Proof.
  intros RI H. destruct (handle_frame env now time s s' RI H) as (E & R & _ & D).
  split.
  - rewrite E, (loop_running env) by exact R. unfold chase_entry. cbv zeta.
    rewrite D. reflexivity.
  - exact (proj1 (handle_clock env now _ s s' H)).
Qed.

End Chase.

(** X4.  The bomber never patrols.  In every frame of every run, in the
    state in which [update] reaches the bomber behaviour ([chase_entry],
    the state of this frame after the spawn block and the move of the
    Runner), the bomber is alive exactly when more than 30 s of the session
    have passed, and then the Runner is alive too (both are spawned by the
    same test of the session time, and a Runner that was hit is respawned
    before the bomber moves); so the branch [else if (bomber.alive)] is not
    taken: the bomber moves 3 % of the way to the point 160 px left of and
    180 px above the Runner, whatever the frame interval. *)
Theorem bomber_never_patrols
  (env : Env) (w h t0 : Q) (es : list (Q * Event)) (s : State)
  (now time : Q) (s' : State) :
  run env es (init w h t0) = Some s ->
  handle env now (Frame time) s = Some s' ->
  let dt := frame_dt time s in
  let m := chase_entry now time s in
  s' = finish env dt now (collisions env now 0 (decayFeedback dt (bomberBehavior dt m)))
  /\ (Actor.alive (bomber m) = true <-> 30000 < now - startTime s)
  /\ (Actor.alive (bomber m) = true ->
      Actor.alive (boy m) = true
      /\ bomberBehavior dt m
         = set_bomber
             (Actor.set_y
                (Actor.y (bomber m) + (Actor.y (boy m) - 180 - Actor.y (bomber m)) * 0.03)
                (Actor.set_x
                   (Actor.x (bomber m) + (Actor.x (boy m) - 160 - Actor.x (bomber m)) * 0.03)
                   (bomber m))) m).
Proof.
  intros R H dt m.
  assert (RS : reachable env s) by (exists w, h, t0, es; exact R).
  destruct (frame_at_chase env now time s s' (raf_inv_holds env s RS) H) as (E & C).
  split; [exact E|].
  assert (L : Actor.alive (bomber s) = true -> 30000 < now - startTime s).
  { intros X. pose proof (timing_not_early s (timing_inv_holds env s RS) (or_intror X)). lra. }
  set (s2 := missileFollow (drawBackground (set_lastTime time (frame_entry now time s)))).
  assert (M : boy s2 = boy s /\ bomber s2 = bomber s /\ startTime s2 = startTime s).
  { subst s2. unfold frame_entry, missileFollow, drawBackground.
    destruct (raf s); case_if; repeat split; reflexivity. }
  destruct M as (M1 & M2 & M3).
  assert (Em : m = moveBoy (time - lastTime (frame_entry now time s)) (spawnActors now s2))
    by reflexivity.
  clearbody s2.
  assert (Bm : Actor.alive (bomber m) = Actor.alive (bomber (spawnActors now s2))).
  { rewrite Em. unfold moveBoy. repeat case_if; reflexivity. }
  assert (G : Actor.alive (bomber m) = true <-> 30000 < now - startTime s).
  { rewrite Bm. unfold spawnActors, spawnBomber. cbv zeta. rewrite M3.
    destruct (Qgtb (now - startTime s) 30000) eqn:G.
    - apply Qgtb_gt in G. split; [intros _; exact G|intros _].
      repeat case_if; state_simpl; auto;
        match goal with
        | X : negb _ = false |- _ => apply negb_false_iff in X; exact X
        end.
    - split; [|intros X; apply Qgtb_gt in X; congruence].
      rewrite M2. exact L. }
  split; [exact G|]. intros A.
  assert (G' : Qgtb (now - startTime s2) 30000 = true).
  { rewrite M3. apply Qgtb_gt. apply G. exact A. }
  assert (AB : Actor.alive (boy m) = true).
  { rewrite Em. apply moveBoy_alive.
    rewrite (proj1 (spawnActors_boy now s2)), G'.
    destruct (Actor.alive (boy s2)) eqn:X; cbn [andb negb]; [exact X|reflexivity]. }
  split; [exact AB|].
  unfold bomberBehavior. rewrite A, AB. cbn [andb]. cbv zeta. reflexivity.
Qed.

Lemma bomber_never_patrols_witness :
  exists s s',
    run calm [(0, Frame 0); (30001, Frame 30001)] (init 800 600 0) = Some s
    /\ handle calm 30017 (Frame 30017) s = Some s'
    /\ Actor.alive (bomber (chase_entry 30017 30017 s)) = true
    /\ Actor.alive (boy (chase_entry 30017 30017 s)) = true
    /\ s' = finish calm (frame_dt 30017 s) 30017
              (collisions calm 30017 0
                 (decayFeedback (frame_dt 30017 s)
                    (bomberBehavior (frame_dt 30017 s) (chase_entry 30017 30017 s)))).
Proof.
  eexists. eexists.
  match goal with
  | |- ?A /\ ?B /\ _ =>
      assert (HA : A) by (vm_compute; reflexivity);
      assert (HB : B) by (vm_compute; reflexivity)
  end.
  split; [exact HA|]. split; [exact HB|].
  destruct (bomber_never_patrols calm 800 600 0 _ _ 30017 30017 _ HA HB) as (E & _ & P).
  split; [reflexivity|]. split; [apply P; reflexivity|exact E].
Defined.
